(** * HANIMAT vending firmware: the transaction core of [src/main.cpp]

    A shallow embedding of the cooperative main-loop functions of the
    firmware (keypad resolver, pulse accumulators, relay driver, dispense
    sequencer, stock notifications and the two credit handlers of the
    admin panel), followed by the properties of the specification.

    Conventions of the embedding.
    - Global variables of the sketch are fields of [State], grouped the way
      the source groups its declarations.  Everything outside the RAM of
      the controller (the millisecond clock, GPIO output levels, the I2C
      bus, the serial log, the screen, the Telegram sink, the flash store)
      is the [World] component.
    - [unsigned long] is 32 bits on the ESP32: differences of time stamps
      are taken modulo 2^32 ([ulong]).  [int] is 32 bits, two's complement
      ([to_int]).
    - [float] is IEEE 754 binary32, [double] binary64; both are the
      executable specification floats of the standard library
      ([SpecFloat]) at precision 24/128 and 53/1024.
    - The result of an I2C transaction ([Wire.endTransmission]) is decided
      by the bus, not by the program: every function that ends a
      transmission takes the returned error byte as an argument.
    - Interrupt handlers are atomic events that run between two calls of
      the main-loop functions.
    - [server.handleClient()] inside the error dwell is the request pump of
      the admin panel; the panel's handlers are operations of their own
      here, and the dwell is modelled with no request being served. *)

From Stdlib Require Import ZArith List String Ascii Bool Lia.
From Stdlib Require Import Floats.SpecFloat.
From Stdlib Require Import DecimalString.
Import ListNotations.
Local Open Scope Z_scope.

Set Primitive Projections.

(** ** Machine integers *)

(** Conversion to [unsigned long] / [size_t] (32 bits). *)
Definition ulong (z : Z) : Z := z mod 2 ^ 32.

(** Conversion to [int] (32 bits, two's complement). *)
Definition to_int (z : Z) : Z := (z + 2 ^ 31) mod 2 ^ 32 - 2 ^ 31.

(** Conversion to [uint16_t] and [uint8_t]. *)
Definition uint16 (z : Z) : Z := Z.land z 65535.
Definition uint8 (z : Z) : Z := Z.land z 255.

(** ** Floating point *)

Definition float := spec_float.

(** binary32 *)
Definition f32_prec : Z := 24.
Definition f32_emax : Z := 128.
Definition f32_zero : float := S754_zero false.
Definition f32_add : float -> float -> float := SFadd f32_prec f32_emax.
Definition f32_sub : float -> float -> float := SFsub f32_prec f32_emax.
Definition f32_ltb : float -> float -> bool := SFltb.
Definition f32_leb : float -> float -> bool := SFleb.
Definition f32_eqb : float -> float -> bool := SFeqb.
(** [(float)i] for an [int] i. *)
Definition f32_of_int (i : Z) : float :=
  binary_normalize f32_prec f32_emax i 0 false.

(** binary64 *)
Definition f64_prec : Z := 53.
Definition f64_emax : Z := 1024.
Definition f64_add : float -> float -> float := SFadd f64_prec f64_emax.
Definition f64_div : float -> float -> float := SFdiv f64_prec f64_emax.
Definition f64_of_int (i : Z) : float :=
  binary_normalize f64_prec f64_emax i 0 false.
(** Promotion [float] -> [double] is exact: the same value. *)
Definition f64_of_f32 (x : float) : float := x.
(** Conversion [double] -> [float]: one rounding to nearest even. *)
Definition f64_to_f32 (x : float) : float :=
  match x with
  | S754_finite s m e => binary_round f32_prec f32_emax s m e
  | _ => x
  end.

(** [credit += (float)coinValueCents / 100.0]: the literal [100.0] is a
    [double], so the quotient and the sum are computed in binary64 and the
    sum is rounded back to binary32 by the assignment. *)
Definition creditAddCents (credit : float) (cents : Z) : float :=
  f64_to_f32
    (f64_add (f64_of_f32 credit)
             (f64_div (f64_of_f32 (f32_of_int cents)) (f64_of_int 100))).

(** [credit += billValueEuros]: the [int] is converted to [float]. *)
Definition creditAddEuros (credit : float) (euros : Z) : float :=
  f32_add credit (f32_of_int euros).

(** [credit -= price; if (credit < 0) credit = 0;] *)
Definition creditDebit (credit price : float) : float :=
  let c := f32_sub credit price in
  if f32_ltb c f32_zero then f32_zero else c.

(** ** Configuration constants *)

Definition MAX_SLOTS : Z := 16.
Definition DEFAULT_MAX_SLOTS : Z := 16.
Definition STARTUP_IGNORE_BILL_TIME : Z := 5000.
Definition KEYPAD_DEBOUNCE_PERIOD : Z := 50.
Definition KEYPAD_ROWS : nat := 4.
Definition KEYPAD_COLS : nat := 3.

(** Pulse count -> cents (coins) and pulse count -> euros (bills). *)
Definition pulseValues : list Z := [0; 0; 10; 20; 50; 100; 200].
Definition billValues : list Z :=
  [0; 0; 0; 0; 5; 0; 0; 0; 10; 0; 0; 0; 0; 0; 0; 0; 20].

Definition keys : list (list ascii) :=
  [ ["1"; "2"; "3"]; ["4"; "5"; "6"]; ["7"; "8"; "9"]; ["*"; "0"; "#"] ]%char.

(** The [char] value 0 stands for "no key". *)
Definition NOKEY : ascii := Ascii.zero.

(** ** Data model *)

Inductive CurrentSystemState :=
  IDLE | USER_INTERACTION | ERROR_DISPLAY | OTA_UPDATE.

Inductive PinLevel := LOW | HIGH.

(** The timing values the sketch loads from the store at boot. *)
Record Timing := {
  COIN_PROCESSING_DELAY : Z;
  BILL_ISR_DEBOUNCE_MS : Z;
  BILL_GROUP_PROCESSING_TIMEOUT_MS : Z;
  DISPENSE_RELAY_ON_TIME : Z
}.

Record KeypadState := {
  lastPhysicallyPressedKey : ascii;
  lastReturnedKey : ascii;
  lastKeyPressTime : Z
}.

Record UserInput := {
  keypadInputBuffer : string;
  lastKeypadInputTime : Z;
  selectedSlot : Z;
  slotSelectedTime : Z
}.

Record Ui := {
  currentSystemState : CurrentSystemState;
  displayNeedsUpdate : bool;
  lastUserInteractionTime : Z
}.

Record SlotData := {
  slotPrices : list float;
  slotAvailable : list bool;
  slotLocked : list bool;
  activeSlots : Z
}.

Record Notify := {
  almostEmptyThreshold : Z;
  almostEmptyNotificationSent : bool;
  emptyNotificationSent : bool;
  telegramEnabled : bool;
  telegramNotifyOnSale : bool;
  telegramNotifyAlmostEmpty : bool;
  telegramNotifyEmpty : bool;
  telegramBotToken : string;
  telegramChatId : string
}.

Record Payment := {
  credit : float;
  coinPulseCount : Z;
  lastCoinPulseTime : Z;
  billAcceptorPulseCount : Z;
  lastBillPulseEdgeTime : Z;
  lastBillDebounceEdgeTime : Z
}.

Record DispenseJob := {
  active : bool;
  slot : Z;
  startTime : Z;
  relayActivated : bool
}.

Record Relay := {
  expanderOutputStates : Z;
  lastRelayChangeTime : Z
}.

Record Web := {
  isAuthenticated : bool;
  lastActivityTimeWeb : Z
}.

(** *** Observable outputs *)

Inductive ErrorMsg :=
| ErrSlotLocked (slotNo : Z)        (* "Fach n" / "gesperrt!" *)
| ErrSlotEmpty (slotNo : Z)         (* "Fach n" / "ist leer!" *)
| ErrCreditTooLow                   (* "Guthaben" / "zu gering!" *)
| ErrNoSlotChosen                   (* "Kein Fach" / "gewaehlt!" *)
| ErrSlotInvalid (buffer : string)  (* "Fach <buffer>" / "ungueltig!" *)
| ErrBoardOffline                   (* "Relais Fehler" / "Board offline" *)
| ErrPurchaseAborted.               (* "Relais Fehler" / "Kauf abgebrochen" *)

Inductive Screen :=
| ScreenError (e : ErrorMsg)
| ScreenPreparing (slotNo : Z)      (* "Fach n wird vorbereitet..." *)
| ScreenThanks (slotNo : Z).        (* "Danke!" / "Fach n offen." *)

Inductive TelegramMsg :=
| MsgSale (slotNo : Z)
| MsgAlmostEmpty (available : Z)
| MsgEmpty.

Inductive LogMsg :=
| LogKey (key : ascii)
| LogBufferUpdated (buffer : string)
| LogFinalizing (buffer : string)
| LogCancel
| LogSelectionInput (buffer : string) (slotNum : Z)
| LogSlotSelected (slotNo : Z)
| LogSelectionFinal (buffer : string)
| LogWaitingSecondDigit
| LogPurchaseAttempt (slotNo : Z) (c price : float)
| LogRelayInvalidSlot (s : Z)
| LogRelaySent (slotNo : Z) (activate : bool)
| LogRelayI2CFailed (slotNo : Z) (code : Z)
| LogBoardUnreachable (code : Z)
| LogScheduleCalled (slotNo : Z)
| LogScheduleIgnored
| LogScheduled (slotNo : Z)
| LogActivateError (slotNo : Z)
| LogPurchaseComplete (slotNo : Z) (c : float)
| LogDispenseElapsed (slotNo : Z)
| LogCoinProcessing (pulses : Z)
| LogCoinAccepted (pulses cents : Z) (c : float)
| LogCoinZeroValue (pulses : Z)
| LogCoinInvalid (pulses : Z)
| LogBillNoise (pulses : Z)
| LogBillProcessing (pulses : Z)
| LogBillAccepted (pulses euros : Z) (c : float)
| LogBillZeroValue (pulses : Z)
| LogBillInvalid (pulses : Z)
| LogDisplayError (e : ErrorMsg)
| LogTelegramDisabled
| LogTelegramOffline
| LogTelegramSending (m : TelegramMsg)
| LogTelegramSent
| LogTelegramFailed
| LogTelegramNotConfigured
| LogStockHighAgain
| LogWebCreditAdjusted (amount c : float)
| LogWebCreditReset.

(** The flash key/value store, by key: ["credit"] and ["avail<i>"]. *)
Record Preferences := {
  nvCredit : float;
  nvAvail : list bool
}.

(** Everything outside the controller's RAM.  Traces are newest first. *)
Record World := {
  clock : Z;                       (* millis() *)
  billInhibitPin : PinLevel;       (* BILL_INHIBIT_PIN *)
  wire : list (Z * Z);             (* (register, data) written to 0x20 *)
  serial : list LogMsg;            (* logMessage *)
  tft : list Screen;               (* full-screen messages drawn *)
  telegramOutbox : list TelegramMsg;
  preferences : Preferences;
  offlineMode : bool;              (* OFFLINE_MODE_PIN reads LOW *)
  wifiConnected : bool;            (* WiFi.status() == WL_CONNECTED *)
  botDelivers : bool               (* result of bot.sendMessage *)
}.

Record State := {
  timing : Timing;
  keypad : KeypadState;
  input : UserInput;
  ui : Ui;
  slots : SlotData;
  notify : Notify;
  pay : Payment;
  dispenseJob : DispenseJob;
  relay : Relay;
  web : Web;
  world : World
}.

(** ** Field updates *)

Definition with_keypad (k : KeypadState) (st : State) : State :=
  {| timing := timing st; keypad := k; input := input st; ui := ui st;
     slots := slots st; notify := notify st; pay := pay st;
     dispenseJob := dispenseJob st; relay := relay st; web := web st;
     world := world st |}.

Definition with_input (i : UserInput) (st : State) : State :=
  {| timing := timing st; keypad := keypad st; input := i; ui := ui st;
     slots := slots st; notify := notify st; pay := pay st;
     dispenseJob := dispenseJob st; relay := relay st; web := web st;
     world := world st |}.

Definition with_ui (u : Ui) (st : State) : State :=
  {| timing := timing st; keypad := keypad st; input := input st; ui := u;
     slots := slots st; notify := notify st; pay := pay st;
     dispenseJob := dispenseJob st; relay := relay st; web := web st;
     world := world st |}.

Definition with_slots (s : SlotData) (st : State) : State :=
  {| timing := timing st; keypad := keypad st; input := input st; ui := ui st;
     slots := s; notify := notify st; pay := pay st;
     dispenseJob := dispenseJob st; relay := relay st; web := web st;
     world := world st |}.

Definition with_notify (n : Notify) (st : State) : State :=
  {| timing := timing st; keypad := keypad st; input := input st; ui := ui st;
     slots := slots st; notify := n; pay := pay st;
     dispenseJob := dispenseJob st; relay := relay st; web := web st;
     world := world st |}.

Definition with_pay (p : Payment) (st : State) : State :=
  {| timing := timing st; keypad := keypad st; input := input st; ui := ui st;
     slots := slots st; notify := notify st; pay := p;
     dispenseJob := dispenseJob st; relay := relay st; web := web st;
     world := world st |}.

Definition with_job (j : DispenseJob) (st : State) : State :=
  {| timing := timing st; keypad := keypad st; input := input st; ui := ui st;
     slots := slots st; notify := notify st; pay := pay st;
     dispenseJob := j; relay := relay st; web := web st;
     world := world st |}.

Definition with_relay (r : Relay) (st : State) : State :=
  {| timing := timing st; keypad := keypad st; input := input st; ui := ui st;
     slots := slots st; notify := notify st; pay := pay st;
     dispenseJob := dispenseJob st; relay := r; web := web st;
     world := world st |}.

Definition with_web (w : Web) (st : State) : State :=
  {| timing := timing st; keypad := keypad st; input := input st; ui := ui st;
     slots := slots st; notify := notify st; pay := pay st;
     dispenseJob := dispenseJob st; relay := relay st; web := w;
     world := world st |}.

Definition with_world (w : World) (st : State) : State :=
  {| timing := timing st; keypad := keypad st; input := input st; ui := ui st;
     slots := slots st; notify := notify st; pay := pay st;
     dispenseJob := dispenseJob st; relay := relay st; web := web st;
     world := w |}.

(** *** User input and display state *)

Definition set_keypadInputBuffer (b : string) (st : State) : State :=
  with_input {| keypadInputBuffer := b;
                lastKeypadInputTime := lastKeypadInputTime (input st);
                selectedSlot := selectedSlot (input st);
                slotSelectedTime := slotSelectedTime (input st) |} st.

Definition set_lastKeypadInputTime (t : Z) (st : State) : State :=
  with_input {| keypadInputBuffer := keypadInputBuffer (input st);
                lastKeypadInputTime := t;
                selectedSlot := selectedSlot (input st);
                slotSelectedTime := slotSelectedTime (input st) |} st.

Definition set_selectedSlot (s : Z) (st : State) : State :=
  with_input {| keypadInputBuffer := keypadInputBuffer (input st);
                lastKeypadInputTime := lastKeypadInputTime (input st);
                selectedSlot := s;
                slotSelectedTime := slotSelectedTime (input st) |} st.

Definition set_slotSelectedTime (t : Z) (st : State) : State :=
  with_input {| keypadInputBuffer := keypadInputBuffer (input st);
                lastKeypadInputTime := lastKeypadInputTime (input st);
                selectedSlot := selectedSlot (input st);
                slotSelectedTime := t |} st.

Definition set_currentSystemState (s : CurrentSystemState) (st : State) : State :=
  with_ui {| currentSystemState := s;
             displayNeedsUpdate := displayNeedsUpdate (ui st);
             lastUserInteractionTime := lastUserInteractionTime (ui st) |} st.

Definition set_displayNeedsUpdate (b : bool) (st : State) : State :=
  with_ui {| currentSystemState := currentSystemState (ui st);
             displayNeedsUpdate := b;
             lastUserInteractionTime := lastUserInteractionTime (ui st) |} st.

Definition set_lastUserInteractionTime (t : Z) (st : State) : State :=
  with_ui {| currentSystemState := currentSystemState (ui st);
             displayNeedsUpdate := displayNeedsUpdate (ui st);
             lastUserInteractionTime := t |} st.

(** *** Slots, credit, job, relay *)

Definition set_slotAvailable (a : list bool) (st : State) : State :=
  with_slots {| slotPrices := slotPrices (slots st);
                slotAvailable := a;
                slotLocked := slotLocked (slots st);
                activeSlots := activeSlots (slots st) |} st.

Definition set_credit (c : float) (st : State) : State :=
  with_pay {| credit := c;
              coinPulseCount := coinPulseCount (pay st);
              lastCoinPulseTime := lastCoinPulseTime (pay st);
              billAcceptorPulseCount := billAcceptorPulseCount (pay st);
              lastBillPulseEdgeTime := lastBillPulseEdgeTime (pay st);
              lastBillDebounceEdgeTime := lastBillDebounceEdgeTime (pay st) |} st.

Definition set_coinPulseCount (n : Z) (st : State) : State :=
  with_pay {| credit := credit (pay st);
              coinPulseCount := n;
              lastCoinPulseTime := lastCoinPulseTime (pay st);
              billAcceptorPulseCount := billAcceptorPulseCount (pay st);
              lastBillPulseEdgeTime := lastBillPulseEdgeTime (pay st);
              lastBillDebounceEdgeTime := lastBillDebounceEdgeTime (pay st) |} st.

Definition set_lastCoinPulseTime (t : Z) (st : State) : State :=
  with_pay {| credit := credit (pay st);
              coinPulseCount := coinPulseCount (pay st);
              lastCoinPulseTime := t;
              billAcceptorPulseCount := billAcceptorPulseCount (pay st);
              lastBillPulseEdgeTime := lastBillPulseEdgeTime (pay st);
              lastBillDebounceEdgeTime := lastBillDebounceEdgeTime (pay st) |} st.

Definition set_billAcceptorPulseCount (n : Z) (st : State) : State :=
  with_pay {| credit := credit (pay st);
              coinPulseCount := coinPulseCount (pay st);
              lastCoinPulseTime := lastCoinPulseTime (pay st);
              billAcceptorPulseCount := n;
              lastBillPulseEdgeTime := lastBillPulseEdgeTime (pay st);
              lastBillDebounceEdgeTime := lastBillDebounceEdgeTime (pay st) |} st.

Definition set_billEdgeTimes (t : Z) (st : State) : State :=
  with_pay {| credit := credit (pay st);
              coinPulseCount := coinPulseCount (pay st);
              lastCoinPulseTime := lastCoinPulseTime (pay st);
              billAcceptorPulseCount := billAcceptorPulseCount (pay st);
              lastBillPulseEdgeTime := t;
              lastBillDebounceEdgeTime := t |} st.

Definition set_active (b : bool) (st : State) : State :=
  with_job {| active := b;
              slot := slot (dispenseJob st);
              startTime := startTime (dispenseJob st);
              relayActivated := relayActivated (dispenseJob st) |} st.

Definition set_expanderOutputStates (m : Z) (st : State) : State :=
  with_relay {| expanderOutputStates := m;
                lastRelayChangeTime := lastRelayChangeTime (relay st) |} st.

Definition set_lastRelayChangeTime (t : Z) (st : State) : State :=
  with_relay {| expanderOutputStates := expanderOutputStates (relay st);
                lastRelayChangeTime := t |} st.

Definition set_notificationFlags (almost empty : bool) (st : State) : State :=
  with_notify {| almostEmptyThreshold := almostEmptyThreshold (notify st);
                 almostEmptyNotificationSent := almost;
                 emptyNotificationSent := empty;
                 telegramEnabled := telegramEnabled (notify st);
                 telegramNotifyOnSale := telegramNotifyOnSale (notify st);
                 telegramNotifyAlmostEmpty := telegramNotifyAlmostEmpty (notify st);
                 telegramNotifyEmpty := telegramNotifyEmpty (notify st);
                 telegramBotToken := telegramBotToken (notify st);
                 telegramChatId := telegramChatId (notify st) |} st.

Definition set_lastActivityTimeWeb (t : Z) (st : State) : State :=
  with_web {| isAuthenticated := isAuthenticated (web st);
              lastActivityTimeWeb := t |} st.

(** *** The world *)

Definition set_clock (t : Z) (st : State) : State :=
  let w := world st in
  with_world {| clock := t; billInhibitPin := billInhibitPin w; wire := wire w;
                serial := serial w; tft := tft w;
                telegramOutbox := telegramOutbox w;
                preferences := preferences w; offlineMode := offlineMode w;
                wifiConnected := wifiConnected w; botDelivers := botDelivers w |} st.

Definition set_billInhibitPin (l : PinLevel) (st : State) : State :=
  let w := world st in
  with_world {| clock := clock w; billInhibitPin := l; wire := wire w;
                serial := serial w; tft := tft w;
                telegramOutbox := telegramOutbox w;
                preferences := preferences w; offlineMode := offlineMode w;
                wifiConnected := wifiConnected w; botDelivers := botDelivers w |} st.

Definition set_wire (l : list (Z * Z)) (st : State) : State :=
  let w := world st in
  with_world {| clock := clock w; billInhibitPin := billInhibitPin w; wire := l;
                serial := serial w; tft := tft w;
                telegramOutbox := telegramOutbox w;
                preferences := preferences w; offlineMode := offlineMode w;
                wifiConnected := wifiConnected w; botDelivers := botDelivers w |} st.

Definition set_serial (l : list LogMsg) (st : State) : State :=
  let w := world st in
  with_world {| clock := clock w; billInhibitPin := billInhibitPin w; wire := wire w;
                serial := l; tft := tft w;
                telegramOutbox := telegramOutbox w;
                preferences := preferences w; offlineMode := offlineMode w;
                wifiConnected := wifiConnected w; botDelivers := botDelivers w |} st.

Definition set_tft (l : list Screen) (st : State) : State :=
  let w := world st in
  with_world {| clock := clock w; billInhibitPin := billInhibitPin w; wire := wire w;
                serial := serial w; tft := l;
                telegramOutbox := telegramOutbox w;
                preferences := preferences w; offlineMode := offlineMode w;
                wifiConnected := wifiConnected w; botDelivers := botDelivers w |} st.

Definition set_telegramOutbox (l : list TelegramMsg) (st : State) : State :=
  let w := world st in
  with_world {| clock := clock w; billInhibitPin := billInhibitPin w; wire := wire w;
                serial := serial w; tft := tft w;
                telegramOutbox := l;
                preferences := preferences w; offlineMode := offlineMode w;
                wifiConnected := wifiConnected w; botDelivers := botDelivers w |} st.

Definition set_preferences (p : Preferences) (st : State) : State :=
  let w := world st in
  with_world {| clock := clock w; billInhibitPin := billInhibitPin w; wire := wire w;
                serial := serial w; tft := tft w;
                telegramOutbox := telegramOutbox w;
                preferences := p; offlineMode := offlineMode w;
                wifiConnected := wifiConnected w; botDelivers := botDelivers w |} st.

(** ** Arrays *)

(** [a[i]]; the sketch only indexes its slot arrays inside [0, MAX_SLOTS). *)
Definition aget {A : Type} (d : A) (a : list A) (i : Z) : A :=
  nth (Z.to_nat i) a d.

(** [a[i] = v]; an index outside the array leaves it alone. *)
Fixpoint aset_nat {A : Type} (a : list A) (i : nat) (v : A) : list A :=
  match a, i with
  | [], _ => []
  | _ :: r, O => v :: r
  | x :: r, S j => x :: aset_nat r j v
  end.

Definition aset {A : Type} (a : list A) (i : Z) (v : A) : list A :=
  if i <? 0 then a else aset_nat a (Z.to_nat i) v.

(** ** Arduino primitives *)

Definition millis (st : State) : Z := clock (world st).

(** [delay(ms)]: the clock moves on, wrapping at 2^32. *)
Definition delay (ms : Z) (st : State) : State :=
  set_clock (ulong (millis st + ms)) st.

Definition digitalWrite_BILL_INHIBIT (l : PinLevel) (st : State) : State :=
  set_billInhibitPin l st.

Definition logMessage (m : LogMsg) (st : State) : State :=
  set_serial (m :: serial (world st)) st.

Definition draw (s : Screen) (st : State) : State :=
  set_tft (s :: tft (world st)) st.

Definition isdigit (c : ascii) : bool :=
  let n := Z.of_N (N_of_ascii c) in (48 <=? n) && (n <=? 57).

Definition isspace (c : ascii) : bool :=
  let n := Z.of_N (N_of_ascii c) in (n =? 32) || ((9 <=? n) && (n <=? 13)).

(** [String::toInt()] is [atol], that is [strtol] in base 10: blanks, an
    optional sign, then the leading decimal digits.  [long] has 32 bits on
    the ESP32, and a number outside its range is returned as [LONG_MAX] or
    [LONG_MIN]. *)
Definition LONG_MAX : Z := 2147483647.
Definition LONG_MIN : Z := -2147483648.

Definition saturate_long (z : Z) : Z := Z.max LONG_MIN (Z.min LONG_MAX z).

Fixpoint atol_digits (s : string) (acc : Z) : Z :=
  match s with
  | String c r =>
      if isdigit c then atol_digits r (acc * 10 + (Z.of_N (N_of_ascii c) - 48))
      else acc
  | EmptyString => acc
  end.

Fixpoint skip_blanks (s : string) : string :=
  match s with
  | String c r => if isspace c then skip_blanks r else s
  | EmptyString => s
  end.

Definition toInt (s : string) : Z :=
  saturate_long
    match skip_blanks s with
    | String "-"%char r => - atol_digits r 0
    | String "+"%char r => atol_digits r 0
    | t => atol_digits t 0
    end.

Definition strlen (s : string) : Z := Z.of_nat (String.length s).

(** [s += c] *)
Definition append_char (s : string) (c : ascii) : string :=
  (s ++ String c EmptyString)%string.

(** ** Helper functions of the sketch *)

Definition playKeyPressBeep (st : State) : State := delay 50 st.

Definition playErrorSound (st : State) : State := delay 250 (delay 150 st).

(** Seven notes, each held for its duration and followed by a 50 ms gap. *)
Definition noteDurations : list Z := [150; 150; 300; 150; 150; 300; 400].

Definition playThankYouMelody (st : State) : State :=
  fold_left (fun s d => delay 50 (delay d s)) noteDurations st.

(** [checkRelayBoardOnline]: an empty transmission to the board; [error] is
    what [Wire.endTransmission] returned. *)
Definition checkRelayBoardOnline (error : Z) (st : State) : bool * State :=
  let st := if negb (error =? 0) then logMessage (LogBoardUnreachable error) st
            else st in
  (error =? 0, st).

Definition sendTelegramMessage (m : TelegramMsg) (st : State) : State :=
  if negb (telegramEnabled (notify st)) then logMessage LogTelegramDisabled st
  else if offlineMode (world st) || negb (wifiConnected (world st)) then
    logMessage LogTelegramOffline st
  else if (0 <? strlen (telegramBotToken (notify st)))
          && (0 <? strlen (telegramChatId (notify st))) then
    let st := logMessage (LogTelegramSending m) st in
    let st := set_telegramOutbox (m :: telegramOutbox (world st)) st in
    if botDelivers (world st) then logMessage LogTelegramSent st
    else logMessage LogTelegramFailed st
  else logMessage LogTelegramNotConfigured st.

(** ** Interrupt service routines *)

Definition coinAcceptorISR (st : State) : State :=
  let st := set_coinPulseCount (to_int (coinPulseCount (pay st) + 1)) st in
  set_lastCoinPulseTime (millis st) st.

Definition billAcceptorISR (st : State) : State :=
  let currentMillis := millis st in
  if currentMillis <? STARTUP_IGNORE_BILL_TIME then st
  else if BILL_ISR_DEBOUNCE_MS (timing st)
          <? ulong (currentMillis - lastBillDebounceEdgeTime (pay st)) then
    let st := set_billAcceptorPulseCount
                (ulong (billAcceptorPulseCount (pay st) + 1)) st in
    set_billEdgeTimes currentMillis st
  else st.

(** ** Keypad resolver *)

(** What [digitalRead(colPins[c])] returns while row [r] is driven. *)
Definition KeypadPins := nat -> nat -> bool.

(** The inner loop: the first column that reads HIGH in row [r]. *)
Definition scanRow (pins : KeypadPins) (r : nat) : ascii :=
  match find (fun c => pins r c) (seq 0 KEYPAD_COLS) with
  | Some c => nth c (nth r keys []) NOKEY
  | None => NOKEY
  end.

(** The outer loop: the first row in which a key was found. *)
Definition scanKeypad (pins : KeypadPins) : ascii :=
  match find (fun r => negb (Ascii.eqb (scanRow pins r) NOKEY)) (seq 0 KEYPAD_ROWS) with
  | Some r => scanRow pins r
  | None => NOKEY
  end.

(** The debounce logic of [manualGetKeyState], on the key the scan found. *)
Definition debounceKey (currentPhysicalKey : ascii) (st : State) : ascii * State :=
  let now := millis st in
  let k := keypad st in
  if negb (Ascii.eqb currentPhysicalKey (lastPhysicallyPressedKey k)) then
    (NOKEY,
     with_keypad
       {| lastPhysicallyPressedKey := currentPhysicalKey;
          lastReturnedKey :=
            if Ascii.eqb currentPhysicalKey NOKEY then NOKEY
            else lastReturnedKey k;
          lastKeyPressTime := now |} st)
  else if negb (Ascii.eqb currentPhysicalKey NOKEY)
          && (KEYPAD_DEBOUNCE_PERIOD <? ulong (now - lastKeyPressTime k)) then
    if negb (Ascii.eqb currentPhysicalKey (lastReturnedKey k)) then
      (currentPhysicalKey,
       with_keypad
         {| lastPhysicallyPressedKey := lastPhysicallyPressedKey k;
            lastReturnedKey := currentPhysicalKey;
            lastKeyPressTime := lastKeyPressTime k |} st)
    else (NOKEY, st)
  else (NOKEY, st).

Definition manualGetKeyState (pins : KeypadPins) (st : State) : ascii * State :=
  debounceKey (scanKeypad pins) st.

(** ** Display state *)

Definition resetDisplayToDefault (st : State) : State :=
  let st := set_selectedSlot (-1) st in
  let st := set_keypadInputBuffer "" st in
  let st := set_currentSystemState IDLE st in
  let st := set_displayNeedsUpdate true st in
  set_lastUserInteractionTime (millis st) st.

(** [while (millis() - errorTime < 3000) { server.handleClient(); delay(10); }] *)
Fixpoint errorDwell (fuel : nat) (errorTime : Z) (st : State) : State :=
  match fuel with
  | O => st
  | S n =>
      if ulong (millis st - errorTime) <? 3000
      then errorDwell n errorTime (delay 10 st)
      else st
  end.

Definition displayErrorMessage (e : ErrorMsg) (st : State) : State :=
  let st := logMessage (LogDisplayError e) st in
  let st := set_currentSystemState ERROR_DISPLAY st in
  let st := draw (ScreenError e) st in
  let st := playErrorSound st in
  let st := set_displayNeedsUpdate false st in
  let st := errorDwell 300 (millis st) st in
  resetDisplayToDefault st.

(** ** Slot selection *)

(** The local [isFinal] of [processKeypadSelection]: two digits entered, or
    fewer than ten slots, or a single digit too high to start a valid
    two-digit number. *)
Definition selectionIsFinal (buf : string) (n : Z) : bool :=
  let isFinal := (strlen buf =? 2) || (n <? 10) in
  if (strlen buf =? 1) && (10 <=? n) then
    if Z.quot n 10 <? toInt buf then true else isFinal
  else isFinal.

Definition processKeypadSelection (st : State) : State :=
  let buf := keypadInputBuffer (input st) in
  if strlen buf =? 0 then st
  else
    let slotNum := toInt buf in
    let st := logMessage (LogSelectionInput buf slotNum) st in
    let n := activeSlots (slots st) in
    let st :=
      if (1 <=? slotNum) && (slotNum <=? n) then
        let st := set_selectedSlot (slotNum - 1) st in
        let st := logMessage (LogSlotSelected (selectedSlot (input st) + 1)) st in
        let st := set_slotSelectedTime (millis st) st in
        let st := set_currentSystemState USER_INTERACTION st in
        if selectionIsFinal buf n then
          set_keypadInputBuffer "" (logMessage (LogSelectionFinal buf) st)
        else logMessage LogWaitingSecondDigit st
      else if strlen buf =? 2 then
        let st := displayErrorMessage (ErrSlotInvalid buf) st in
        let st := set_selectedSlot (-1) st in
        set_keypadInputBuffer "" st
      else st in
    set_displayNeedsUpdate true st.

(** ** Relay driver *)

(** [error] is the result of the [Wire.endTransmission] that ends the write. *)
Definition controlSlotRelay (s : Z) (activate : bool) (error : Z) (st : State)
  : bool * State :=
  if (s <? 0) || (MAX_SLOTS <=? s) then
    (false, logMessage (LogRelayInvalidSlot s) st)
  else
    let mask := expanderOutputStates (relay st) in
    let mask :=
      if activate then uint16 (Z.lor mask (Z.shiftl 1 s))
      else uint16 (Z.land mask (Z.lnot (Z.shiftl 1 s))) in
    let st := set_expanderOutputStates mask st in
    let relayCommand := if s <? 8 then 2 else 3 in
    let dataByte :=
      if s <? 8 then uint8 (Z.land mask 255) else uint8 (Z.shiftr mask 8) in
    let st := set_wire ((relayCommand, dataByte) :: wire (world st)) st in
    if error =? 0 then
      let st := logMessage (LogRelaySent (s + 1) activate) st in
      (true, set_lastRelayChangeTime (millis st) st)
    else
      (false, logMessage (LogRelayI2CFailed (s + 1) error) st).

(** ** Stock level *)

(** The loop [for (i = 0; i < activeSlots; i++) if (p(i)) count++]. *)
Definition countSlots (p : Z -> bool) (n : Z) : Z :=
  fold_left (fun count i => if p (Z.of_nat i) then count + 1 else count)
            (seq 0 (Z.to_nat n)) 0.

Definition countAvailableSlots (st : State) : Z :=
  countSlots (fun i => aget false (slotAvailable (slots st)) i
                       && negb (aget false (slotLocked (slots st)) i))
             (activeSlots (slots st)).

Definition countEmptySlots (st : State) : Z :=
  countSlots (fun i => negb (aget false (slotAvailable (slots st)) i)
                       && negb (aget false (slotLocked (slots st)) i))
             (activeSlots (slots st)).

Definition checkOverallStockLevel (st : State) : State :=
  let totalAvailable := countAvailableSlots st in
  let n := notify st in
  if telegramNotifyAlmostEmpty n && (0 <? totalAvailable)
     && (totalAvailable <=? almostEmptyThreshold n)
     && negb (almostEmptyNotificationSent n) then
    let st := sendTelegramMessage (MsgAlmostEmpty totalAvailable) st in
    set_notificationFlags true false st
  else if telegramNotifyEmpty n && (totalAvailable =? 0)
          && negb (emptyNotificationSent n) then
    let st := sendTelegramMessage MsgEmpty st in
    set_notificationFlags true true st
  else if almostEmptyThreshold n <? totalAvailable then
    let st := if almostEmptyNotificationSent n || emptyNotificationSent n
              then logMessage LogStockHighAgain st else st in
    set_notificationFlags false false st
  else st.

(** ** Dispense sequencer *)

(** [probe] is the result of the liveness probe, should it be sent. *)
Definition scheduleDispense (slotToDispense : Z) (probe : Z) (st : State) : State :=
  let st := logMessage (LogScheduleCalled (slotToDispense + 1)) st in
  if active (dispenseJob st) then logMessage LogScheduleIgnored st
  else
    let '(online, st) := checkRelayBoardOnline probe st in
    if negb online then displayErrorMessage ErrBoardOffline st
    else
      let st := with_job {| active := true;
                            slot := slotToDispense;
                            startTime := millis st;
                            relayActivated := false |} st in
      let st := logMessage (LogScheduled (slotToDispense + 1)) st in
      let st := set_currentSystemState USER_INTERACTION st in
      let st := draw (ScreenPreparing (slot (dispenseJob st) + 1)) st in
      set_displayNeedsUpdate true st.

(** Step 2 of [processDispenseJob]: deactivate the relay after the timeout.
    [errOff] is the result of the I2C write, should it be sent. *)
Definition dispenseStep2 (currentTime : Z) (errOff : Z) (st : State) : State :=
  if relayActivated (dispenseJob st)
     && (DISPENSE_RELAY_ON_TIME (timing st)
         <=? ulong (currentTime - startTime (dispenseJob st))) then
    let st := logMessage (LogDispenseElapsed (slot (dispenseJob st) + 1)) st in
    let '(_, st) := controlSlotRelay (slot (dispenseJob st)) false errOff st in
    let st := set_active false st in
    let st := digitalWrite_BILL_INHIBIT LOW st in
    resetDisplayToDefault st
  else st.

(** [errOn] and [errOff] are the results of the I2C writes that switch the
    relay on (step 1) and off (step 2), should they be sent. *)
Definition processDispenseJob (errOn errOff : Z) (st : State) : State :=
  if negb (active (dispenseJob st)) then st
  else
    let currentTime := millis st in
    let st := set_currentSystemState USER_INTERACTION st in
    (* Step 1: activate the relay and process the payment. *)
    if negb (relayActivated (dispenseJob st)) then
      let st := digitalWrite_BILL_INHIBIT HIGH st in
      let '(ok, st) := controlSlotRelay (slot (dispenseJob st)) true errOn st in
      if negb ok then
        let st := logMessage (LogActivateError (slot (dispenseJob st) + 1)) st in
        let st := displayErrorMessage ErrPurchaseAborted st in
        let st := set_active false st in
        let st := digitalWrite_BILL_INHIBIT LOW st in
        resetDisplayToDefault st
      else
        let s := slot (dispenseJob st) in
        let st := set_credit
                    (creditDebit (credit (pay st))
                                 (aget f32_zero (slotPrices (slots st)) s)) st in
        let st := set_slotAvailable (aset (slotAvailable (slots st)) s false) st in
        let st := logMessage (LogPurchaseComplete (s + 1) (credit (pay st))) st in
        let st := set_preferences
                    {| nvCredit := credit (pay st);
                       nvAvail := aset (nvAvail (preferences (world st))) s
                                       (aget false (slotAvailable (slots st)) s) |}
                    st in
        let st := if telegramNotifyOnSale (notify st)
                  then sendTelegramMessage (MsgSale (s + 1)) st else st in
        let st := checkOverallStockLevel st in
        let st := playThankYouMelody st in
        let st := draw (ScreenThanks (s + 1)) st in
        let st := with_job {| active := active (dispenseJob st);
                              slot := s;
                              startTime := currentTime;
                              relayActivated := true |} st in
        let st := set_displayNeedsUpdate true st in
        dispenseStep2 currentTime errOff st
    else dispenseStep2 currentTime errOff st.

(** ** Keypad dispatch *)

(** The body of [processKeypad] once [manualGetKeyState] has returned a
    key: tone, log, then the digit / [#] / [*] branches. *)
Definition processResolvedKey (key : ascii) (probe : Z) (st : State) : State :=
  let st := playKeyPressBeep st in
  let st := logMessage (LogKey key) st in
  let st := set_lastUserInteractionTime (millis st) st in
  let st := set_currentSystemState USER_INTERACTION st in
  let st :=
    if isdigit key then
      let st := set_lastKeypadInputTime (millis st) st in
      let st := if 2 <=? strlen (keypadInputBuffer (input st))
                then set_keypadInputBuffer "" st else st in
      let st := set_keypadInputBuffer
                  (append_char (keypadInputBuffer (input st)) key) st in
      let st := logMessage (LogBufferUpdated (keypadInputBuffer (input st))) st in
      processKeypadSelection st
    else if Ascii.eqb key "#" then
      let st :=
        if 0 <? strlen (keypadInputBuffer (input st)) then
          processKeypadSelection
            (logMessage (LogFinalizing (keypadInputBuffer (input st))) st)
        else st in
      let sel := selectedSlot (input st) in
      let st :=
        if negb (sel =? -1) then
          if aget false (slotLocked (slots st)) sel then
            displayErrorMessage (ErrSlotLocked (sel + 1)) st
          else if negb (aget false (slotAvailable (slots st)) sel) then
            displayErrorMessage (ErrSlotEmpty (sel + 1)) st
          else if f32_leb (aget f32_zero (slotPrices (slots st)) sel)
                          (credit (pay st)) then
            scheduleDispense sel probe
              (logMessage (LogPurchaseAttempt (sel + 1) (credit (pay st))
                             (aget f32_zero (slotPrices (slots st)) sel)) st)
          else displayErrorMessage ErrCreditTooLow st
        else displayErrorMessage ErrNoSlotChosen st in
      set_keypadInputBuffer "" st
    else if Ascii.eqb key "*" then
      resetDisplayToDefault (logMessage LogCancel st)
    else st in
  set_displayNeedsUpdate true st.

(** [probe] is the result of the liveness probe of [scheduleDispense]. *)
Definition processKeypad (pins : KeypadPins) (probe : Z) (st : State) : State :=
  let '(key, st) := manualGetKeyState pins st in
  if Ascii.eqb key NOKEY then st
  else processResolvedKey key probe st.

(** ** Pulse accumulators *)

Definition processAcceptedCoin (st : State) : State :=
  if (0 <? coinPulseCount (pay st))
     && (COIN_PROCESSING_DELAY (timing st)
         <? ulong (millis st - lastCoinPulseTime (pay st))) then
    let pulsesToProcess := coinPulseCount (pay st) in
    let st := set_coinPulseCount 0 st in
    let st := logMessage (LogCoinProcessing pulsesToProcess) st in
    if (0 <? pulsesToProcess)
       && (ulong pulsesToProcess <? Z.of_nat (List.length pulseValues)) then
      let coinValueCents := aget 0 pulseValues pulsesToProcess in
      if 0 <? coinValueCents then
        let st := set_credit (creditAddCents (credit (pay st)) coinValueCents) st in
        let st := logMessage (LogCoinAccepted pulsesToProcess coinValueCents
                                              (credit (pay st))) st in
        let st := set_preferences
                    {| nvCredit := credit (pay st);
                       nvAvail := nvAvail (preferences (world st)) |} st in
        let st := set_displayNeedsUpdate true st in
        let st := set_lastUserInteractionTime (millis st) st in
        let st := set_currentSystemState USER_INTERACTION st in
        delay 100 st
      else logMessage (LogCoinZeroValue pulsesToProcess) st
    else logMessage (LogCoinInvalid pulsesToProcess) st
  else st.

Definition processBillAcceptorPulses (st : State) : State :=
  if ulong (millis st - lastRelayChangeTime (relay st)) <? 1000 then
    if 0 <? billAcceptorPulseCount (pay st) then
      let st := logMessage (LogBillNoise (billAcceptorPulseCount (pay st))) st in
      set_billAcceptorPulseCount 0 st
    else st
  else
    let st :=
      if (0 <? billAcceptorPulseCount (pay st))
         && (BILL_GROUP_PROCESSING_TIMEOUT_MS (timing st)
             <? ulong (millis st - lastBillPulseEdgeTime (pay st))) then
        let pulsesToProcess := to_int (billAcceptorPulseCount (pay st)) in
        let st := set_billAcceptorPulseCount 0 st in
        let st := logMessage (LogBillProcessing pulsesToProcess) st in
        if (0 <? pulsesToProcess)
           && (ulong pulsesToProcess <? Z.of_nat (List.length billValues)) then
          let billValueEuros := aget 0 billValues pulsesToProcess in
          if 0 <? billValueEuros then
            let st := set_credit (creditAddEuros (credit (pay st)) billValueEuros) st in
            let st := logMessage (LogBillAccepted pulsesToProcess billValueEuros
                                                  (credit (pay st))) st in
            let st := set_preferences
                        {| nvCredit := credit (pay st);
                           nvAvail := nvAvail (preferences (world st)) |} st in
            let st := set_displayNeedsUpdate true st in
            let st := set_lastUserInteractionTime (millis st) st in
            let st := set_currentSystemState USER_INTERACTION st in
            delay 150 st
          else logMessage (LogBillZeroValue pulsesToProcess) st
        else logMessage (LogBillInvalid pulsesToProcess) st
      else st in
    digitalWrite_BILL_INHIBIT
      (if 0 <? billAcceptorPulseCount (pay st) then HIGH else LOW) st.

(** ** Credit handlers of the admin panel *)

(** [amount] is [server.arg("amount").toFloat()] when the request carries
    the argument; the result is the HTTP status sent. *)
Definition handleAddCreditWeb (amount : option float) (st : State) : Z * State :=
  let st := set_lastActivityTimeWeb (millis st) st in
  if negb (isAuthenticated (web st)) then (401, st)
  else
    match amount with
    | Some amount =>
        if negb (f32_eqb amount (f32_of_int 0)) then
          let st := set_credit (f32_add (credit (pay st)) amount) st in
          let st := set_preferences
                      {| nvCredit := credit (pay st);
                         nvAvail := nvAvail (preferences (world st)) |} st in
          let st := logMessage (LogWebCreditAdjusted amount (credit (pay st))) st in
          (200, set_displayNeedsUpdate true st)
        else (400, st)
    | None => (400, st)
    end.

Definition handleResetCreditWeb (st : State) : Z * State :=
  let st := set_lastActivityTimeWeb (millis st) st in
  if negb (isAuthenticated (web st)) then (401, st)
  else
    let st := set_credit f32_zero st in
    let st := set_preferences
                {| nvCredit := credit (pay st);
                   nvAvail := nvAvail (preferences (world st)) |} st in
    let st := logMessage LogWebCreditReset st in
    (200, set_displayNeedsUpdate true st).

(** ** A machine at rest

    The values [setup()] falls back to on an empty store: sixteen stocked,
    unlocked slots priced [5.0f + i * 0.1f], no credit, no job, all relays
    off, bill acceptor enabled. *)

Definition defaultPrice (i : Z) : float :=
  f32_add (f32_of_int 5)
          (SFmul f32_prec f32_emax (f32_of_int i)
                 (SFdiv f32_prec f32_emax (f32_of_int 1) (f32_of_int 10))).

Definition defaultTiming : Timing :=
  {| COIN_PROCESSING_DELAY := 150;
     BILL_ISR_DEBOUNCE_MS := 75;
     BILL_GROUP_PROCESSING_TIMEOUT_MS := 1500;
     DISPENSE_RELAY_ON_TIME := 5000 |}.

Definition idleState : State :=
  {| timing := defaultTiming;
     keypad := {| lastPhysicallyPressedKey := NOKEY;
                  lastReturnedKey := NOKEY;
                  lastKeyPressTime := 0 |};
     input := {| keypadInputBuffer := "";
                 lastKeypadInputTime := 0;
                 selectedSlot := -1;
                 slotSelectedTime := 0 |};
     ui := {| currentSystemState := IDLE;
              displayNeedsUpdate := true;
              lastUserInteractionTime := 10000 |};
     slots := {| slotPrices := map (fun i => defaultPrice (Z.of_nat i)) (seq 0 16);
                 slotAvailable := repeat true 16;
                 slotLocked := repeat false 16;
                 activeSlots := DEFAULT_MAX_SLOTS |};
     notify := {| almostEmptyThreshold := 5;
                  almostEmptyNotificationSent := false;
                  emptyNotificationSent := false;
                  telegramEnabled := false;
                  telegramNotifyOnSale := false;
                  telegramNotifyAlmostEmpty := true;
                  telegramNotifyEmpty := true;
                  telegramBotToken := "";
                  telegramChatId := "" |};
     pay := {| credit := f32_zero;
               coinPulseCount := 0;
               lastCoinPulseTime := 0;
               billAcceptorPulseCount := 0;
               lastBillPulseEdgeTime := 0;
               lastBillDebounceEdgeTime := 0 |};
     dispenseJob := {| active := false; slot := -1; startTime := 0;
                       relayActivated := false |};
     relay := {| expanderOutputStates := 0; lastRelayChangeTime := 0 |};
     web := {| isAuthenticated := false; lastActivityTimeWeb := 0 |};
     world := {| clock := 10000;
                 billInhibitPin := LOW;
                 wire := [];
                 serial := [];
                 tft := [];
                 telegramOutbox := [];
                 preferences := {| nvCredit := f32_zero;
                                   nvAvail := repeat true 16 |};
                 offlineMode := false;
                 wifiConnected := true;
                 botDelivers := true |} |}.

(** ** Example states *)

(** A job for slot 3 is open; a request for slot 8 arrives. *)
Definition busyState : State :=
  with_job {| active := true; slot := 2; startTime := 9000;
              relayActivated := true |} idleState.

(** Slot 3 has been open since 9000 ms; it is now 14000 ms. *)
Definition openJobState : State :=
  set_clock 14000
    (set_expanderOutputStates 4
       (with_job {| active := true; slot := 2; startTime := 9000;
                    relayActivated := true |} idleState)).

(** Five euros of credit, slot 1 costs five euros. *)
Definition paidState : State := set_credit (f32_of_int 5) idleState.

(** Twenty euros of credit. *)
Definition creditedState : State := set_credit (f32_of_int 20) idleState.

(** Telegram switched on and configured. *)
Definition notifyingState : State :=
  with_notify {| almostEmptyThreshold := 5;
                 almostEmptyNotificationSent := false;
                 emptyNotificationSent := false;
                 telegramEnabled := true;
                 telegramNotifyOnSale := false;
                 telegramNotifyAlmostEmpty := true;
                 telegramNotifyEmpty := true;
                 telegramBotToken := "token";
                 telegramChatId := "chat" |} idleState.

(** Sixteen unlocked slots, the first [n] of them in stock. *)
Definition stockOf (n : nat) : SlotData :=
  {| slotPrices := slotPrices (slots idleState);
     slotAvailable := repeat true n ++ repeat false (16 - n);
     slotLocked := repeat false 16;
     activeSlots := 16 |}.

(** The admin is logged in; the machine holds no credit. *)
Definition adminState : State :=
  with_web {| isAuthenticated := true; lastActivityTimeWeb := 10000 |} idleState.

Definition pinsUp : KeypadPins := fun _ _ => false.

(** Exactly the key in row [r], column [c] is down. *)
Definition pinsDown (r c : nat) : KeypadPins :=
  fun r' c' => Nat.eqb r' r && Nat.eqb c' c.

(** ** Observations on the display and the relay bank *)

(** What an error message leaves behind: the log line, the screen, a later
    clock [t], and the idle display state of [resetDisplayToDefault]. *)
Definition afterError (e : ErrorMsg) (t : Z) (st : State) : State :=
  with_ui {| currentSystemState := IDLE;
             displayNeedsUpdate := true;
             lastUserInteractionTime := t |}
    (with_input {| keypadInputBuffer := "";
                   lastKeypadInputTime := lastKeypadInputTime (input st);
                   selectedSlot := -1;
                   slotSelectedTime := slotSelectedTime (input st) |}
       (set_clock t (draw (ScreenError e) (logMessage (LogDisplayError e) st)))).

(** The mask [controlSlotRelay] computes for slot [s]. *)
Definition relayMask (mask s : Z) (activate : bool) : Z :=
  if activate then uint16 (Z.lor mask (Z.shiftl 1 s))
  else uint16 (Z.land mask (Z.lnot (Z.shiftl 1 s))).

(** The register and the byte it sends for slot [s] under mask [m]. *)
Definition relayWrite (m s : Z) : Z * Z :=
  (if s <? 8 then 2 else 3,
   if s <? 8 then uint8 (Z.land m 255) else uint8 (Z.shiftr m 8)).

(** ** Ticks of the dispense sequencer *)

(** Later ticks of the main loop: the clock reads [t], and the bus would
    answer [errOn] / [errOff]. *)
Definition dispenseTicks (ticks : list (Z * Z * Z)) (st : State) : State :=
  fold_left
    (fun s '(t, errOn, errOff) => processDispenseJob errOn errOff (set_clock t s))
    ticks st.

(** ** Scans of the keypad *)

(** The buffer a digit key leaves for [processKeypadSelection]. *)
Definition bufferAfterDigit (buf : string) (key : ascii) : string :=
  append_char (if 2 <=? strlen buf then ""%string else buf) key.

(** A run of scans: the clock reads [t] when the pins are sampled.  The
    result lists what each call of [manualGetKeyState] returned. *)
Fixpoint runScans (evs : list (Z * KeypadPins)) (st : State) : list ascii * State :=
  match evs with
  | [] => ([], st)
  | (t, pins) :: rest =>
      let '(k, st1) := manualGetKeyState pins (set_clock t st) in
      let '(ks, st2) := runScans rest st1 in
      (k :: ks, st2)
  end.

(** The key events among the returned values. *)
Definition keyEvents (ks : list ascii) : list ascii :=
  filter (fun k => negb (Ascii.eqb k NOKEY)) ks.

(** The scan at [fst ev] comes more than the debounce period after [t0]. *)
Definition stableSince (t0 : Z) (ev : Z * KeypadPins) : bool :=
  KEYPAD_DEBOUNCE_PERIOD <? ulong (fst ev - t0).

(** No key is sensed and none is remembered as returned. *)
Definition keypadReleased (st : State) : Prop :=
  lastPhysicallyPressedKey (keypad st) = NOKEY
  /\ lastReturnedKey (keypad st) = NOKEY.

(** The main loop scanning the keypad: the clock reads [fst ev] when
    [processKeypad] samples the pins [snd ev]. *)
Definition runKeypad (evs : list (Z * KeypadPins)) (probe : Z) (st : State)
  : State :=
  fold_left (fun s ev => processKeypad (snd ev) probe (set_clock (fst ev) s))
            evs st.

(** The key in row [r], column [c] is down and is the first key down in
    scan order: no key of an earlier row and no key to its left in its own
    row is down. *)
Definition keyDownFirst (pins : KeypadPins) (r c : nat) : bool :=
  pins r c
  && forallb (fun r' => forallb (fun c' => negb (pins r' c')) (seq 0 KEYPAD_COLS))
             (seq 0 r)
  && forallb (fun c' => negb (pins r c')) (seq 0 c).

(** No key is down. *)
Definition keysUp (pins : KeypadPins) : bool :=
  forallb (fun r => forallb (fun c => negb (pins r c)) (seq 0 KEYPAD_COLS))
          (seq 0 KEYPAD_ROWS).

(** The keys of [p] and the keys of [q] are down. *)
Definition pinsWith (p q : KeypadPins) : KeypadPins := fun r c => p r c || q r c.

(** A key goes down at [t], is still down 60 ms later and is up again
    50 ms after that. *)
Definition tapKey (t : Z) (pins : KeypadPins) : list (Z * KeypadPins) :=
  [(t, pins); (t + 60, pins); (t + 110, pinsUp)].

(** ** Events on the coin channel *)

(** What the coin channel sees: a rising edge (the ISR runs) or a tick of
    the main loop ([processAcceptedCoin] runs); [t] is the clock reading. *)
Inductive CoinEvent :=
| CoinEdge (t : Z)
| CoinTick (t : Z).

Definition coinStep (st : State) (ev : CoinEvent) : State :=
  match ev with
  | CoinEdge t => coinAcceptorISR (set_clock t st)
  | CoinTick t => processAcceptedCoin (set_clock t st)
  end.

Definition runCoin (evs : list CoinEvent) (st : State) : State :=
  fold_left coinStep evs st.

(** Number of edges in a trace. *)
Fixpoint edges (evs : list CoinEvent) : Z :=
  match evs with
  | [] => 0
  | CoinEdge _ :: r => 1 + edges r
  | CoinTick _ :: r => edges r
  end.

(** The pulses of a group arrive within the grouping timeout of each
    other: while pulses are pending ([pending], the latest at [last]), no
    tick of the main loop comes more than [delay] after the latest pulse. *)
Fixpoint withinGroupingTimeout (delay : Z) (pending : bool) (last : Z)
         (evs : list CoinEvent) : bool :=
  match evs with
  | [] => true
  | CoinEdge t :: r => withinGroupingTimeout delay true t r
  | CoinTick t :: r =>
      (negb pending || negb (delay <? ulong (t - last)))
      && withinGroupingTimeout delay pending last r
  end.

(** Time of the latest edge of a trace, [last] if it has none. *)
Fixpoint latestEdge (last : Z) (evs : list CoinEvent) : Z :=
  match evs with
  | [] => last
  | CoinEdge t :: r => latestEdge t r
  | CoinTick _ :: r => latestEdge last r
  end.

(** The quiet gap: the tick at [t] comes more than [delay] after [last]. *)
Definition gapExceeded (delay last t : Z) : bool := delay <? ulong (t - last).

(** The group as the sensor delivers it: clock readings never decrease
    and stay within 32 bits, every edge comes at most [delay] after the
    edge before it ([lastEdge]), and every tick of the group is followed by
    a further edge of the group.  [prev] is the time of the event before. *)
Fixpoint arrivesWithin (delay : Z) (lastEdge : option Z) (prev : Z)
         (evs : list CoinEvent) : Prop :=
  match evs with
  | [] => True
  | CoinEdge t :: r =>
      prev <= t < 4294967296
      /\ match lastEdge with Some l => t - l <= delay | None => True end
      /\ arrivesWithin delay (Some t) t r
  | CoinTick t :: r =>
      prev <= t < 4294967296
      /\ 0 < edges r
      /\ arrivesWithin delay lastEdge t r
  end.

Definition isCoinProcessing (m : LogMsg) : bool :=
  match m with LogCoinProcessing _ => true | _ => false end.

(** Number of drains of the coin counter so far: each drain logs one
    "Processing n pulses" line. *)
Definition coinDrains (st : State) : nat :=
  List.length (filter isCoinProcessing (serial (world st))).

(** The cents credited for a group of [n] pulses: the table value inside
    the table, nothing outside. *)
Definition coinCents (n : Z) : Z :=
  if (0 <? n) && (ulong n <? Z.of_nat (List.length pulseValues))
  then aget 0 pulseValues n else 0.

(** ** Stock checks *)

(** The count of [countAvailableSlots], as a function of the slot data. *)
Definition availableIn (sd : SlotData) : Z :=
  countSlots (fun i => aget false (slotAvailable sd) i
                       && negb (aget false (slotLocked sd) i))
             (activeSlots sd).

(** A purchase or a refill changed the slots to [sd]; the stock level is
    checked. *)
Definition stockCheck (st : State) (sd : SlotData) : State :=
  checkOverallStockLevel (with_slots sd st).

Definition runStock (sds : list SlotData) (st : State) : State :=
  fold_left stockCheck sds st.

(** Both stock alerts are switched on and Telegram can deliver. *)
Definition notificationsEnabled (st : State) : Prop :=
  telegramNotifyAlmostEmpty (notify st) = true
  /\ telegramNotifyEmpty (notify st) = true
  /\ telegramEnabled (notify st) = true
  /\ offlineMode (world st) = false
  /\ wifiConnected (world st) = true
  /\ 0 < strlen (telegramBotToken (notify st))
  /\ 0 < strlen (telegramChatId (notify st)).

Definition isAlmostEmptyMsg (m : TelegramMsg) : bool :=
  match m with MsgAlmostEmpty _ => true | _ => false end.

Definition isEmptyMsg (m : TelegramMsg) : bool :=
  match m with MsgEmpty => true | _ => false end.

(** Number of "almost empty" / "empty" notifications emitted so far. *)
Definition almostEmptyEmitted (st : State) : nat :=
  List.length (filter isAlmostEmptyMsg (telegramOutbox (world st))).

Definition emptyEmitted (st : State) : nat :=
  List.length (filter isEmptyMsg (telegramOutbox (world st))).

Definition isSoldOut (sd : SlotData) : bool := availableIn sd =? 0.

(** ** The sign of a float *)

(** [x] is not below zero: a zero, a positive number, +infinity or NaN. *)
Definition notNegative (x : float) : bool :=
  match x with
  | S754_infinity true | S754_finite true _ _ => false
  | _ => true
  end.

(** ** Events on the bill channel *)

(** What the bill channel sees: a rising edge (the ISR runs) or a pass of
    the main loop ([processBillAcceptorPulses] runs); [t] is the clock
    reading. *)
Inductive BillEvent :=
| BillEdge (t : Z)
| BillTick (t : Z).

Definition billStep (st : State) (ev : BillEvent) : State :=
  match ev with
  | BillEdge t => billAcceptorISR (set_clock t st)
  | BillTick t => processBillAcceptorPulses (set_clock t st)
  end.

Definition runBill (evs : list BillEvent) (st : State) : State :=
  fold_left billStep evs st.

(** The edge at [t] falls inside the debounce window opened at [t0]. *)
Definition bouncesAfter (debounce t0 t : Z) : bool :=
  negb (debounce <? ulong (t - t0)).

(** A job holds the relay of slot 3 on since 9000 ms; it is now 11000 ms and
    the bill acceptor is inhibited. *)
Definition heldOpenState : State :=
  set_billInhibitPin HIGH
    (set_clock 11000
       (set_lastRelayChangeTime 9000
          (set_expanderOutputStates 4
             (with_job {| active := true; slot := 2; startTime := 9000;
                          relayActivated := true |} idleState)))).

(** ** More observations on the keypad and the stock *)

(** Two keys are down at once: [5] (row 1, column 1) and [3] (row 0,
    column 2). *)
Definition pinsRollover : KeypadPins :=
  fun r c => (Nat.eqb r 1 && Nat.eqb c 1) || (Nat.eqb r 0 && Nat.eqb c 2).

(** [sendTelegramMessage] gets as far as [bot.sendMessage]: Telegram is
    switched on, the machine is online, token and chat are set. *)
Definition telegramReady (st : State) : bool :=
  telegramEnabled (notify st)
  && negb (offlineMode (world st) || negb (wifiConnected (world st)))
  && ((0 <? strlen (telegramBotToken (notify st)))
      && (0 <? strlen (telegramChatId (notify st)))).

(** * The admin panel, the display and the main loop

    The rest of the sketch reads and writes globals the transaction core
    never touches (the password, the display texts, three more timeouts),
    writes further keys of the flash store and logs lines of its own.
    [Panel] adds them around the [State] of the core.
    - The panel's log lines go to [panelLog], newest first; each carries
      the number of lines the core had logged before it, so the order of
      the serial log is kept.  The drawings of [updateDisplayScreen] are
      kept the same way in [panelTft].
    - [nvPanel] lists the writes to the remaining keys of the flash store,
      newest first.
    - An argument of a request is [None] when [server.hasArg] is false.
      Where the sketch reads [server.arg] without asking, a missing
      argument is the empty string, as [server.arg] returns it.
    - A handler returns the status code it sends. *)

Definition SLOGAN_MAX_LENGTH : Z := 24.

Definition CurrentSystemState_eqb (a b : CurrentSystemState) : bool :=
  match a, b with
  | IDLE, IDLE | USER_INTERACTION, USER_INTERACTION
  | ERROR_DISPLAY, ERROR_DISPLAY | OTA_UPDATE, OTA_UPDATE => true
  | _, _ => false
  end.

(** The keys of the flash store besides ["credit"] and ["avail<i>"]. *)
Inductive NvKey :=
| KeyPrice (i : Z)      (* "price<i>" *)
| KeyLocked (i : Z)     (* "locked<i>" *)
| KeyPassword           (* "password" *)
| KeyCoinDelay          (* "coinDelay" *)
| KeyBillIsrDeb         (* "billIsrDeb" *)
| KeyBillGrpTout        (* "billGrpTout" *)
| KeyDispTime           (* "dispTime" *)
| KeyKeypadTime         (* "keypadTime" *)
| KeySlotSelTime        (* "slotSelTime" *)
| KeyDispTimeout        (* "dispTimeout" *)
| KeyTgEnabled          (* "tgEnabled" *)
| KeyTgToken            (* "tgToken" *)
| KeyTgChatId           (* "tgChatId" *)
| KeyTgAlmostThres      (* "tgAlmostThres" *)
| KeyTgNotifySale       (* "tgNotifySale" *)
| KeyTgNotifyAlmost     (* "tgNotifyAlmost" *)
| KeyTgNotifyEmpty      (* "tgNotifyEmpty" *)
| KeyDispSlogan         (* "dispSlogan" *)
| KeyDispFooter.        (* "dispFooter" *)

Inductive NvValue :=
| NvBool (b : bool)
| NvFloat (x : float)
| NvInt (z : Z)
| NvULong (z : Z)
| NvString (s : string).

(** [otaStatusMessage], the line the dashboard shows after a form was
    saved. *)
Inductive StatusMessage :=
| StatusNone            (* "" *)
| StatusTimingSaved     (* "Zeiteinstellungen gespeichert! Neustart empfohlen." *)
| StatusTelegramSaved   (* "Einstellungen gespeichert!" *)
| StatusDisplaySaved.   (* "Display-Texte gespeichert!" *)

Inductive PanelLog :=
| LogWebLoginOk
| LogWebLoginFailed
| LogWebPasswordChanged
| LogWebPriceChanged (slotNo : Z) (price : float)
| LogWebSlotRefilled (slotNo : Z)
| LogWebAllRefilled
| LogWebTestingRelay (slotNo : Z)
| LogWebTestingAllRelays
| LogWebSlotLock (slotNo : Z) (locked : bool)
| LogWebTimingSaved
| LogWebTelegramSaved
| LogWebDisplaySaved
| LogDisplayTimeout
| LogSelectionTimeout
| LogWebAutoLogout
| LogWiFiLost
| LogFactoryReset
| LogFactoryResetComplete.

(** The dynamic content area of the screen. *)
Inductive DynamicContent :=
| ContentNone                        (* ERROR_DISPLAY: nothing is drawn *)
| ContentOpening (slotNo : Z)        (* "Fach n" / "wird geoeffnet..." *)
| ContentLocked (slotNo : Z)         (* "Fach: n" / "Gesperrt" *)
| ContentEmpty (slotNo : Z)          (* "Fach: n" / "Leer" *)
| ContentPrice (slotNo : Z) (price : float) (buy : bool)
      (* "Fach: n" / "Preis: p EUR" / "# Kaufen" or "Guthaben?" *)
| ContentInput (buffer : string)     (* "Eingabe: <buffer>" *)
| ContentIdle (n : Z).               (* "Waehle Fach (1-n)" / "oder Geld einwerfen." *)

(** What [updateDisplayScreen] draws below the header. *)
Record Frame := {
  frameCredit : float;               (* "Guthaben: c EUR" *)
  frameWifi : option bool;           (* the dot: green (true) or red *)
  frameContent : DynamicContent;
  frameSlogan : option string;
  frameFooter : string
}.

Inductive Drawing :=
| DrawFrame (f : Frame)
| DrawFactoryReset.                  (* "WERKSRESET" / "Daten werden geloescht..." *)

Record Panel := {
  machine : State;
  WEB_TIMEOUT : Z;
  SLOT_SELECTION_TIMEOUT : Z;
  DISPLAY_TIMEOUT : Z;
  savedPassword : string;
  displaySlogan : string;
  displayFooter : string;
  otaStatusMessage : StatusMessage;
  lastWiFiCheckTime : Z;             (* the static local of [loop] *)
  nvPanel : list (NvKey * NvValue);
  panelLog : list (nat * PanelLog);
  panelTft : list (nat * Drawing);
  wifiReconnects : nat               (* calls of WiFi.reconnect() *)
}.

(** ** Field updates of the panel *)

Definition set_machine (st : State) (p : Panel) : Panel :=
  {| machine := st; WEB_TIMEOUT := WEB_TIMEOUT p;
     SLOT_SELECTION_TIMEOUT := SLOT_SELECTION_TIMEOUT p;
     DISPLAY_TIMEOUT := DISPLAY_TIMEOUT p; savedPassword := savedPassword p;
     displaySlogan := displaySlogan p; displayFooter := displayFooter p;
     otaStatusMessage := otaStatusMessage p;
     lastWiFiCheckTime := lastWiFiCheckTime p; nvPanel := nvPanel p;
     panelLog := panelLog p; panelTft := panelTft p;
     wifiReconnects := wifiReconnects p |}.

Definition set_savedPassword (s : string) (p : Panel) : Panel :=
  {| machine := machine p; WEB_TIMEOUT := WEB_TIMEOUT p;
     SLOT_SELECTION_TIMEOUT := SLOT_SELECTION_TIMEOUT p;
     DISPLAY_TIMEOUT := DISPLAY_TIMEOUT p; savedPassword := s;
     displaySlogan := displaySlogan p; displayFooter := displayFooter p;
     otaStatusMessage := otaStatusMessage p;
     lastWiFiCheckTime := lastWiFiCheckTime p; nvPanel := nvPanel p;
     panelLog := panelLog p; panelTft := panelTft p;
     wifiReconnects := wifiReconnects p |}.

Definition set_displayTexts (slogan footer : string) (p : Panel) : Panel :=
  {| machine := machine p; WEB_TIMEOUT := WEB_TIMEOUT p;
     SLOT_SELECTION_TIMEOUT := SLOT_SELECTION_TIMEOUT p;
     DISPLAY_TIMEOUT := DISPLAY_TIMEOUT p; savedPassword := savedPassword p;
     displaySlogan := slogan; displayFooter := footer;
     otaStatusMessage := otaStatusMessage p;
     lastWiFiCheckTime := lastWiFiCheckTime p; nvPanel := nvPanel p;
     panelLog := panelLog p; panelTft := panelTft p;
     wifiReconnects := wifiReconnects p |}.

Definition set_otaStatusMessage (m : StatusMessage) (p : Panel) : Panel :=
  {| machine := machine p; WEB_TIMEOUT := WEB_TIMEOUT p;
     SLOT_SELECTION_TIMEOUT := SLOT_SELECTION_TIMEOUT p;
     DISPLAY_TIMEOUT := DISPLAY_TIMEOUT p; savedPassword := savedPassword p;
     displaySlogan := displaySlogan p; displayFooter := displayFooter p;
     otaStatusMessage := m;
     lastWiFiCheckTime := lastWiFiCheckTime p; nvPanel := nvPanel p;
     panelLog := panelLog p; panelTft := panelTft p;
     wifiReconnects := wifiReconnects p |}.

Definition set_lastWiFiCheckTime (t : Z) (p : Panel) : Panel :=
  {| machine := machine p; WEB_TIMEOUT := WEB_TIMEOUT p;
     SLOT_SELECTION_TIMEOUT := SLOT_SELECTION_TIMEOUT p;
     DISPLAY_TIMEOUT := DISPLAY_TIMEOUT p; savedPassword := savedPassword p;
     displaySlogan := displaySlogan p; displayFooter := displayFooter p;
     otaStatusMessage := otaStatusMessage p;
     lastWiFiCheckTime := t; nvPanel := nvPanel p;
     panelLog := panelLog p; panelTft := panelTft p;
     wifiReconnects := wifiReconnects p |}.

Definition set_nvPanel (l : list (NvKey * NvValue)) (p : Panel) : Panel :=
  {| machine := machine p; WEB_TIMEOUT := WEB_TIMEOUT p;
     SLOT_SELECTION_TIMEOUT := SLOT_SELECTION_TIMEOUT p;
     DISPLAY_TIMEOUT := DISPLAY_TIMEOUT p; savedPassword := savedPassword p;
     displaySlogan := displaySlogan p; displayFooter := displayFooter p;
     otaStatusMessage := otaStatusMessage p;
     lastWiFiCheckTime := lastWiFiCheckTime p; nvPanel := l;
     panelLog := panelLog p; panelTft := panelTft p;
     wifiReconnects := wifiReconnects p |}.

Definition set_panelLog (l : list (nat * PanelLog)) (p : Panel) : Panel :=
  {| machine := machine p; WEB_TIMEOUT := WEB_TIMEOUT p;
     SLOT_SELECTION_TIMEOUT := SLOT_SELECTION_TIMEOUT p;
     DISPLAY_TIMEOUT := DISPLAY_TIMEOUT p; savedPassword := savedPassword p;
     displaySlogan := displaySlogan p; displayFooter := displayFooter p;
     otaStatusMessage := otaStatusMessage p;
     lastWiFiCheckTime := lastWiFiCheckTime p; nvPanel := nvPanel p;
     panelLog := l; panelTft := panelTft p;
     wifiReconnects := wifiReconnects p |}.

Definition set_panelTft (l : list (nat * Drawing)) (p : Panel) : Panel :=
  {| machine := machine p; WEB_TIMEOUT := WEB_TIMEOUT p;
     SLOT_SELECTION_TIMEOUT := SLOT_SELECTION_TIMEOUT p;
     DISPLAY_TIMEOUT := DISPLAY_TIMEOUT p; savedPassword := savedPassword p;
     displaySlogan := displaySlogan p; displayFooter := displayFooter p;
     otaStatusMessage := otaStatusMessage p;
     lastWiFiCheckTime := lastWiFiCheckTime p; nvPanel := nvPanel p;
     panelLog := panelLog p; panelTft := l;
     wifiReconnects := wifiReconnects p |}.

Definition set_wifiReconnects (n : nat) (p : Panel) : Panel :=
  {| machine := machine p; WEB_TIMEOUT := WEB_TIMEOUT p;
     SLOT_SELECTION_TIMEOUT := SLOT_SELECTION_TIMEOUT p;
     DISPLAY_TIMEOUT := DISPLAY_TIMEOUT p; savedPassword := savedPassword p;
     displaySlogan := displaySlogan p; displayFooter := displayFooter p;
     otaStatusMessage := otaStatusMessage p;
     lastWiFiCheckTime := lastWiFiCheckTime p; nvPanel := nvPanel p;
     panelLog := panelLog p; panelTft := panelTft p;
     wifiReconnects := n |}.

(** A step of the core, inside the panel. *)
Definition onMachine (f : State -> State) (p : Panel) : Panel :=
  set_machine (f (machine p)) p.

(** [logMessage] for the lines of the panel. *)
Definition logPanel (m : PanelLog) (p : Panel) : Panel :=
  set_panelLog ((List.length (serial (world (machine p))), m) :: panelLog p) p.

Definition drawPanel (d : Drawing) (p : Panel) : Panel :=
  set_panelTft ((List.length (tft (world (machine p))), d) :: panelTft p) p.

(** [preferences.putX(key, v)] on the remaining keys. *)
Definition nvPut (k : NvKey) (v : NvValue) (p : Panel) : Panel :=
  set_nvPanel ((k, v) :: nvPanel p) p.

(** *** Further updates of the core state *)

Definition set_isAuthenticated (b : bool) (st : State) : State :=
  with_web {| isAuthenticated := b;
              lastActivityTimeWeb := lastActivityTimeWeb (web st) |} st.

Definition set_slotPrices (a : list float) (st : State) : State :=
  with_slots {| slotPrices := a;
                slotAvailable := slotAvailable (slots st);
                slotLocked := slotLocked (slots st);
                activeSlots := activeSlots (slots st) |} st.

Definition set_slotLocked (a : list bool) (st : State) : State :=
  with_slots {| slotPrices := slotPrices (slots st);
                slotAvailable := slotAvailable (slots st);
                slotLocked := a;
                activeSlots := activeSlots (slots st) |} st.

(** [lastActivityTimeWeb = millis();] *)
Definition touchWeb (p : Panel) : Panel :=
  onMachine (fun st => set_lastActivityTimeWeb (millis st) st) p.

(** [preferences.putBool(("avail" + String(i)).c_str(), v)] *)
Definition putAvail (i : Z) (v : bool) (st : State) : State :=
  set_preferences {| nvCredit := nvCredit (preferences (world st));
                     nvAvail := aset (nvAvail (preferences (world st))) i v |} st.

(** ** Handlers of the admin panel *)

Definition handleLogin (password : option string) (p : Panel) : Z * Panel :=
  let p := touchWeb p in
  match password with
  | Some pw =>
      if String.eqb pw (savedPassword p) then
        let p := onMachine (set_isAuthenticated true) p in
        (302, logPanel LogWebLoginOk p)
      else (200, logPanel LogWebLoginFailed p)      (* showLoginPage() *)
  | None => (200, logPanel LogWebLoginFailed p)
  end.

Definition handleChangePasswordWeb (newPassword : option string) (p : Panel)
  : Z * Panel :=
  let p := touchWeb p in
  if negb (isAuthenticated (web (machine p))) then (401, p)
  else
    match newPassword with
    | Some newPass =>
        if 4 <=? strlen newPass then
          let p := set_savedPassword newPass p in
          let p := nvPut KeyPassword (NvString (savedPassword p)) p in
          (200, logPanel LogWebPasswordChanged p)
        else (400, p)
    | None => (400, p)
    end.

(** [price] is [server.arg("price").toFloat()]. *)
Definition handleUpdatePriceWeb (slotArg : option string) (price : option float)
           (p : Panel) : Z * Panel :=
  let p := touchWeb p in
  if negb (isAuthenticated (web (machine p))) then (401, p)
  else
    match slotArg, price with
    | Some a, Some price =>
        let s := toInt a in
        if (0 <=? s) && (s <? activeSlots (slots (machine p)))
           && f32_leb (f32_of_int 0) price then
          let p := onMachine
                     (fun st => set_slotPrices (aset (slotPrices (slots st)) s price) st)
                     p in
          let p := nvPut (KeyPrice s) (NvFloat price) p in
          let p := logPanel (LogWebPriceChanged (s + 1) price) p in
          (200, onMachine (set_displayNeedsUpdate true) p)
        else (400, p)
    | _, _ => (400, p)
    end.

Definition handleRefillWeb (slotArg : option string) (p : Panel) : Z * Panel :=
  let p := touchWeb p in
  if negb (isAuthenticated (web (machine p))) then (401, p)
  else
    match slotArg with
    | Some a =>
        let s := toInt a in
        if (0 <=? s) && (s <? activeSlots (slots (machine p))) then
          if negb (aget false (slotLocked (slots (machine p))) s) then
            let p := onMachine
                       (fun st => set_slotAvailable
                                    (aset (slotAvailable (slots st)) s true) st) p in
            let p := onMachine (putAvail s true) p in
            let p := logPanel (LogWebSlotRefilled (s + 1)) p in
            let p := onMachine checkOverallStockLevel p in
            (200, onMachine (set_displayNeedsUpdate true) p)
          else (400, p)
        else (400, p)
    | None => (400, p)
    end.

(** The body of the loop of [handleRefillAllWeb], for slot [i]. *)
Definition refillUnlocked (st : State) (i : nat) : State :=
  if negb (aget false (slotLocked (slots st)) (Z.of_nat i)) then
    let st := set_slotAvailable
                (aset (slotAvailable (slots st)) (Z.of_nat i) true) st in
    putAvail (Z.of_nat i) true st
  else st.

Definition handleRefillAllWeb (p : Panel) : Z * Panel :=
  let p := touchWeb p in
  if negb (isAuthenticated (web (machine p))) then (401, p)
  else
    let p := onMachine
               (fun st => fold_left refillUnlocked
                            (seq 0 (Z.to_nat (activeSlots (slots st)))) st) p in
    let p := logPanel LogWebAllRefilled p in
    let p := onMachine checkOverallStockLevel p in
    (200, onMachine (set_displayNeedsUpdate true) p).

(** [errOn] and [errOff] are the results of the two I2C writes. *)
Definition handleTriggerRelayWeb (slotArg : option string) (errOn errOff : Z)
           (p : Panel) : Z * Panel :=
  let p := touchWeb p in
  if negb (isAuthenticated (web (machine p))) then (401, p)
  else
    match slotArg with
    | Some a =>
        let s := toInt a in
        if (0 <=? s) && (s <? activeSlots (slots (machine p))) then
          let p := logPanel (LogWebTestingRelay (s + 1)) p in
          let p := onMachine (fun st => snd (controlSlotRelay s true errOn st)) p in
          let p := onMachine (delay 1000) p in
          let p := onMachine (fun st => snd (controlSlotRelay s false errOff st)) p in
          (200, p)
        else (400, p)
    | None => (400, p)
    end.

(** The body of the loop of [handleTriggerAllRelaysWeb], for slot [i];
    [err i activate] is the result of the I2C write. *)
Definition pulseRelay (err : Z -> bool -> Z) (st : State) (i : nat) : State :=
  let s := Z.of_nat i in
  let st := snd (controlSlotRelay s true (err s true) st) in
  let st := delay 300 st in
  let st := snd (controlSlotRelay s false (err s false) st) in
  delay 100 st.

Definition handleTriggerAllRelaysWeb (err : Z -> bool -> Z) (p : Panel)
  : Z * Panel :=
  let p := touchWeb p in
  if negb (isAuthenticated (web (machine p))) then (401, p)
  else
    let p := logPanel LogWebTestingAllRelays p in
    let p := onMachine
               (fun st => fold_left (pulseRelay err)
                            (seq 0 (Z.to_nat (activeSlots (slots st)))) st) p in
    (200, p).

Definition handleToggleSlotLockWeb (slotArg : option string) (p : Panel)
  : Z * Panel :=
  let p := touchWeb p in
  if negb (isAuthenticated (web (machine p))) then (401, p)
  else
    match slotArg with
    | Some a =>
        let s := toInt a in
        if (0 <=? s) && (s <? activeSlots (slots (machine p))) then
          let p := onMachine
                     (fun st => set_slotLocked
                                  (aset (slotLocked (slots st)) s
                                        (negb (aget false (slotLocked (slots st)) s)))
                                  st) p in
          let locked := aget false (slotLocked (slots (machine p))) s in
          let p := nvPut (KeyLocked s) (NvBool locked) p in
          let p := logPanel (LogWebSlotLock (s + 1) locked) p in
          (200, onMachine (set_displayNeedsUpdate true) p)
        else (400, p)
    | None => (400, p)
    end.

(** The seven arguments are read with [server.arg(...).toInt()] and stored
    as [unsigned long]. *)
Definition handleSaveTimingConfig
           (coin_delay bill_isr_debounce bill_group_timeout disp_time
            keypad_time slot_sel_time disp_timeout : string) (p : Panel)
  : Z * Panel :=
  if negb (isAuthenticated (web (machine p))) then (401, p)
  else
    let p := touchWeb p in
    let p := nvPut KeyCoinDelay (NvULong (ulong (toInt coin_delay))) p in
    let p := nvPut KeyBillIsrDeb (NvULong (ulong (toInt bill_isr_debounce))) p in
    let p := nvPut KeyBillGrpTout (NvULong (ulong (toInt bill_group_timeout))) p in
    let p := nvPut KeyDispTime (NvULong (ulong (toInt disp_time))) p in
    let p := nvPut KeyKeypadTime (NvULong (ulong (toInt keypad_time))) p in
    let p := nvPut KeySlotSelTime (NvULong (ulong (toInt slot_sel_time))) p in
    let p := nvPut KeyDispTimeout (NvULong (ulong (toInt disp_timeout))) p in
    let p := logPanel LogWebTimingSaved p in
    let p := set_otaStatusMessage StatusTimingSaved p in
    (302, p).

(** The four check boxes are [server.hasArg(...)]; the three texts are
    [server.arg(...)].  [bot.updateToken] hands the token to the Telegram
    library. *)
Definition handleSaveTelegramConfig
           (tg_enabled notify_sale notify_almost_empty notify_empty : bool)
           (tg_token tg_chat_id almost_empty_threshold : string) (p : Panel)
  : Z * Panel :=
  if negb (isAuthenticated (web (machine p))) then (401, p)
  else
    let p := touchWeb p in
    let p := onMachine
               (fun st =>
                  with_notify
                    {| almostEmptyThreshold := toInt almost_empty_threshold;
                       almostEmptyNotificationSent :=
                         almostEmptyNotificationSent (notify st);
                       emptyNotificationSent := emptyNotificationSent (notify st);
                       telegramEnabled := tg_enabled;
                       telegramNotifyOnSale := notify_sale;
                       telegramNotifyAlmostEmpty := notify_almost_empty;
                       telegramNotifyEmpty := notify_empty;
                       telegramBotToken := tg_token;
                       telegramChatId := tg_chat_id |} st) p in
    let n := notify (machine p) in
    let p := nvPut KeyTgEnabled (NvBool (telegramEnabled n)) p in
    let p := nvPut KeyTgToken (NvString (telegramBotToken n)) p in
    let p := nvPut KeyTgChatId (NvString (telegramChatId n)) p in
    let p := nvPut KeyTgAlmostThres (NvInt (almostEmptyThreshold n)) p in
    let p := nvPut KeyTgNotifySale (NvBool (telegramNotifyOnSale n)) p in
    let p := nvPut KeyTgNotifyAlmost (NvBool (telegramNotifyAlmostEmpty n)) p in
    let p := nvPut KeyTgNotifyEmpty (NvBool (telegramNotifyEmpty n)) p in
    let p := logPanel LogWebTelegramSaved p in
    let p := set_otaStatusMessage StatusTelegramSaved p in
    (302, p).

(** [s.substring(0, n)] when [s] is longer than [n]. *)
Definition truncateTo (n : Z) (s : string) : string :=
  if n <? strlen s then substring 0 (Z.to_nat n) s else s.

Definition handleSaveDisplayConfig (slogan footer : string) (p : Panel)
  : Z * Panel :=
  if negb (isAuthenticated (web (machine p))) then (401, p)
  else
    let newSlogan := truncateTo SLOGAN_MAX_LENGTH slogan in
    let newFooter := truncateTo 30 footer in
    let p := set_displayTexts newSlogan newFooter p in
    let p := nvPut KeyDispSlogan (NvString (displaySlogan p)) p in
    let p := nvPut KeyDispFooter (NvString (displayFooter p)) p in
    let p := onMachine (set_displayNeedsUpdate true) p in
    let p := logPanel LogWebDisplaySaved p in
    let p := set_otaStatusMessage StatusDisplaySaved p in
    (302, p).

(** ** The screen *)

(** What [updateDisplayScreen] puts on the screen. *)
Definition renderScreen (p : Panel) : Frame :=
  let st := machine p in
  {| frameCredit := credit (pay st);
     frameWifi := if negb (offlineMode (world st))
                  then Some (wifiConnected (world st)) else None;
     frameContent :=
       match currentSystemState (ui st) with
       | ERROR_DISPLAY => ContentNone
       | _ =>
           let sel := selectedSlot (input st) in
           if active (dispenseJob st) then
             ContentOpening (slot (dispenseJob st) + 1)
           else if negb (sel =? -1) then
             if aget false (slotLocked (slots st)) sel then ContentLocked (sel + 1)
             else if negb (aget false (slotAvailable (slots st)) sel)
             then ContentEmpty (sel + 1)
             else ContentPrice (sel + 1) (aget f32_zero (slotPrices (slots st)) sel)
                               (f32_leb (aget f32_zero (slotPrices (slots st)) sel)
                                        (credit (pay st)))
           else if 0 <? strlen (keypadInputBuffer (input st)) then
             ContentInput (keypadInputBuffer (input st))
           else ContentIdle (activeSlots (slots st))
       end;
     frameSlogan := if 0 <? strlen (displaySlogan p)
                    then Some (displaySlogan p) else None;
     frameFooter := displayFooter p |}.

Definition updateDisplayScreen (p : Panel) : Panel :=
  drawPanel (DrawFrame (renderScreen p)) p.

(** ** The main loop *)

(** [while (digitalRead(WIFI_RESET_BUTTON) == LOW)
       { if (millis() - pressStart >= 7000) break; delay(10); }]
    [button t] tells whether the button reads LOW at clock [t]. *)
Fixpoint holdResetButton (fuel : nat) (button : Z -> bool) (pressStart : Z)
         (st : State) : State :=
  match fuel with
  | O => st
  | S n =>
      if button (millis st) then
        if 7000 <=? ulong (millis st - pressStart) then st
        else holdResetButton n button pressStart (delay 10 st)
      else st
  end.

(** A pass of [loop] either returns or ends in [ESP.restart()]. *)
Inductive LoopResult :=
| Running (p : Panel)
| Restarting (p : Panel).

(** The two time-outs at the head of the state machine. *)
Definition loopTimeouts (p : Panel) : Panel :=
  let p :=
    if DISPLAY_TIMEOUT p
       <? ulong (millis (machine p) - lastUserInteractionTime (ui (machine p))) then
      if negb (CurrentSystemState_eqb (currentSystemState (ui (machine p))) IDLE)
      then onMachine resetDisplayToDefault (logPanel LogDisplayTimeout p)
      else p
    else p in
  if negb (selectedSlot (input (machine p)) =? -1)
     && (SLOT_SELECTION_TIMEOUT p
         <? ulong (millis (machine p) - slotSelectedTime (input (machine p))))
  then onMachine resetDisplayToDefault (logPanel LogSelectionTimeout p)
  else p.

(** The state machine: time-outs, then the four input and job handlers.
    [pins] is what the keypad scan reads, [probe], [errOn] and [errOff] are
    the results of the I2C transactions should they be started. *)
Definition loopStateMachine (pins : KeypadPins) (probe errOn errOff : Z)
           (p : Panel) : Panel :=
  if negb (CurrentSystemState_eqb (currentSystemState (ui (machine p)))
                                  OTA_UPDATE) then
    let p := loopTimeouts p in
    let p := onMachine (processKeypad pins probe) p in
    let p := onMachine processAcceptedCoin p in
    let p := onMachine processBillAcceptorPulses p in
    onMachine (processDispenseJob errOn errOff) p
  else p.

(** Auto-logout from the web interface. *)
Definition loopAutoLogout (p : Panel) : Panel :=
  if isAuthenticated (web (machine p))
     && (WEB_TIMEOUT p
         <? ulong (millis (machine p) - lastActivityTimeWeb (web (machine p))))
  then logPanel LogWebAutoLogout (onMachine (set_isAuthenticated false) p)
  else p.

(** The display is redrawn only when needed. *)
Definition loopRefreshDisplay (p : Panel) : Panel :=
  if displayNeedsUpdate (ui (machine p))
     && negb (CurrentSystemState_eqb (currentSystemState (ui (machine p)))
                                     OTA_UPDATE)
  then onMachine (set_displayNeedsUpdate false) (updateDisplayScreen p)
  else p.

(** The WiFi connection is checked every thirty seconds. *)
Definition loopWiFiCheck (p : Panel) : Panel :=
  if negb (offlineMode (world (machine p)))
     && (30000 <? ulong (millis (machine p) - lastWiFiCheckTime p)) then
    let p := set_lastWiFiCheckTime (millis (machine p)) p in
    if negb (wifiConnected (world (machine p)))
    then set_wifiReconnects (S (wifiReconnects p)) (logPanel LogWiFiLost p)
    else p
  else p.

(** One pass of [loop] with no web request pending; [button t] tells
    whether the reset button reads LOW at clock [t].  What
    [preferences.clear()] and [wm.resetSettings()] leave behind is not part
    of the model: the pass ends in [Restarting]. *)
Definition loop (button : Z -> bool) (pins : KeypadPins) (probe errOn errOff : Z)
           (p : Panel) : LoopResult :=
  let pressStart := millis (machine p) in
  let p := if button pressStart
           then onMachine (holdResetButton 701 button pressStart) p else p in
  if button pressStart && (7000 <=? ulong (millis (machine p) - pressStart)) then
    let p := logPanel LogFactoryReset p in
    let p := drawPanel DrawFactoryReset p in
    let p := onMachine (delay 3000) p in
    Restarting (logPanel LogFactoryResetComplete p)
  else
    let p := loopStateMachine pins probe errOn errOff p in
    let p := loopAutoLogout p in
    let p := loopRefreshDisplay p in
    let p := loopWiFiCheck p in
    Running (onMachine (delay 10) p).

(** Nothing is waiting for the state machine: no key is down or
    remembered, no pulse is counted, no job is open. *)
Definition nothingPending (pins : KeypadPins) (st : State) : Prop :=
  scanKeypad pins = NOKEY
  /\ lastPhysicallyPressedKey (keypad st) = NOKEY
  /\ coinPulseCount (pay st) = 0
  /\ billAcceptorPulseCount (pay st) = 0
  /\ active (dispenseJob st) = false.

(** ** The panel at rest *)

Definition idlePanel : Panel :=
  {| machine := idleState;
     WEB_TIMEOUT := 600000;
     SLOT_SELECTION_TIMEOUT := 10000;
     DISPLAY_TIMEOUT := 20000;
     savedPassword := "admin";
     displaySlogan := "";
     displayFooter := "www.hanimat.at";
     otaStatusMessage := StatusNone;
     lastWiFiCheckTime := 0;
     nvPanel := [];
     panelLog := [];
     panelTft := [];
     wifiReconnects := 0 |}.

(** The admin is logged in. *)
Definition adminPanel : Panel := set_machine adminState idlePanel.

(** ** Example panels *)

(** [price >= 0] *)
Definition validPrice (x : float) : bool := f32_leb (f32_of_int 0) x.

(** Five of sixteen slots are in stock, the "almost empty" alert is
    latched and the admin is logged in. *)
Definition lowStockPanel : Panel :=
  set_machine
    (set_notificationFlags true false (with_slots (stockOf 5) adminState))
    idlePanel.

(** Relays 3 and 12 are on; the admin is logged in. *)
Definition relaysOnPanel : Panel :=
  set_machine (set_expanderOutputStates 4100 adminState) idlePanel.

(** Telegram is off, three slots are left and the alert is latched; the
    admin is logged in. *)
Definition latchedPanel : Panel :=
  set_machine
    (set_notificationFlags true false (with_slots (stockOf 3) adminState))
    idlePanel.

(** Slot 4 is selected, five euros are in. *)
Definition selectedPanel : Panel :=
  set_machine (set_selectedSlot 3 paidState) idlePanel.

(** Slot 4 was selected at 10000 ms; it is now 20001 ms. *)
Definition stalePanel : Panel :=
  set_machine
    (set_clock 20001
       (set_displayNeedsUpdate false
          (set_currentSystemState USER_INTERACTION
             (set_slotSelectedTime 10000 (set_selectedSlot 3 paidState)))))
    idlePanel.

(** The admin's last request came at 10000 ms; it is now 610001 ms. *)
Definition forgottenPanel : Panel :=
  set_machine (set_clock 610001 (set_displayNeedsUpdate false adminState))
              idlePanel.

(** ** The log ring

    [logMessage] also files every line, with the seconds since boot in
    front, in a ring of fifty strings that [handleLogDataRequest] serves.
    Only that handler reads the ring, so it is kept on its own here. *)

Definition MAX_LOG_LINES : Z := 50.

Record LogRing := {
  logBuffer : list string;
  logIndex : Z
}.

(** [String(n)] for an [unsigned long]: its decimal digits. *)
Definition String_of_ulong (n : Z) : string :=
  NilZero.string_of_uint (N.to_uint (Z.to_N n)).

(** ["[" + String(millis() / 1000) + "s] " + msg] *)
Definition logLine (now : Z) (msg : string) : string :=
  ("[" ++ String_of_ulong (now / 1000) ++ "s] " ++ msg)%string.

(** The ring part of [logMessage], at clock [now]. *)
Definition logMessage_ring (now : Z) (msg : string) (r : LogRing) : LogRing :=
  {| logBuffer := aset (logBuffer r) (logIndex r) (logLine now msg);
     logIndex := Z.rem (logIndex r + 1) MAX_LOG_LINES |}.

Definition newline : string := String (ascii_of_nat 10) EmptyString.

(** The loop of [handleLogDataRequest]. *)
Definition logContent (r : LogRing) : string :=
  let startIdx := logIndex r in
  fold_left
    (fun logContent i =>
       let currentReadPos := Z.rem (startIdx + Z.of_nat i) MAX_LOG_LINES in
       let line := aget ""%string (logBuffer r) currentReadPos in
       if 0 <? strlen line then (logContent ++ line ++ newline)%string
       else logContent)
    (seq 0 (Z.to_nat MAX_LOG_LINES)) ""%string.

(** The handler returns the status and the body it sends. *)
Definition handleLogDataRequest (r : LogRing) (p : Panel) : Z * string * Panel :=
  let p := touchWeb p in
  if negb (isAuthenticated (web (machine p))) then (401, "Not authorized."%string, p)
  else (200, logContent r, p).

(** The ring at boot: fifty empty strings. *)
Definition emptyRing : LogRing :=
  {| logBuffer := repeat ""%string 50; logIndex := 0 |}.

(** The lines logged so far, oldest first, each with its clock reading. *)
Definition logAll (writes : list (Z * string)) (r : LogRing) : LogRing :=
  fold_left (fun r w => logMessage_ring (fst w) (snd w) r) writes r.

(** The last [n] elements of a list. *)
Definition lastn {A : Type} (n : nat) (l : list A) : list A :=
  skipn (List.length l - n) l.

(** The lines, each followed by a line feed. *)
Fixpoint joinLines (ls : list string) : string :=
  match ls with
  | [] => ""%string
  | l :: rest => (l ++ newline ++ joinLines rest)%string
  end.

(** The ring read from position [i] on, once around. *)
Definition rotate {A : Type} (i : nat) (l : list A) : list A :=
  skipn i l ++ firstn i l.

(** What [handleLogDataRequest] does with one entry of the ring. *)
Definition appendLine (logContent line : string) : string :=
  if 0 <? strlen line then (logContent ++ line ++ newline)%string else logContent.

(** * Properties *)

(** ** Reading fields through updates *)

Declare Reduction readFields :=
  cbn [timing keypad input ui slots notify pay dispenseJob relay web world
       with_keypad with_input with_ui with_slots with_notify with_pay
       with_job with_relay with_web with_world
       set_keypadInputBuffer set_lastKeypadInputTime set_selectedSlot
       set_slotSelectedTime set_currentSystemState set_displayNeedsUpdate
       set_lastUserInteractionTime set_slotAvailable set_credit
       set_coinPulseCount set_lastCoinPulseTime set_billAcceptorPulseCount
       set_billEdgeTimes set_active set_expanderOutputStates
       set_lastRelayChangeTime set_notificationFlags set_lastActivityTimeWeb
       set_clock set_billInhibitPin set_wire set_serial set_tft
       set_telegramOutbox set_preferences
       logMessage draw digitalWrite_BILL_INHIBIT millis delay afterError
       resetDisplayToDefault
       COIN_PROCESSING_DELAY BILL_ISR_DEBOUNCE_MS
       BILL_GROUP_PROCESSING_TIMEOUT_MS DISPENSE_RELAY_ON_TIME
       lastPhysicallyPressedKey lastReturnedKey lastKeyPressTime
       keypadInputBuffer lastKeypadInputTime selectedSlot slotSelectedTime
       currentSystemState displayNeedsUpdate lastUserInteractionTime
       slotPrices slotAvailable slotLocked activeSlots
       almostEmptyThreshold almostEmptyNotificationSent emptyNotificationSent
       telegramEnabled telegramNotifyOnSale telegramNotifyAlmostEmpty
       telegramNotifyEmpty telegramBotToken telegramChatId
       credit coinPulseCount lastCoinPulseTime billAcceptorPulseCount
       lastBillPulseEdgeTime lastBillDebounceEdgeTime
       active slot startTime relayActivated
       expanderOutputStates lastRelayChangeTime
       isAuthenticated lastActivityTimeWeb
       nvCredit nvAvail
       clock billInhibitPin wire serial tft telegramOutbox preferences
       offlineMode wifiConnected botDelivers
       fst snd negb andb orb].

Ltac fields :=
  match goal with
  | |- ?G => let G' := eval readFields in G in change G'
  end.

Tactic Notation "fields" "in" hyp(H) :=
  let T := type of H in
  let T' := eval readFields in T in
  change T' in H.

Arguments errorDwell : simpl never.

(** ** Machine arithmetic *)

Lemma ulong_range (z : Z) : 0 <= ulong z < 4294967296.
Proof. unfold ulong. apply Z.mod_pos_bound. reflexivity. Qed.

Lemma ulong_small (z : Z) : 0 <= z < 4294967296 -> ulong z = z.
Proof. intros H. unfold ulong. apply Z.mod_small. exact H. Qed.

Lemma ulong_add_l (a b : Z) : ulong (ulong a + b) = ulong (a + b).
Proof. unfold ulong. apply Zplus_mod_idemp_l. Qed.

Lemma ulong_sub_l (a b : Z) : ulong (ulong a - b) = ulong (a - b).
Proof. unfold ulong. apply Zminus_mod_idemp_l. Qed.

Lemma to_int_small (z : Z) : - 2147483648 <= z < 2147483648 -> to_int z = z.
Proof.
  intros H. unfold to_int.
  change (2 ^ 31) with 2147483648. change (2 ^ 32) with 4294967296.
  rewrite Z.mod_small; lia.
Qed.

(** A number inside the range of [long] is read as it is, one beyond it
    as the nearer end of the range. *)
Lemma saturate_long_cases (z : Z) :
  LONG_MIN <= saturate_long z <= LONG_MAX
  /\ (LONG_MIN <= z <= LONG_MAX -> saturate_long z = z)
  /\ (LONG_MAX < z -> saturate_long z = LONG_MAX)
  /\ (z < LONG_MIN -> saturate_long z = LONG_MIN).
Proof. unfold saturate_long, LONG_MIN, LONG_MAX. lia. Qed.

Lemma toInt_range (s : string) : LONG_MIN <= toInt s <= LONG_MAX.
Proof. unfold toInt. apply saturate_long_cases. Qed.

Lemma toInt_out_of_range :
  toInt "4294967297" = LONG_MAX
  /\ toInt "-4294967293" = LONG_MIN
  /\ toInt "2147483647" = 2147483647
  /\ toInt " -12 volts" = -12.
Proof. repeat split. Qed.

(** ** The clock and the error dwell *)

Lemma set_clock_millis (st : State) : set_clock (millis st) st = st.
Proof. destruct st as [? ? ? ? ? ? ? ? ? ? []]. reflexivity. Qed.

Lemma set_clock_set_clock (t t' : Z) (st : State) :
  set_clock t (set_clock t' st) = set_clock t st.
Proof. reflexivity. Qed.

Lemma errorDwell_S (n : nat) (e : Z) (st : State) :
  errorDwell (S n) e st =
  if ulong (millis st - e) <? 3000 then errorDwell n e (delay 10 st) else st.
Proof. reflexivity. Qed.

(** The dwell loop runs its 300 rounds of 10 ms and then stops: it is a
    wait of 3000 ms. *)
Lemma errorDwell_rounds (n : nat) :
  forall (k : Z) (e : Z) (st : State),
    0 <= k -> k + Z.of_nat n = 300 ->
    millis st = ulong (e + 10 * k) ->
    errorDwell n e st = set_clock (ulong (e + 3000)) st.
Proof.
  induction n as [|n IH]; intros k e st Hk Hn Hm.
  - assert (k = 300) by lia. subst k.
    unfold errorDwell. replace (e + 3000) with (e + 10 * 300) by lia.
    rewrite <- Hm. symmetry. apply set_clock_millis.
  - rewrite errorDwell_S.
    assert (Hlt : (ulong (millis st - e) <? 3000) = true).
    { rewrite Hm, ulong_sub_l.
      replace (e + 10 * k - e) with (10 * k) by lia.
      rewrite ulong_small by lia. apply Z.ltb_lt. lia. }
    rewrite Hlt.
    rewrite (IH (k + 1)); [reflexivity | lia | lia |].
    change (millis (delay 10 st)) with (ulong (millis st + 10)).
    rewrite Hm, ulong_add_l. f_equal. lia.
Qed.

Lemma errorDwell_300 (st : State) :
  0 <= millis st < 4294967296 ->
  errorDwell 300 (millis st) st = set_clock (ulong (millis st + 3000)) st.
Proof.
  intros Hc. apply (errorDwell_rounds 300 0); [lia | reflexivity |].
  rewrite Z.add_0_r. symmetry. apply ulong_small. exact Hc.
Qed.

(** Whatever the fuel and the clock, the dwell touches the clock only. *)
Lemma errorDwell_clock_only (n : nat) :
  forall (e : Z) (st : State), exists t, errorDwell n e st = set_clock t st.
Proof.
  induction n as [|n IH]; intros e st.
  - exists (millis st). symmetry. apply set_clock_millis.
  - rewrite errorDwell_S. destruct (ulong (millis st - e) <? 3000).
    + destruct (IH e (delay 10 st)) as [t Ht]. exists t. rewrite Ht. reflexivity.
    + exists (millis st). symmetry. apply set_clock_millis.
Qed.

Arguments displayErrorMessage : simpl never.

Lemma displayErrorMessage_spec (e : ErrorMsg) (st : State) :
  exists t, displayErrorMessage e st = afterError e t st.
Proof.
  unfold displayErrorMessage.
  match goal with
  | |- context [errorDwell 300 ?e0 ?s0] =>
      destruct (errorDwell_clock_only 300 e0 s0) as [t Ht]; rewrite Ht
  end.
  exists t. reflexivity.
Qed.

(** The dwell is 400 ms of error tone and 3000 ms of display. *)
Lemma displayErrorMessage_clock (e : ErrorMsg) (st : State) :
  0 <= millis st < 4294967296 ->
  displayErrorMessage e st = afterError e (ulong (millis st + 3400)) st.
Proof.
  intros Hc. unfold displayErrorMessage.
  rewrite errorDwell_300.
  - match goal with
    | |- context [ulong (millis ?s0 + 3000)] =>
        change (millis s0) with (ulong (ulong (millis st + 150) + 250))
    end.
    replace (ulong (ulong (ulong (millis st + 150) + 250) + 3000))
      with (ulong (millis st + 3400)).
    + reflexivity.
    + rewrite ulong_add_l, <- Z.add_assoc, ulong_add_l. f_equal. lia.
  - apply ulong_range.
Qed.

(** ** C1: mutual exclusion of dispense jobs *)

(** Resolving the buffer never touches credit, slots, job, relays or the
    store. *)
Lemma processKeypadSelection_frame (st : State) :
  pay (processKeypadSelection st) = pay st
  /\ slots (processKeypadSelection st) = slots st
  /\ dispenseJob (processKeypadSelection st) = dispenseJob st
  /\ relay (processKeypadSelection st) = relay st
  /\ wire (world (processKeypadSelection st)) = wire (world st)
  /\ preferences (world (processKeypadSelection st)) = preferences (world st).
Proof.
  unfold processKeypadSelection.
  destruct (strlen (keypadInputBuffer (input st)) =? 0); [repeat split|].
  fields.
  destruct ((1 <=? toInt (keypadInputBuffer (input st)))
            && (toInt (keypadInputBuffer (input st)) <=? activeSlots (slots st))).
  - destruct (selectionIsFinal _ _); fields; repeat split.
  - destruct (strlen (keypadInputBuffer (input st)) =? 2); fields; [|repeat split].
    match goal with
    | |- context [displayErrorMessage ?e ?x] =>
        destruct (displayErrorMessage_spec e x) as (t & ->)
    end.
    fields. repeat split.
Qed.

(** The [#] key while a job is active: whichever branch is taken (an error
    message, or the request that [scheduleDispense] ignores), credit, job,
    slots, bus and store are as before. *)
Lemma confirm_key_while_active (probe : Z) (st : State) :
  active (dispenseJob st) = true ->
  let st' := processResolvedKey "#" probe st in
  pay st' = pay st
  /\ slots st' = slots st
  /\ dispenseJob st' = dispenseJob st
  /\ wire (world st') = wire (world st)
  /\ preferences (world st') = preferences (world st).
Proof.
  intros Ha. cbv zeta. unfold processResolvedKey.
  change (isdigit "#") with false. change (Ascii.eqb "#" "#") with true.
  cbv iota. unfold playKeyPressBeep.
  set (st0 := set_currentSystemState USER_INTERACTION _).
  assert (F0 : pay st0 = pay st /\ slots st0 = slots st
               /\ dispenseJob st0 = dispenseJob st
               /\ wire (world st0) = wire (world st)
               /\ preferences (world st0) = preferences (world st))
    by (repeat split).
  clearbody st0.
  set (stA := if 0 <? strlen (keypadInputBuffer (input st0)) then _ else st0).
  assert (FA : pay stA = pay st /\ slots stA = slots st
               /\ dispenseJob stA = dispenseJob st
               /\ wire (world stA) = wire (world st)
               /\ preferences (world stA) = preferences (world st)).
  { subst stA. destruct F0 as (A & B & C & D & E).
    destruct (0 <? strlen (keypadInputBuffer (input st0)));
      [|repeat split; assumption].
    match goal with
    | |- context [processKeypadSelection ?x] =>
        destruct (processKeypadSelection_frame x) as (P1 & P2 & P3 & _ & P5 & P6)
    end.
    rewrite P1, P2, P3, P5, P6. fields. repeat split; assumption. }
  clearbody stA. cbv zeta.
  destruct FA as (A & B & C & D & E).
  destruct (negb (selectedSlot (input stA) =? -1)).
  2: { destruct (displayErrorMessage_spec ErrNoSlotChosen stA) as (t & ->).
       fields. repeat split; assumption. }
  destruct (aget false (slotLocked (slots stA)) (selectedSlot (input stA))).
  { match goal with
    | |- context [displayErrorMessage ?e ?x] =>
        destruct (displayErrorMessage_spec e x) as (t & ->)
    end. fields. repeat split; assumption. }
  destruct (negb (aget false (slotAvailable (slots stA)) (selectedSlot (input stA)))).
  { match goal with
    | |- context [displayErrorMessage ?e ?x] =>
        destruct (displayErrorMessage_spec e x) as (t & ->)
    end. fields. repeat split; assumption. }
  destruct (f32_leb _ _).
  2: { destruct (displayErrorMessage_spec ErrCreditTooLow stA) as (t & ->).
       fields. repeat split; assumption. }
  unfold scheduleDispense. fields. rewrite C, Ha. fields.
  repeat split; assumption.
Qed.

(** C1. There is one [dispenseJob] record, so at most one job exists.  While
    it is active, [scheduleDispense] (for any slot, whatever the bus would
    answer) only writes its two log lines: nothing is queued, nothing is
    sent on the bus, and Credit, the four fields of the active job and the
    price / available / locked state of every slot stay as they were.  The
    same holds one level up, for the [#] key that carries the request. *)
Theorem scheduleDispense_rejects_while_active
  (st : State) (slotToDispense probe : Z) :
  active (dispenseJob st) = true ->
  let st' := scheduleDispense slotToDispense probe st in
  let st'' := processResolvedKey "#" probe st in
  st' = logMessage LogScheduleIgnored
          (logMessage (LogScheduleCalled (slotToDispense + 1)) st)
  /\ credit (pay st') = credit (pay st)
  /\ active (dispenseJob st') = active (dispenseJob st)
  /\ slot (dispenseJob st') = slot (dispenseJob st)
  /\ startTime (dispenseJob st') = startTime (dispenseJob st)
  /\ relayActivated (dispenseJob st') = relayActivated (dispenseJob st)
  /\ slotPrices (slots st') = slotPrices (slots st)
  /\ slotAvailable (slots st') = slotAvailable (slots st)
  /\ slotLocked (slots st') = slotLocked (slots st)
  /\ wire (world st') = wire (world st)
  /\ tft (world st') = tft (world st)
  /\ credit (pay st'') = credit (pay st)
  /\ dispenseJob st'' = dispenseJob st
  /\ slots st'' = slots st.
Proof.
  intros Hact st' st''.
  assert (E : st' = logMessage LogScheduleIgnored
                      (logMessage (LogScheduleCalled (slotToDispense + 1)) st)).
  { subst st'. unfold scheduleDispense. fields. rewrite Hact. reflexivity. }
  destruct (confirm_key_while_active probe st Hact) as (K1 & K2 & K3 & _).
  fold st'' in K1, K2, K3.
  split; [exact E|]. rewrite E, K1, K2, K3. repeat split.
Qed.

Lemma scheduleDispense_rejects_while_active_witness :
  active (dispenseJob busyState) = true
  /\ scheduleDispense 7 0 busyState
     = logMessage LogScheduleIgnored (logMessage (LogScheduleCalled 8) busyState).
Proof.
  split; [reflexivity|].
  exact (proj1 (scheduleDispense_rejects_while_active busyState 7 0 eq_refl)).
Defined.

(** ** C10: the relay mirror *)

Lemma testbit_uint16 (z i : Z) :
  0 <= i < 16 -> Z.testbit (uint16 z) i = Z.testbit z i.
Proof.
  intros Hi. unfold uint16. rewrite Z.land_spec.
  change 65535 with (Z.ones 16).
  rewrite Z.ones_spec_low by lia. apply andb_true_r.
Qed.

Lemma testbit_uint8 (z i : Z) :
  0 <= i < 8 -> Z.testbit (uint8 z) i = Z.testbit z i.
Proof.
  intros Hi. unfold uint8. rewrite Z.land_spec.
  change 255 with (Z.ones 8).
  rewrite Z.ones_spec_low by lia. apply andb_true_r.
Qed.

Lemma testbit_one_shifted (s i : Z) :
  0 <= s -> 0 <= i -> Z.testbit (Z.shiftl 1 s) i = (s =? i).
Proof.
  intros Hs Hi. rewrite Z.shiftl_1_l. apply Z.pow2_bits_eqb. exact Hs.
Qed.

Lemma relayMask_bit (mask s : Z) (activate : bool) :
  0 <= s < 16 -> Z.testbit (relayMask mask s activate) s = activate.
Proof.
  intros Hs. unfold relayMask. destruct activate.
  - rewrite testbit_uint16, Z.lor_spec, testbit_one_shifted by lia.
    rewrite Z.eqb_refl. apply orb_true_r.
  - rewrite testbit_uint16, Z.land_spec, Z.lnot_spec, testbit_one_shifted by lia.
    rewrite Z.eqb_refl. apply andb_false_r.
Qed.

Lemma relayMask_other_bits (mask s i : Z) (activate : bool) :
  0 <= s < 16 -> 0 <= i < 16 -> i <> s ->
  Z.testbit (relayMask mask s activate) i = Z.testbit mask i.
Proof.
  intros Hs Hi Hne. unfold relayMask.
  assert (E : (s =? i) = false) by (apply Z.eqb_neq; lia).
  destruct activate.
  - rewrite testbit_uint16, Z.lor_spec, testbit_one_shifted, E by lia.
    apply orb_false_r.
  - rewrite testbit_uint16, Z.land_spec, Z.lnot_spec, testbit_one_shifted, E by lia.
    apply andb_true_r.
Qed.

(** The byte on the bus carries the bit of slot [s] at position [s mod 8]. *)
Lemma relayWrite_bit (m s : Z) :
  0 <= s < 16 -> Z.testbit (snd (relayWrite m s)) (s mod 8) = Z.testbit m s.
Proof.
  intros Hs. unfold relayWrite. cbn [snd].
  destruct (s <? 8) eqn:E.
  - apply Z.ltb_lt in E. rewrite Z.mod_small by lia.
    rewrite testbit_uint8 by lia. rewrite Z.land_spec.
    change 255 with (Z.ones 8). rewrite Z.ones_spec_low by lia.
    apply andb_true_r.
  - apply Z.ltb_ge in E.
    assert (Hm : s mod 8 = s - 8).
    { replace s with ((s - 8) + 1 * 8) at 1 by lia.
      rewrite Z.mod_add by lia. apply Z.mod_small. lia. }
    rewrite Hm, testbit_uint8, Z.shiftr_spec by lia.
    f_equal. lia.
Qed.

(** [controlSlotRelay] on a slot of the bank, whatever the bus answers. *)
Lemma controlSlotRelay_in_range (s : Z) (activate : bool) (error : Z) (st : State) :
  0 <= s < MAX_SLOTS ->
  controlSlotRelay s activate error st =
  let m := relayMask (expanderOutputStates (relay st)) s activate in
  let st1 := set_wire (relayWrite m s :: wire (world st))
               (set_expanderOutputStates m st) in
  if error =? 0
  then (true, set_lastRelayChangeTime (millis st)
                (logMessage (LogRelaySent (s + 1) activate) st1))
  else (false, logMessage (LogRelayI2CFailed (s + 1) error) st1).
Proof.
  unfold MAX_SLOTS. intros Hs. unfold controlSlotRelay, MAX_SLOTS.
  assert (E1 : (s <? 0) = false) by (apply Z.ltb_ge; lia).
  assert (E2 : (16 <=? s) = false) by (apply Z.leb_gt; lia).
  rewrite E1, E2. cbn [orb]. unfold relayMask, relayWrite.
  destruct activate; destruct (error =? 0); reflexivity.
Qed.

(** C10. For every slot of the bank, [controlSlotRelay] first sets the bit
    of the slot in the in-memory mask to the requested value and then
    writes the byte taken from that updated mask; the result is [true]
    exactly when the bus acknowledged.  When the transmission fails the
    function returns [false] and the mask keeps the requested bit: it is
    not rolled back, the other bits are as before, and the time of the
    last relay change is not stamped. *)
Theorem controlSlotRelay_mirror_not_rolled_back
  (s : Z) (activate : bool) (error : Z) (st : State) :
  0 <= s < MAX_SLOTS ->
  let ok := fst (controlSlotRelay s activate error st) in
  let st' := snd (controlSlotRelay s activate error st) in
  let m' := expanderOutputStates (relay st') in
  Z.testbit m' s = activate
  /\ (forall i, 0 <= i < 16 -> i <> s ->
        Z.testbit m' i = Z.testbit (expanderOutputStates (relay st)) i)
  /\ wire (world st') = relayWrite m' s :: wire (world st)
  /\ Z.testbit (snd (relayWrite m' s)) (s mod 8) = activate
  /\ ok = (error =? 0)
  /\ (error <> 0 ->
        ok = false
        /\ Z.testbit m' s = activate
        /\ lastRelayChangeTime (relay st') = lastRelayChangeTime (relay st)).
Proof.
  intros Hs. rewrite (controlSlotRelay_in_range s activate error st Hs).
  unfold MAX_SLOTS in Hs. cbv zeta.
  assert (Hbit := relayMask_bit (expanderOutputStates (relay st)) s activate Hs).
  destruct (error =? 0) eqn:E; cbn [fst snd];
    (split; [exact Hbit|];
     split; [intros i Hi Hne; apply relayMask_other_bits; assumption|];
     split; [reflexivity|];
     split; [rewrite relayWrite_bit by exact Hs; exact Hbit|];
     split; [reflexivity|]).
  - intros Hne. apply Z.eqb_eq in E. contradiction.
  - intros _. repeat split. exact Hbit.
Qed.

Lemma controlSlotRelay_mirror_not_rolled_back_witness :
  0 <= 2 < MAX_SLOTS
  /\ fst (controlSlotRelay 2 true 2 idleState) = false
  /\ Z.testbit (expanderOutputStates
                  (relay (snd (controlSlotRelay 2 true 2 idleState)))) 2 = true.
Proof.
  split; [unfold MAX_SLOTS; lia|].
  pose proof (controlSlotRelay_mirror_not_rolled_back 2 true 2 idleState
                ltac:(unfold MAX_SLOTS; lia)) as H.
  cbv zeta in H. destruct H as (_ & _ & _ & _ & _ & H).
  destruct (H ltac:(lia)) as (H1 & H2 & _). split; assumption.
Defined.

(** ** C9: the open window ends at the first tick past the deadline *)

(** A job that is not active is left alone, whatever the bus would say. *)
Lemma processDispenseJob_inactive (errOn errOff : Z) (st : State) :
  active (dispenseJob st) = false -> processDispenseJob errOn errOff st = st.
Proof. intros H. unfold processDispenseJob. rewrite H. reflexivity. Qed.

(** With the relay already on, a tick is step 2 alone. *)
Lemma processDispenseJob_open (errOn errOff : Z) (st : State) :
  active (dispenseJob st) = true ->
  relayActivated (dispenseJob st) = true ->
  processDispenseJob errOn errOff st =
  dispenseStep2 (millis st) errOff (set_currentSystemState USER_INTERACTION st).
Proof.
  intros Ha Hr. unfold processDispenseJob. rewrite Ha. fields.
  rewrite Hr. reflexivity.
Qed.

(** C9. Take a job whose relay has been activated, and any tick at which
    the time elapsed since the restarted start time (as the code computes
    it, modulo 2^32) has reached [DISPENSE_RELAY_ON_TIME], by however
    much.  On that tick [processDispenseJob] clears the job, sets the bill
    inhibit line LOW, and puts selection and display back to idle; when the
    job's slot is a relay of the bank it clears the slot's bit and sends
    the byte with that bit cleared to the board (whether or not the board
    acknowledges).  Credit and slots are not touched, and the job is
    inactive at the end of the tick, so later ticks find no job. *)
Theorem processDispenseJob_closes_at_deadline (errOn errOff : Z) (st : State) :
  active (dispenseJob st) = true ->
  relayActivated (dispenseJob st) = true ->
  DISPENSE_RELAY_ON_TIME (timing st)
    <= ulong (millis st - startTime (dispenseJob st)) ->
  let st' := processDispenseJob errOn errOff st in
  let s := slot (dispenseJob st) in
  let m' := relayMask (expanderOutputStates (relay st)) s false in
  active (dispenseJob st') = false
  /\ billInhibitPin (world st') = LOW
  /\ selectedSlot (input st') = -1
  /\ keypadInputBuffer (input st') = ""%string
  /\ currentSystemState (ui st') = IDLE
  /\ displayNeedsUpdate (ui st') = true
  /\ credit (pay st') = credit (pay st)
  /\ slots st' = slots st
  /\ (0 <= s < MAX_SLOTS ->
        wire (world st') = relayWrite m' s :: wire (world st)
        /\ Z.testbit (snd (relayWrite m' s)) (s mod 8) = false
        /\ expanderOutputStates (relay st') = m'
        /\ Z.testbit (expanderOutputStates (relay st')) s = false)
  /\ (forall e1 e2, processDispenseJob e1 e2 st' = st').
Proof.
  intros Ha Hr Hel st' s m'.
  assert (Hst' : st' = dispenseStep2 (millis st) errOff
                         (set_currentSystemState USER_INTERACTION st)).
  { subst st'. apply processDispenseJob_open; assumption. }
  unfold dispenseStep2 in Hst'. fields in Hst'.
  rewrite Hr in Hst'. apply Z.leb_le in Hel. rewrite Hel in Hst'.
  cbn [andb] in Hst'. fold s in Hst'.
  assert (Hinactive : active (dispenseJob st') = false).
  { rewrite Hst'. destruct (controlSlotRelay s false errOff _). reflexivity. }
  destruct (Z_lt_dec s 0) as [Hneg|Hnn];
    [|destruct (Z_le_dec MAX_SLOTS s) as [Hbig|Hsmall]].
  1,2: (assert (Hout : ((s <? 0) || (MAX_SLOTS <=? s)) = true)
         by (apply orb_true_iff; rewrite Z.ltb_lt, Z.leb_le; lia);
        unfold controlSlotRelay in Hst'; rewrite Hout in Hst';
        rewrite Hst'; fields;
        repeat (split; [reflexivity|]);
        split;
        [ intros Hs; exfalso; lia
        | intros e1 e2; rewrite <- Hst';
          apply processDispenseJob_inactive; exact Hinactive ]).
  assert (Hs : 0 <= s < MAX_SLOTS) by lia.
  rewrite (controlSlotRelay_in_range s false errOff _ Hs) in Hst'.
  cbv zeta in Hst'. fields in Hst'. fold m' in Hst'.
  assert (Hm' : Z.testbit m' s = false) by (apply relayMask_bit; exact Hs).
  destruct (errOff =? 0); rewrite Hst'; fields;
    (repeat (split; [reflexivity|]);
     split;
     [ intros _; repeat split;
       [ rewrite relayWrite_bit by exact Hs; exact Hm' | exact Hm' ]
     | intros e1 e2; rewrite <- Hst';
       apply processDispenseJob_inactive; exact Hinactive ]).
Qed.

Lemma processDispenseJob_closes_at_deadline_witness :
  active (dispenseJob openJobState) = true
  /\ relayActivated (dispenseJob openJobState) = true
  /\ DISPENSE_RELAY_ON_TIME (timing openJobState)
       <= ulong (millis openJobState - startTime (dispenseJob openJobState))
  /\ active (dispenseJob (processDispenseJob 0 0 openJobState)) = false
  /\ wire (world (processDispenseJob 0 0 openJobState)) = [(2, 0)].
Proof.
  assert (H1 : active (dispenseJob openJobState) = true) by reflexivity.
  assert (H2 : relayActivated (dispenseJob openJobState) = true) by reflexivity.
  assert (H3 : DISPENSE_RELAY_ON_TIME (timing openJobState)
               <= ulong (millis openJobState - startTime (dispenseJob openJobState)))
    by (apply Z.leb_le; reflexivity).
  split; [exact H1|]. split; [exact H2|]. split; [exact H3|].
  pose proof (processDispenseJob_closes_at_deadline 0 0 openJobState H1 H2 H3) as H.
  cbv zeta in H. destruct H as (Ha & _ & _ & _ & _ & _ & _ & _ & Hw & _).
  split; [exact Ha|].
  destruct (Hw ltac:(unfold MAX_SLOTS; cbn; lia)) as (Hw1 & _).
  rewrite Hw1. reflexivity.
Defined.

(** Before the deadline the open job is left as it is: the relay stays on. *)
Lemma processDispenseJob_waits_before_deadline (errOn errOff : Z) (st : State) :
  active (dispenseJob st) = true ->
  relayActivated (dispenseJob st) = true ->
  ulong (millis st - startTime (dispenseJob st))
    < DISPENSE_RELAY_ON_TIME (timing st) ->
  processDispenseJob errOn errOff st = set_currentSystemState USER_INTERACTION st.
Proof.
  intros Ha Hr Hel. rewrite processDispenseJob_open by assumption.
  unfold dispenseStep2. fields. rewrite Hr.
  apply Z.leb_gt in Hel. rewrite Hel. reflexivity.
Qed.

(** ** C2: one debit per purchase, none on failure *)

Lemma sendTelegramMessage_shape (m : TelegramMsg) (st : State) :
  exists log out,
    sendTelegramMessage m st = set_telegramOutbox out (set_serial log st).
Proof.
  unfold sendTelegramMessage.
  destruct (negb (telegramEnabled (notify st))).
  { exists (LogTelegramDisabled :: serial (world st)), (telegramOutbox (world st)).
    reflexivity. }
  destruct (offlineMode (world st) || negb (wifiConnected (world st))).
  { exists (LogTelegramOffline :: serial (world st)), (telegramOutbox (world st)).
    reflexivity. }
  destruct ((0 <? strlen (telegramBotToken (notify st)))
            && (0 <? strlen (telegramChatId (notify st)))).
  - fields. destruct (botDelivers (world st)).
    + exists (LogTelegramSent :: LogTelegramSending m :: serial (world st)),
             (m :: telegramOutbox (world st)).
      reflexivity.
    + exists (LogTelegramFailed :: LogTelegramSending m :: serial (world st)),
             (m :: telegramOutbox (world st)).
      reflexivity.
  - exists (LogTelegramNotConfigured :: serial (world st)),
           (telegramOutbox (world st)).
    reflexivity.
Qed.

Lemma checkOverallStockLevel_shape (st : State) :
  exists almost empty log out,
    checkOverallStockLevel st =
    set_notificationFlags almost empty
      (set_telegramOutbox out (set_serial log st)).
Proof.
  unfold checkOverallStockLevel.
  destruct (telegramNotifyAlmostEmpty (notify st) && (0 <? countAvailableSlots st)
            && (countAvailableSlots st <=? almostEmptyThreshold (notify st))
            && negb (almostEmptyNotificationSent (notify st))).
  { destruct (sendTelegramMessage_shape
                (MsgAlmostEmpty (countAvailableSlots st)) st) as (log & out & ->).
    exists true, false, log, out. reflexivity. }
  destruct (telegramNotifyEmpty (notify st) && (countAvailableSlots st =? 0)
            && negb (emptyNotificationSent (notify st))).
  { destruct (sendTelegramMessage_shape MsgEmpty st) as (log & out & ->).
    exists true, true, log, out. reflexivity. }
  destruct (almostEmptyThreshold (notify st) <? countAvailableSlots st).
  - destruct (almostEmptyNotificationSent (notify st)
              || emptyNotificationSent (notify st)).
    + exists false, false, (LogStockHighAgain :: serial (world st)),
             (telegramOutbox (world st)).
      reflexivity.
    + exists false, false, (serial (world st)), (telegramOutbox (world st)).
      reflexivity.
  - exists (almostEmptyNotificationSent (notify st)),
           (emptyNotificationSent (notify st)),
           (serial (world st)), (telegramOutbox (world st)).
    reflexivity.
Qed.

Lemma playThankYouMelody_shape (st : State) :
  exists t, playThankYouMelody st = set_clock t st.
Proof. eexists. reflexivity. Qed.

(** Step 2 never touches credit, slots or the store, and never sets a job
    active. *)
Lemma dispenseStep2_frame (t errOff : Z) (st : State) :
  let st' := dispenseStep2 t errOff st in
  pay st' = pay st
  /\ slots st' = slots st
  /\ preferences (world st') = preferences (world st)
  /\ timing st' = timing st
  /\ slot (dispenseJob st') = slot (dispenseJob st)
  /\ relayActivated (dispenseJob st') = relayActivated (dispenseJob st)
  /\ (active (dispenseJob st') = true -> active (dispenseJob st) = true).
Proof.
  unfold dispenseStep2.
  destruct (relayActivated (dispenseJob st)
            && (DISPENSE_RELAY_ON_TIME (timing st)
                <=? ulong (t - startTime (dispenseJob st)))).
  2: { cbv zeta. repeat split. intros H; exact H. }
  unfold controlSlotRelay. fields.
  destruct ((slot (dispenseJob st) <? 0) || (MAX_SLOTS <=? slot (dispenseJob st)));
    [|destruct (errOff =? 0)]; fields; repeat split; intros H; discriminate H.
Qed.

(** The success path of step 1, up to the call of step 2. *)
Lemma processDispenseJob_commit (errOff : Z) (st : State) :
  active (dispenseJob st) = true ->
  relayActivated (dispenseJob st) = false ->
  0 <= slot (dispenseJob st) < MAX_SLOTS ->
  let s := slot (dispenseJob st) in
  let c := creditDebit (credit (pay st)) (aget f32_zero (slotPrices (slots st)) s) in
  let a := aset (slotAvailable (slots st)) s false in
  exists st1,
    processDispenseJob 0 errOff st = dispenseStep2 (millis st) errOff st1
    /\ pay st1 = pay (set_credit c st)
    /\ slots st1 = slots (set_slotAvailable a st)
    /\ dispenseJob st1 = {| active := true; slot := s; startTime := millis st;
                            relayActivated := true |}
    /\ timing st1 = timing st
    /\ input st1 = input st
    /\ expanderOutputStates (relay st1)
       = relayMask (expanderOutputStates (relay st)) s true
    /\ billInhibitPin (world st1) = HIGH
    /\ wire (world st1)
       = relayWrite (relayMask (expanderOutputStates (relay st)) s true) s
           :: wire (world st)
    /\ preferences (world st1)
       = {| nvCredit := c;
            nvAvail := aset (nvAvail (preferences (world st))) s (aget false a s) |}
    /\ tft (world st1) = ScreenThanks (s + 1) :: tft (world st).
Proof.
  intros Ha Hr Hs s c a.
  unfold processDispenseJob. rewrite Ha. fields. rewrite Hr. fields.
  rewrite (controlSlotRelay_in_range _ true 0 _ Hs).
  cbv zeta. change (0 =? 0) with true. fields. fold s. fold c. fold a.
  eexists. split; [reflexivity|].
  match goal with
  | |- context [playThankYouMelody ?x] =>
      destruct (playThankYouMelody_shape x) as (t & ->)
  end.
  match goal with
  | |- context [checkOverallStockLevel ?x] =>
      destruct (checkOverallStockLevel_shape x) as (al & em & log & out & ->)
  end.
  destruct (telegramNotifyOnSale (notify st));
    [ match goal with
      | |- context [sendTelegramMessage ?m ?x] =>
          destruct (sendTelegramMessage_shape m x) as (log' & out' & ->)
      end | ];
    fields; rewrite Ha; repeat split.
Qed.

(** The abort path of step 1: the board did not acknowledge, or the job's
    slot is no relay of the bank. *)
Lemma processDispenseJob_abort (errOn errOff : Z) (st : State) :
  active (dispenseJob st) = true ->
  relayActivated (dispenseJob st) = false ->
  errOn <> 0 ->
  let st' := processDispenseJob errOn errOff st in
  pay st' = pay st
  /\ slots st' = slots st
  /\ preferences (world st') = preferences (world st)
  /\ telegramOutbox (world st') = telegramOutbox (world st)
  /\ dispenseJob st' = {| active := false;
                          slot := slot (dispenseJob st);
                          startTime := startTime (dispenseJob st);
                          relayActivated := false |}
  /\ billInhibitPin (world st') = LOW
  /\ tft (world st') = ScreenError ErrPurchaseAborted :: tft (world st)
  /\ selectedSlot (input st') = -1
  /\ currentSystemState (ui st') = IDLE.
Proof.
  intros Ha Hr He. unfold processDispenseJob. rewrite Ha. fields.
  rewrite Hr. fields. unfold controlSlotRelay. fields.
  apply Z.eqb_neq in He. rewrite He.
  destruct ((slot (dispenseJob st) <? 0) || (MAX_SLOTS <=? slot (dispenseJob st)));
    fields;
    match goal with
    | |- context [displayErrorMessage ?e ?x] =>
        destruct (displayErrorMessage_spec e x) as (t & ->)
    end;
    fields; rewrite Hr; repeat split.
Qed.

(** The entry guard when the liveness probe fails. *)
Lemma scheduleDispense_offline (s probe : Z) (st : State) :
  active (dispenseJob st) = false ->
  probe <> 0 ->
  let st' := scheduleDispense s probe st in
  pay st' = pay st
  /\ slots st' = slots st
  /\ dispenseJob st' = dispenseJob st
  /\ relay st' = relay st
  /\ preferences (world st') = preferences (world st)
  /\ billInhibitPin (world st') = billInhibitPin (world st)
  /\ wire (world st') = wire (world st)
  /\ tft (world st') = ScreenError ErrBoardOffline :: tft (world st).
Proof.
  intros Ha Hp. unfold scheduleDispense, checkRelayBoardOnline. fields.
  rewrite Ha. apply Z.eqb_neq in Hp. rewrite Hp. fields.
  match goal with
  | |- context [displayErrorMessage ?e ?x] =>
      destruct (displayErrorMessage_spec e x) as (t & ->)
  end.
  fields. repeat split.
Qed.

(** The entry guard when the board answers the probe: the job is created. *)
Lemma scheduleDispense_online (s : Z) (st : State) :
  active (dispenseJob st) = false ->
  let st' := scheduleDispense s 0 st in
  pay st' = pay st
  /\ slots st' = slots st
  /\ relay st' = relay st
  /\ timing st' = timing st
  /\ dispenseJob st' = {| active := true; slot := s; startTime := millis st;
                          relayActivated := false |}
  /\ preferences (world st') = preferences (world st)
  /\ wire (world st') = wire (world st)
  /\ tft (world st') = ScreenPreparing (s + 1) :: tft (world st).
Proof.
  intros Ha. unfold scheduleDispense, checkRelayBoardOnline. fields.
  rewrite Ha. change (0 =? 0) with true. fields. repeat split.
Qed.

(** Once the job is over, or its relay is on, no tick debits or restocks. *)
Lemma dispenseTicks_settled (ticks : list (Z * Z * Z)) :
  forall st : State,
    active (dispenseJob st) = false \/ relayActivated (dispenseJob st) = true ->
    pay (dispenseTicks ticks st) = pay st
    /\ slots (dispenseTicks ticks st) = slots st
    /\ preferences (world (dispenseTicks ticks st)) = preferences (world st).
Proof.
  induction ticks as [|[[t errOn] errOff] ticks IH]; intros st Hst.
  - repeat split.
  - cbn [dispenseTicks fold_left].
    change (fold_left _ ticks ?x) with (dispenseTicks ticks x).
    set (st1 := processDispenseJob errOn errOff (set_clock t st)).
    assert (H1 : pay st1 = pay st /\ slots st1 = slots st
                 /\ preferences (world st1) = preferences (world st)
                 /\ (active (dispenseJob st1) = false
                     \/ relayActivated (dispenseJob st1) = true)).
    { subst st1. destruct (active (dispenseJob st)) eqn:Ha.
      - destruct Hst as [Hst|Hr]; [discriminate|].
        rewrite processDispenseJob_open by assumption.
        match goal with
        | |- context [dispenseStep2 ?a ?b ?c] =>
            destruct (dispenseStep2_frame a b c) as (P1 & P2 & P3 & _ & _ & P6 & _);
            rewrite P1, P2, P3, P6
        end.
        fields. repeat split. right. exact Hr.
      - rewrite processDispenseJob_inactive by exact Ha.
        fields. repeat split. left. exact Ha. }
    destruct H1 as (P1 & P2 & P3 & P4).
    destruct (IH st1 P4) as (Q1 & Q2 & Q3).
    rewrite Q1, Q2, Q3. repeat split; assumption.
Qed.

(** The [#] key with a slot selected and nothing left in the buffer: the
    request reaches [scheduleDispense] exactly when the slot is unlocked,
    in stock and paid for; otherwise an error is shown and credit, slots
    and job stay as they were. *)
Lemma confirm_key_eligibility (probe : Z) (st : State) :
  keypadInputBuffer (input st) = ""%string ->
  let s := selectedSlot (input st) in
  let eligible :=
    negb (s =? -1)
    && negb (aget false (slotLocked (slots st)) s)
    && aget false (slotAvailable (slots st)) s
    && f32_leb (aget f32_zero (slotPrices (slots st)) s) (credit (pay st)) in
  let st' := processResolvedKey "#" probe st in
  if eligible then
    exists st0,
      st' = set_displayNeedsUpdate true
              (set_keypadInputBuffer "" (scheduleDispense s probe st0))
      /\ pay st0 = pay st /\ slots st0 = slots st
      /\ dispenseJob st0 = dispenseJob st /\ relay st0 = relay st
      /\ wire (world st0) = wire (world st)
      /\ preferences (world st0) = preferences (world st)
  else
    pay st' = pay st /\ slots st' = slots st /\ dispenseJob st' = dispenseJob st
    /\ exists e, tft (world st') = ScreenError e :: tft (world st).
Proof.
  intros Hb. cbv zeta. unfold processResolvedKey.
  change (isdigit "#") with false. change (Ascii.eqb "#" "#") with true.
  cbv iota. unfold playKeyPressBeep.
  set (st0 := set_currentSystemState USER_INTERACTION _).
  assert (F0 : pay st0 = pay st /\ slots st0 = slots st
               /\ dispenseJob st0 = dispenseJob st /\ relay st0 = relay st
               /\ wire (world st0) = wire (world st)
               /\ preferences (world st0) = preferences (world st)
               /\ input st0 = input st
               /\ tft (world st0) = tft (world st))
    by (repeat split).
  clearbody st0. destruct F0 as (A & B & C & D & E & F & G & H).
  rewrite G, Hb. change (0 <? strlen "") with false. cbv iota zeta.
  rewrite G, A, B.
  destruct (negb (selectedSlot (input st) =? -1)); cbn [andb].
  2: { destruct (displayErrorMessage_spec ErrNoSlotChosen st0) as (t & ->).
       fields. repeat split; try assumption. eexists. rewrite H. reflexivity. }
  destruct (aget false (slotLocked (slots st)) (selectedSlot (input st)));
    cbn [negb andb].
  { match goal with
    | |- context [displayErrorMessage ?e ?x] =>
        destruct (displayErrorMessage_spec e x) as (t & ->)
    end. fields. repeat split; try assumption. eexists. rewrite H. reflexivity. }
  destruct (aget false (slotAvailable (slots st)) (selectedSlot (input st)));
    cbn [negb andb].
  2: { match goal with
       | |- context [displayErrorMessage ?e ?x] =>
           destruct (displayErrorMessage_spec e x) as (t & ->)
       end. fields. repeat split; try assumption. eexists. rewrite H. reflexivity. }
  destruct (f32_leb _ _).
  - eexists. split; [reflexivity|]. fields. repeat split; assumption.
  - destruct (displayErrorMessage_spec ErrCreditTooLow st0) as (t & ->).
    fields. repeat split; try assumption. eexists. rewrite H. reflexivity.
Qed.

(** C2. A confirmed, eligible request for slot [s] arrives while no job is
    active; the main loop then ticks any number of times.
    - If the liveness probe of [scheduleDispense] fails, the error is
      shown, no job is created (the job record and the bill inhibit line
      are as before), and neither then nor on any later tick are Credit,
      the slots or the store changed.
    - If the probe succeeds but the relay activation of the first tick
      fails, the purchase is aborted with an error: the job is cleared,
      the bill inhibit line is LOW, and Credit, the slots and the store
      are unchanged then and on every later tick.
    - If both succeed, Credit is debited by the slot's price once: after
      the first tick and after every later tick Credit is the binary32
      difference [credit - price], or zero where that difference is
      negative, and the slot is marked out of stock. *)
Theorem purchase_debits_once_or_not_at_all
  (st : State) (s probe t errOn errOff : Z) (later : list (Z * Z * Z)) :
  active (dispenseJob st) = false ->
  0 <= s < MAX_SLOTS ->
  let price := aget f32_zero (slotPrices (slots st)) s in
  let difference := SFsub 24 128 (credit (pay st)) price in
  let debited :=
    if SFltb difference (S754_zero false) then S754_zero false else difference in
  let scheduled := scheduleDispense s probe st in
  let first := processDispenseJob errOn errOff (set_clock t scheduled) in
  let final := dispenseTicks later first in
  (probe <> 0 ->
     tft (world scheduled) = ScreenError ErrBoardOffline :: tft (world st)
     /\ dispenseJob scheduled = dispenseJob st
     /\ billInhibitPin (world scheduled) = billInhibitPin (world st)
     /\ credit (pay final) = credit (pay st)
     /\ slots final = slots st
     /\ preferences (world final) = preferences (world st))
  /\ (probe = 0 -> errOn <> 0 ->
        tft (world first)
          = ScreenError ErrPurchaseAborted :: ScreenPreparing (s + 1)
              :: tft (world st)
        /\ active (dispenseJob first) = false
        /\ billInhibitPin (world first) = LOW
        /\ credit (pay final) = credit (pay st)
        /\ slots final = slots st
        /\ preferences (world final) = preferences (world st))
  /\ (probe = 0 -> errOn = 0 ->
        credit (pay first) = debited
        /\ credit (pay final) = debited
        /\ slotAvailable (slots final) = aset (slotAvailable (slots st)) s false
        /\ slotPrices (slots final) = slotPrices (slots st)
        /\ slotLocked (slots final) = slotLocked (slots st)
        /\ nvCredit (preferences (world final)) = debited).
Proof.
  intros Ha Hs price difference debited scheduled first final.
  split; [|split].
  - intros Hp.
    destruct (scheduleDispense_offline s probe st Ha Hp)
      as (S1 & S2 & S3 & _ & S5 & S6 & _ & S8).
    fold scheduled in S1, S2, S3, S5, S6, S8.
    assert (Hina : active (dispenseJob (set_clock t scheduled)) = false).
    { fields. rewrite S3. exact Ha. }
    assert (Hfirst : first = set_clock t scheduled).
    { subst first. apply processDispenseJob_inactive. exact Hina. }
    destruct (dispenseTicks_settled later first) as (Q1 & Q2 & Q3).
    { left. rewrite Hfirst. exact Hina. }
    fold final in Q1, Q2, Q3.
    rewrite Q1, Q2, Q3, Hfirst. fields. rewrite S1, S2, S5.
    repeat split; assumption.
  - intros Hp He. subst probe.
    destruct (scheduleDispense_online s st Ha)
      as (S1 & S2 & _ & _ & S5 & S6 & _ & S8).
    fold scheduled in S1, S2, S5, S6, S8.
    destruct (processDispenseJob_abort errOn errOff (set_clock t scheduled))
      as (A1 & A2 & A3 & _ & A5 & A6 & A7 & _).
    { fields. rewrite S5. reflexivity. }
    { fields. rewrite S5. reflexivity. }
    { exact He. }
    fold first in A1, A2, A3, A5, A6, A7. fields in A1. fields in A2.
    fields in A3. fields in A7.
    destruct (dispenseTicks_settled later first) as (Q1 & Q2 & Q3).
    { left. rewrite A5. reflexivity. }
    fold final in Q1, Q2, Q3.
    rewrite Q1, Q2, Q3, A1, A2, A3, A5, A6, A7, S1, S2, S6, S8.
    repeat split.
  - intros Hp He. subst probe errOn.
    destruct (scheduleDispense_online s st Ha)
      as (S1 & S2 & _ & _ & S5 & S6 & _ & _).
    fold scheduled in S1, S2, S5, S6.
    destruct (processDispenseJob_commit errOff (set_clock t scheduled))
      as (st1 & C0 & C1 & C2 & C3 & _ & _ & _ & _ & _ & C9 & _).
    { fields. rewrite S5. reflexivity. }
    { fields. rewrite S5. reflexivity. }
    { fields. rewrite S5. exact Hs. }
    fold first in C0. fields in C1. fields in C2. fields in C9.
    rewrite S5 in C1, C2, C9. fields in C1. fields in C2. fields in C9.
    rewrite S1, S2 in C1. rewrite S2 in C2. rewrite S1, S2, S6 in C9.
    fold price in C1, C9.
    destruct (dispenseStep2_frame (millis (set_clock t scheduled)) errOff st1)
      as (F1 & F2 & F3 & _ & _ & F6 & _).
    rewrite <- C0 in F1, F2, F3, F6.
    destruct (dispenseTicks_settled later first) as (Q1 & Q2 & Q3).
    { right. rewrite F6, C3. reflexivity. }
    fold final in Q1, Q2, Q3.
    rewrite Q1, Q2, Q3, F1, F2, F3, C1, C2, C9. fields. repeat split.
Qed.

Lemma purchase_debits_once_or_not_at_all_witness :
  let ticks := [(12000, 0, 0); (17000, 0, 0); (17010, 0, 0)] in
  let fifteen := S754_finite false 15728640 (-20) in
  let twenty := S754_finite false 10485760 (-19) in
  active (dispenseJob creditedState) = false
  /\ 0 <= 0 < MAX_SLOTS
  /\ credit (pay creditedState) = twenty
  /\ aget f32_zero (slotPrices (slots creditedState)) 0 = f32_of_int 5
  /\ credit (pay (dispenseTicks ticks
                    (processDispenseJob 0 0
                       (set_clock 10000 (scheduleDispense 0 0 creditedState)))))
     = fifteen
  /\ nvCredit (preferences (world (dispenseTicks ticks
                    (processDispenseJob 0 0
                       (set_clock 10000 (scheduleDispense 0 0 creditedState))))))
     = fifteen
  /\ credit (pay (dispenseTicks ticks
                    (processDispenseJob 2 0
                       (set_clock 10000 (scheduleDispense 0 0 creditedState)))))
     = twenty
  /\ credit (pay (dispenseTicks ticks
                    (processDispenseJob 0 0
                       (set_clock 10000 (scheduleDispense 0 2 creditedState)))))
     = twenty.
Proof.
  cbv zeta.
  assert (Ha : active (dispenseJob creditedState) = false) by reflexivity.
  assert (Hs : 0 <= 0 < MAX_SLOTS) by (unfold MAX_SLOTS; lia).
  split; [exact Ha|]. split; [exact Hs|].
  split; [reflexivity|]. split; [reflexivity|].
  split; [|split; [|split]].
  - pose proof (purchase_debits_once_or_not_at_all creditedState 0 0 10000 0 0
                  [(12000, 0, 0); (17000, 0, 0); (17010, 0, 0)] Ha Hs) as H.
    cbv zeta in H. destruct H as (_ & _ & H).
    destruct (H eq_refl eq_refl) as (_ & H2 & _). rewrite H2. reflexivity.
  - pose proof (purchase_debits_once_or_not_at_all creditedState 0 0 10000 0 0
                  [(12000, 0, 0); (17000, 0, 0); (17010, 0, 0)] Ha Hs) as H.
    cbv zeta in H. destruct H as (_ & _ & H).
    destruct (H eq_refl eq_refl) as (_ & _ & _ & _ & _ & H6). rewrite H6.
    reflexivity.
  - pose proof (purchase_debits_once_or_not_at_all creditedState 0 0 10000 2 0
                  [(12000, 0, 0); (17000, 0, 0); (17010, 0, 0)] Ha Hs) as H.
    cbv zeta in H. destruct H as (_ & H & _).
    destruct (H eq_refl ltac:(discriminate)) as (_ & _ & _ & H4 & _).
    rewrite H4. reflexivity.
  - pose proof (purchase_debits_once_or_not_at_all creditedState 0 2 10000 0 0
                  [(12000, 0, 0); (17000, 0, 0); (17010, 0, 0)] Ha Hs) as H.
    cbv zeta in H. destruct H as (H & _).
    destruct (H ltac:(discriminate)) as (_ & _ & _ & H4 & _).
    rewrite H4. reflexivity.
Defined.

(** ** C5 and C6: resolving digits into a slot *)

(** A digit key: the buffer is emptied if it was full, the digit is
    appended, and the selection is resolved from the buffer. *)
Lemma processResolvedKey_digit (key : ascii) (probe : Z) (st : State) :
  isdigit key = true ->
  exists pre,
    processResolvedKey key probe st
      = set_displayNeedsUpdate true (processKeypadSelection pre)
    /\ keypadInputBuffer (input pre)
       = append_char (if 2 <=? strlen (keypadInputBuffer (input st))
                      then ""%string else keypadInputBuffer (input st)) key
    /\ selectedSlot (input pre) = selectedSlot (input st)
    /\ slots pre = slots st
    /\ pay pre = pay st
    /\ dispenseJob pre = dispenseJob st
    /\ tft (world pre) = tft (world st).
Proof.
  intros Hd. unfold processResolvedKey. rewrite Hd.
  eexists. split; [reflexivity|].
  unfold playKeyPressBeep. fields.
  destruct (2 <=? strlen (keypadInputBuffer (input st))); fields; repeat split.
Qed.

(** The buffer denotes a slot: it becomes the selection at once, and the
    buffer is kept only while a second digit may follow. *)
Lemma processKeypadSelection_valid (st : State) :
  let buf := keypadInputBuffer (input st) in
  let n := activeSlots (slots st) in
  strlen buf <> 0 ->
  1 <= toInt buf <= n ->
  let st' := processKeypadSelection st in
  selectedSlot (input st') = toInt buf - 1
  /\ keypadInputBuffer (input st')
     = (if selectionIsFinal buf n then ""%string else buf)
  /\ tft (world st') = tft (world st)
  /\ slots st' = slots st
  /\ pay st' = pay st
  /\ dispenseJob st' = dispenseJob st.
Proof.
  intros buf n Hlen Hv. unfold processKeypadSelection. fold buf.
  apply Z.eqb_neq in Hlen. rewrite Hlen. fields. fold n.
  assert (E : ((1 <=? toInt buf) && (toInt buf <=? n)) = true).
  { apply andb_true_iff. rewrite !Z.leb_le. exact Hv. }
  rewrite E. destruct (selectionIsFinal buf n); fields; repeat split.
Qed.

(** Two digits that denote no slot: the error is shown and selection and
    buffer are cleared. *)
Lemma processKeypadSelection_invalid_two_digits (st : State) :
  let buf := keypadInputBuffer (input st) in
  let n := activeSlots (slots st) in
  strlen buf = 2 ->
  ~ (1 <= toInt buf <= n) ->
  let st' := processKeypadSelection st in
  selectedSlot (input st') = -1
  /\ keypadInputBuffer (input st') = ""%string
  /\ tft (world st') = ScreenError (ErrSlotInvalid buf) :: tft (world st)
  /\ slots st' = slots st
  /\ pay st' = pay st
  /\ dispenseJob st' = dispenseJob st.
Proof.
  intros buf n Hlen Hv. unfold processKeypadSelection. fold buf.
  rewrite Hlen. change (2 =? 0) with false. change (2 =? 2) with true.
  fields. fold n.
  assert (E : ((1 <=? toInt buf) && (toInt buf <=? n)) = false).
  { apply not_true_is_false. intros H. apply Hv.
    apply andb_true_iff in H. rewrite !Z.leb_le in H. exact H. }
  rewrite E.
  match goal with
  | |- context [displayErrorMessage ?e ?x] =>
      destruct (displayErrorMessage_spec e x) as (t & ->)
  end.
  fields. repeat split.
Qed.

(** One digit that denotes no slot (a leading zero): nothing is selected
    or cleared, the digit waits in the buffer. *)
Lemma processKeypadSelection_invalid_one_digit (st : State) :
  let buf := keypadInputBuffer (input st) in
  let n := activeSlots (slots st) in
  strlen buf = 1 ->
  ~ (1 <= toInt buf <= n) ->
  let st' := processKeypadSelection st in
  input st' = input st /\ tft (world st') = tft (world st).
Proof.
  intros buf n Hlen Hv. unfold processKeypadSelection. fold buf.
  rewrite Hlen. change (1 =? 0) with false. change (1 =? 2) with false.
  fields. fold n.
  assert (E : ((1 <=? toInt buf) && (toInt buf <=? n)) = false).
  { apply not_true_is_false. intros H. apply Hv.
    apply andb_true_iff in H. rewrite !Z.leb_le in H. exact H. }
  rewrite E. fields. repeat split.
Qed.

Lemma strlen_append_char (s : string) (c : ascii) :
  strlen (append_char s c) = strlen s + 1.
Proof.
  unfold strlen, append_char.
  induction s as [|a s IH]; [reflexivity|].
  cbn [append String.length]. rewrite !Nat2Z.inj_succ. lia.
Qed.

Lemma press_digit_valid (key : ascii) (probe : Z) (st : State) :
  isdigit key = true ->
  let buf := bufferAfterDigit (keypadInputBuffer (input st)) key in
  let n := activeSlots (slots st) in
  1 <= toInt buf <= n ->
  let st' := processResolvedKey key probe st in
  selectedSlot (input st') = toInt buf - 1
  /\ keypadInputBuffer (input st')
     = (if selectionIsFinal buf n then ""%string else buf)
  /\ tft (world st') = tft (world st)
  /\ slots st' = slots st
  /\ pay st' = pay st
  /\ dispenseJob st' = dispenseJob st.
Proof.
  intros Hd buf n Hv.
  destruct (processResolvedKey_digit key probe st Hd)
    as (pre & -> & Hb & _ & Hs & Hp & Hj & Ht).
  fold (bufferAfterDigit (keypadInputBuffer (input st)) key) in Hb. fold buf in Hb.
  pose proof (processKeypadSelection_valid pre) as H. cbv zeta in H.
  rewrite Hb, Hs in H. fold n in H.
  destruct H as (H1 & H2 & H3 & H4 & H5 & H6).
  - unfold buf, bufferAfterDigit. rewrite strlen_append_char.
    unfold strlen. lia.
  - exact Hv.
  - cbv zeta. fields. rewrite H1, H2, H3, H4, H5, H6, Ht, Hp, Hj.
    repeat split.
Qed.

Lemma press_digit_invalid_two_digits (key : ascii) (probe : Z) (st : State) :
  isdigit key = true ->
  let buf := bufferAfterDigit (keypadInputBuffer (input st)) key in
  let n := activeSlots (slots st) in
  strlen buf = 2 ->
  ~ (1 <= toInt buf <= n) ->
  let st' := processResolvedKey key probe st in
  selectedSlot (input st') = -1
  /\ keypadInputBuffer (input st') = ""%string
  /\ tft (world st') = ScreenError (ErrSlotInvalid buf) :: tft (world st)
  /\ slots st' = slots st
  /\ pay st' = pay st
  /\ dispenseJob st' = dispenseJob st.
Proof.
  intros Hd buf n Hlen Hv.
  destruct (processResolvedKey_digit key probe st Hd)
    as (pre & -> & Hb & _ & Hs & Hp & Hj & Ht).
  fold (bufferAfterDigit (keypadInputBuffer (input st)) key) in Hb. fold buf in Hb.
  pose proof (processKeypadSelection_invalid_two_digits pre) as H. cbv zeta in H.
  rewrite Hb, Hs in H. fold n in H.
  destruct (H Hlen Hv) as (H1 & H2 & H3 & H4 & H5 & H6).
  cbv zeta. fields. rewrite H1, H2, H3, H4, H5, H6, Ht, Hp, Hj.
  repeat split.
Qed.

(** C6. With 16 active slots and an empty buffer, the key "1" selects
    slot 1 (index 0) provisionally: the selection is not final and the
    buffer keeps "1".  The key "6" then makes the buffer "16", which is
    resolved to slot 16 (index 15); two digits are final, so the buffer is
    cleared.  No error is shown on the way. *)
Theorem digits_1_6_select_slot_16 (st : State) (probe : Z) :
  activeSlots (slots st) = 16 ->
  keypadInputBuffer (input st) = ""%string ->
  let st1 := processResolvedKey "1" probe st in
  let st2 := processResolvedKey "6" probe st1 in
  selectedSlot (input st1) = 0
  /\ selectionIsFinal "1" 16 = false
  /\ keypadInputBuffer (input st1) = "1"%string
  /\ bufferAfterDigit (keypadInputBuffer (input st1)) "6" = "16"%string
  /\ selectedSlot (input st2) = 15
  /\ selectionIsFinal "16" 16 = true
  /\ keypadInputBuffer (input st2) = ""%string
  /\ tft (world st2) = tft (world st).
Proof.
  intros Hn Hb st1 st2.
  pose proof (press_digit_valid "1" probe st eq_refl) as H1.
  cbv zeta in H1. rewrite Hb, Hn in H1.
  change (bufferAfterDigit "" "1") with "1"%string in H1.
  change (toInt "1") with 1 in H1.
  destruct (H1 ltac:(lia)) as (A1 & A2 & A3 & A4 & _). fold st1 in A1, A2, A3, A4.
  change (selectionIsFinal "1" 16) with false in A2. cbv iota in A2.
  pose proof (press_digit_valid "6" probe st1 eq_refl) as H2.
  cbv zeta in H2. rewrite A2, A4, Hn in H2.
  change (bufferAfterDigit "1" "6") with "16"%string in H2.
  change (toInt "16") with 16 in H2.
  destruct (H2 ltac:(lia)) as (B1 & B2 & B3 & _). fold st2 in B1, B2, B3.
  change (selectionIsFinal "16" 16) with true in B2. cbv iota in B2.
  rewrite A1, A2, B1, B2, B3, A3. repeat split.
Qed.

Lemma digits_1_6_select_slot_16_witness :
  activeSlots (slots idleState) = 16
  /\ keypadInputBuffer (input idleState) = ""%string
  /\ selectedSlot (input (processResolvedKey "6" 0
                            (processResolvedKey "1" 0 idleState))) = 15
  /\ keypadInputBuffer (input (processResolvedKey "6" 0
                                 (processResolvedKey "1" 0 idleState)))
     = ""%string
  /\ scanKeypad (pinsDown 0 0) = "1"%char
  /\ scanKeypad (pinsDown 1 2) = "6"%char
  /\ selectedSlot (input (runKeypad (tapKey 10010 (pinsDown 0 0)) 0 idleState))
     = 0
  /\ keypadInputBuffer (input (runKeypad (tapKey 10010 (pinsDown 0 0))
                                         0 idleState)) = "1"%string
  /\ selectedSlot (input (runKeypad (tapKey 10010 (pinsDown 0 0)
                                       ++ tapKey 10300 (pinsDown 1 2))
                                      0 idleState)) = 15.
Proof.
  split; [reflexivity|]. split; [reflexivity|].
  pose proof (digits_1_6_select_slot_16 idleState 0 eq_refl eq_refl) as H.
  cbv zeta in H. destruct H as (_ & _ & _ & _ & H5 & _ & H7 & _).
  split; [exact H5|]. split; [exact H7|].
  split; [reflexivity|]. split; [reflexivity|].
  repeat split; vm_compute; reflexivity.
Defined.

(** ** C5: the digits 9, 9 *)

(** With 16 slots, "9" then "9" on a machine at rest selects slot 9 and
    shows no error: the selection is not cleared. *)
Lemma digits_9_9_select_slot_9 :
  activeSlots (slots idleState) = 16
  /\ keypadInputBuffer (input idleState) = ""%string
  /\ selectedSlot (input (processResolvedKey "9" 0
                            (processResolvedKey "9" 0 idleState))) = 8
  /\ selectedSlot (input (processResolvedKey "9" 0
                            (processResolvedKey "9" 0 idleState))) <> -1
  /\ tft (world (processResolvedKey "9" 0
                   (processResolvedKey "9" 0 idleState))) = []
  /\ scanKeypad (pinsDown 2 2) = "9"%char
  /\ selectedSlot (input (runKeypad (tapKey 10010 (pinsDown 2 2)
                                       ++ tapKey 10300 (pinsDown 2 2))
                                      0 idleState)) = 8
  /\ tft (world (runKeypad (tapKey 10010 (pinsDown 2 2)
                             ++ tapKey 10300 (pinsDown 2 2))
                            0 idleState)) = [].
Proof.
  split; [reflexivity|]. split; [reflexivity|].
  split; [vm_compute; reflexivity|].
  split; [vm_compute; discriminate|].
  split; [vm_compute; reflexivity|].
  split; [reflexivity|].
  split; vm_compute; reflexivity.
Qed.

(** C5 (as the code has it). With 16 active slots and an empty buffer the
    key "9" is final on its own: it selects slot 9 (index 8) and clears
    the buffer, because no two-digit slot number starts with 9.  A second
    "9" therefore never makes the buffer "99": it selects slot 9 again and
    no error is shown.  The invalid-slot error belongs to two digits that
    really meet in the buffer: "1" is kept, and "7" after it makes "17",
    which shows the error and clears selection (-1) and buffer. *)
Theorem invalid_slot_error_needs_two_buffered_digits (st : State) (probe : Z) :
  activeSlots (slots st) = 16 ->
  keypadInputBuffer (input st) = ""%string ->
  let st9 := processResolvedKey "9" probe st in
  let st99 := processResolvedKey "9" probe st9 in
  let st17 := processResolvedKey "7" probe (processResolvedKey "1" probe st) in
  selectionIsFinal "9" 16 = true
  /\ selectedSlot (input st9) = 8
  /\ keypadInputBuffer (input st9) = ""%string
  /\ selectedSlot (input st99) = 8
  /\ keypadInputBuffer (input st99) = ""%string
  /\ tft (world st99) = tft (world st)
  /\ selectedSlot (input st17) = -1
  /\ keypadInputBuffer (input st17) = ""%string
  /\ tft (world st17) = ScreenError (ErrSlotInvalid "17") :: tft (world st).
Proof.
  intros Hn Hb st9 st99 st17.
  (* the first 9 *)
  pose proof (press_digit_valid "9" probe st eq_refl) as H1.
  cbv zeta in H1. rewrite Hb, Hn in H1.
  change (bufferAfterDigit "" "9") with "9"%string in H1.
  change (toInt "9") with 9 in H1.
  destruct (H1 ltac:(lia)) as (A1 & A2 & A3 & A4 & _). fold st9 in A1, A2, A3, A4.
  change (selectionIsFinal "9" 16) with true in A2. cbv iota in A2.
  (* the second 9 *)
  pose proof (press_digit_valid "9" probe st9 eq_refl) as H2.
  cbv zeta in H2. rewrite A2, A4, Hn in H2.
  change (bufferAfterDigit "" "9") with "9"%string in H2.
  change (toInt "9") with 9 in H2.
  destruct (H2 ltac:(lia)) as (B1 & B2 & B3 & _). fold st99 in B1, B2, B3.
  change (selectionIsFinal "9" 16) with true in B2. cbv iota in B2.
  (* 1 then 7 *)
  destruct (digits_1_6_select_slot_16 st probe Hn Hb)
    as (_ & _ & C3 & _).
  pose proof (press_digit_valid "1" probe st eq_refl) as H3.
  cbv zeta in H3. rewrite Hb, Hn in H3.
  change (bufferAfterDigit "" "1") with "1"%string in H3.
  change (toInt "1") with 1 in H3.
  destruct (H3 ltac:(lia)) as (_ & _ & C4 & C5 & _).
  pose proof (press_digit_invalid_two_digits "7" probe
                (processResolvedKey "1" probe st) eq_refl) as H4.
  cbv zeta in H4. rewrite C3, C5, Hn in H4.
  change (bufferAfterDigit "1" "7") with "17"%string in H4.
  change (toInt "17") with 17 in H4.
  destruct (H4 eq_refl ltac:(lia)) as (D1 & D2 & D3 & _).
  fold st17 in D1, D2, D3.
  rewrite A1, A2, B1, B2, B3, A3, D1, D2, D3, C4. repeat split.
Qed.

Lemma invalid_slot_error_needs_two_buffered_digits_witness :
  activeSlots (slots idleState) = 16
  /\ keypadInputBuffer (input idleState) = ""%string
  /\ selectedSlot (input (processResolvedKey "9" 0
                            (processResolvedKey "9" 0 idleState))) = 8
  /\ tft (world (processResolvedKey "7" 0 (processResolvedKey "1" 0 idleState)))
     = [ScreenError (ErrSlotInvalid "17")].
Proof.
  split; [reflexivity|]. split; [reflexivity|].
  pose proof (invalid_slot_error_needs_two_buffered_digits idleState 0
                eq_refl eq_refl) as H.
  cbv zeta in H. destruct H as (_ & _ & _ & H4 & _ & _ & _ & _ & H9).
  split; assumption.
Defined.

(** ** C7: one key event per press *)

Lemma debounceKey_change (k : ascii) (st : State) :
  lastPhysicallyPressedKey (keypad st) <> k ->
  debounceKey k st =
  (NOKEY,
   with_keypad {| lastPhysicallyPressedKey := k;
                  lastReturnedKey := if Ascii.eqb k NOKEY then NOKEY
                                     else lastReturnedKey (keypad st);
                  lastKeyPressTime := millis st |} st).
Proof.
  intros H. unfold debounceKey.
  assert (E : Ascii.eqb k (lastPhysicallyPressedKey (keypad st)) = false).
  { apply Ascii.eqb_neq. congruence. }
  rewrite E. reflexivity.
Qed.

Lemma debounceKey_already_returned (k : ascii) (st : State) :
  lastPhysicallyPressedKey (keypad st) = k ->
  lastReturnedKey (keypad st) = k ->
  debounceKey k st = (NOKEY, st).
Proof.
  intros H1 H2. unfold debounceKey. rewrite H1, H2, Ascii.eqb_refl.
  cbn [negb].
  destruct (negb (Ascii.eqb k NOKEY)
            && (KEYPAD_DEBOUNCE_PERIOD <? ulong (millis st - lastKeyPressTime (keypad st))));
    reflexivity.
Qed.

Lemma debounceKey_not_yet_stable (k : ascii) (st : State) :
  lastPhysicallyPressedKey (keypad st) = k ->
  (KEYPAD_DEBOUNCE_PERIOD <? ulong (millis st - lastKeyPressTime (keypad st)))
    = false ->
  debounceKey k st = (NOKEY, st).
Proof.
  intros H1 H2. unfold debounceKey. rewrite H1, Ascii.eqb_refl, H2.
  cbn [negb]. rewrite andb_false_r. reflexivity.
Qed.

Lemma debounceKey_stable (k : ascii) (st : State) :
  k <> NOKEY ->
  lastPhysicallyPressedKey (keypad st) = k ->
  lastReturnedKey (keypad st) <> k ->
  (KEYPAD_DEBOUNCE_PERIOD <? ulong (millis st - lastKeyPressTime (keypad st)))
    = true ->
  debounceKey k st =
  (k, with_keypad {| lastPhysicallyPressedKey := k;
                     lastReturnedKey := k;
                     lastKeyPressTime := lastKeyPressTime (keypad st) |} st).
Proof.
  intros Hk H1 H2 H3. unfold debounceKey. rewrite H1, Ascii.eqb_refl, H3.
  assert (E1 : Ascii.eqb k NOKEY = false) by (apply Ascii.eqb_neq; exact Hk).
  assert (E2 : Ascii.eqb k (lastReturnedKey (keypad st)) = false).
  { apply Ascii.eqb_neq. congruence. }
  rewrite E1, E2. reflexivity.
Qed.

(** A key is returned only on a scan that senses it, after it has been the
    sensed key for more than the debounce period, and when it is not the
    key returned last. *)
Lemma manualGetKeyState_returns_only_stable (pins : KeypadPins) (st : State) :
  let k := fst (manualGetKeyState pins st) in
  k <> NOKEY ->
  scanKeypad pins = k
  /\ lastPhysicallyPressedKey (keypad st) = k
  /\ KEYPAD_DEBOUNCE_PERIOD < ulong (millis st - lastKeyPressTime (keypad st))
  /\ lastReturnedKey (keypad st) <> k
  /\ lastReturnedKey (keypad (snd (manualGetKeyState pins st))) = k.
Proof.
  unfold manualGetKeyState, debounceKey.
  set (c := scanKeypad pins).
  destruct (Ascii.eqb c (lastPhysicallyPressedKey (keypad st))) eqn:E1;
    cbn [negb]; [|cbn [fst]; intros H; contradiction H; reflexivity].
  destruct (Ascii.eqb c NOKEY) eqn:E2;
    cbn [negb andb]; [cbn [fst]; intros H; contradiction H; reflexivity|].
  destruct (KEYPAD_DEBOUNCE_PERIOD <? ulong (millis st - lastKeyPressTime (keypad st)))
    eqn:E3; [|cbn [fst]; intros H; contradiction H; reflexivity].
  destruct (Ascii.eqb c (lastReturnedKey (keypad st))) eqn:E4;
    cbn [negb]; [cbn [fst]; intros H; contradiction H; reflexivity|].
  cbn [fst snd]. intros _. fields.
  apply Ascii.eqb_eq in E1. apply Ascii.eqb_neq in E4. apply Z.ltb_lt in E3.
  repeat split; try congruence; try exact E3.
Qed.

(** While the returned key stays sensed, nothing more is returned, however
    long the hold and however many the scans. *)
Lemma runScans_held_after_return (evs : list (Z * KeypadPins)) :
  forall (st : State) (k : ascii),
    (forall ev, In ev evs -> scanKeypad (snd ev) = k) ->
    lastPhysicallyPressedKey (keypad st) = k ->
    lastReturnedKey (keypad st) = k ->
    keyEvents (fst (runScans evs st)) = []
    /\ keypad (snd (runScans evs st)) = keypad st.
Proof.
  induction evs as [|[t pins] evs IH]; intros st k Hall Hp Hr.
  - split; reflexivity.
  - cbn [runScans]. unfold manualGetKeyState.
    pose proof (Hall (t, pins) (or_introl eq_refl)) as Hsense.
    cbn [snd] in Hsense. rewrite Hsense.
    rewrite debounceKey_already_returned by (fields; assumption).
    destruct (IH (set_clock t st) k) as (I1 & I2);
      [intros ev Hev; apply Hall; right; exact Hev | fields; assumption
      | fields; assumption |].
    destruct (runScans evs (set_clock t st)) as [ks st2].
    cbn [fst snd] in *. unfold keyEvents in *. cbn [filter].
    rewrite Ascii.eqb_refl. cbn [negb]. split; assumption.
Qed.

(** A press that starts at [t0] and is held: the key is returned once, on
    the first scan past the debounce period, and never if no scan is. *)
Lemma runScans_hold (evs : list (Z * KeypadPins)) :
  forall (st : State) (k : ascii) (t0 : Z),
    k <> NOKEY ->
    (forall ev, In ev evs -> scanKeypad (snd ev) = k) ->
    lastPhysicallyPressedKey (keypad st) = k ->
    lastReturnedKey (keypad st) <> k ->
    lastKeyPressTime (keypad st) = t0 ->
    keyEvents (fst (runScans evs st))
      = (if existsb (stableSince t0) evs then [k] else [])
    /\ lastPhysicallyPressedKey (keypad (snd (runScans evs st))) = k.
Proof.
  induction evs as [|[t pins] evs IH]; intros st k t0 Hk Hall Hp Hr Ht.
  - split; [reflexivity | exact Hp].
  - cbn [runScans existsb]. unfold manualGetKeyState.
    pose proof (Hall (t, pins) (or_introl eq_refl)) as Hsense.
    cbn [snd] in Hsense. rewrite Hsense.
    assert (Hall' : forall ev, In ev evs -> scanKeypad (snd ev) = k)
      by (intros ev Hev; apply Hall; right; exact Hev).
    unfold stableSince at 1. cbn [fst].
    destruct (KEYPAD_DEBOUNCE_PERIOD <? ulong (t - t0)) eqn:Est.
    + rewrite debounceKey_stable; try (fields; assumption).
      2: { fields. rewrite Ht. exact Est. }
      match goal with
      | |- context [runScans evs ?s] =>
          destruct (runScans_held_after_return evs s k Hall') as (I1 & I2);
            [reflexivity | reflexivity |];
            destruct (runScans evs s) as [ks st2]
      end.
      cbn [fst snd orb] in *. unfold keyEvents in *. cbn [filter].
      assert (E : Ascii.eqb k NOKEY = false) by (apply Ascii.eqb_neq; exact Hk).
      rewrite E. cbn [negb]. rewrite I1, I2. split; reflexivity.
    + rewrite debounceKey_not_yet_stable; try (fields; assumption).
      2: { fields. rewrite Ht. exact Est. }
      destruct (IH (set_clock t st) k t0 Hk Hall') as (I1 & I2);
        try (fields; assumption).
      destruct (runScans evs (set_clock t st)) as [ks st2].
      cbn [fst snd orb] in *. unfold keyEvents in *. cbn [filter].
      rewrite Ascii.eqb_refl. cbn [negb]. split; assumption.
Qed.

(** A new press: the first scan that senses [k] starts the debounce timer
    and returns nothing; the hold then returns [k] once. *)
Lemma runScans_press (st : State) (k : ascii) (t0 : Z) (p0 : KeypadPins)
      (hold : list (Z * KeypadPins)) :
  k <> NOKEY ->
  lastPhysicallyPressedKey (keypad st) <> k ->
  lastReturnedKey (keypad st) <> k ->
  scanKeypad p0 = k ->
  (forall ev, In ev hold -> scanKeypad (snd ev) = k) ->
  keyEvents (fst (runScans ((t0, p0) :: hold) st))
    = (if existsb (stableSince t0) hold then [k] else [])
  /\ lastPhysicallyPressedKey (keypad (snd (runScans ((t0, p0) :: hold) st))) = k.
Proof.
  intros Hk Hp Hr H0 Hall.
  cbn [runScans]. unfold manualGetKeyState. rewrite H0.
  rewrite debounceKey_change by (fields; exact Hp).
  assert (E : Ascii.eqb k NOKEY = false) by (apply Ascii.eqb_neq; exact Hk).
  rewrite E. fields.
  match goal with
  | |- context [runScans hold ?s] =>
      destruct (runScans_hold hold s k t0 Hk Hall) as (I1 & I2);
        [reflexivity | fields; exact Hr | reflexivity |];
        destruct (runScans hold s) as [ks st2]
  end.
  cbn [fst snd] in *. unfold keyEvents in *. cbn [filter].
  rewrite Ascii.eqb_refl. cbn [negb]. split; assumption.
Qed.

(** The scan that senses the release returns nothing and forgets the
    returned key. *)
Lemma runScans_release (st : State) (k : ascii) (tr : Z) (pr : KeypadPins) :
  k <> NOKEY ->
  lastPhysicallyPressedKey (keypad st) = k ->
  scanKeypad pr = NOKEY ->
  keyEvents (fst (runScans [(tr, pr)] st)) = []
  /\ keypadReleased (snd (runScans [(tr, pr)] st)).
Proof.
  intros Hk Hp Hr. cbn [runScans]. unfold manualGetKeyState. rewrite Hr.
  rewrite debounceKey_change by (fields; congruence).
  cbn [fst snd]. unfold keyEvents, keypadReleased. cbn [filter].
  rewrite Ascii.eqb_refl. fields. repeat split.
Qed.

(** One key down: the scan senses that key. *)
Lemma scanKeypad_pinsDown (r c : nat) :
  (r < 4)%nat -> (c < 3)%nat ->
  scanKeypad (pinsDown r c) = nth c (nth r keys []) NOKEY
  /\ scanKeypad (pinsDown r c) <> NOKEY.
Proof.
  intros Hr Hc.
  destruct r as [|[|[|[|r]]]]; try lia;
    destruct c as [|[|[|c]]]; try lia;
    (split; [reflexivity | discriminate]).
Qed.

(** [processKeypad] is the resolver followed by the dispatch on its key. *)
Lemma processKeypad_on_key (pins : KeypadPins) (probe : Z) (st : State) :
  processKeypad pins probe st =
  if Ascii.eqb (fst (manualGetKeyState pins st)) NOKEY
  then snd (manualGetKeyState pins st)
  else processResolvedKey (fst (manualGetKeyState pins st)) probe
         (snd (manualGetKeyState pins st)).
Proof.
  unfold processKeypad. destruct (manualGetKeyState pins st) as [k st1].
  reflexivity.
Qed.

Lemma scanRow_first (pins : KeypadPins) (r c : nat) :
  (r < 4)%nat -> (c < 3)%nat ->
  pins r c = true ->
  (forall c', (c' < c)%nat -> pins r c' = false) ->
  scanRow pins r = nth c (nth r keys []) NOKEY /\ scanRow pins r <> NOKEY.
Proof.
  intros Hr Hc Hp Hbefore. unfold scanRow.
  cbn [KEYPAD_COLS seq find].
  destruct c as [|[|[|c]]]; [| | |lia].
  - rewrite Hp.
    destruct r as [|[|[|[|r]]]]; [| | | |lia]; split; try reflexivity; discriminate.
  - rewrite (Hbefore 0%nat) by lia. rewrite Hp.
    destruct r as [|[|[|[|r]]]]; [| | | |lia]; split; try reflexivity; discriminate.
  - rewrite (Hbefore 0%nat), (Hbefore 1%nat) by lia. rewrite Hp.
    destruct r as [|[|[|[|r]]]]; [| | | |lia]; split; try reflexivity; discriminate.
Qed.

Lemma scanRow_none (pins : KeypadPins) (r : nat) :
  (forall c, (c < 3)%nat -> pins r c = false) -> scanRow pins r = NOKEY.
Proof.
  intros H. unfold scanRow. cbn [KEYPAD_COLS seq find].
  rewrite (H 0%nat), (H 1%nat), (H 2%nat) by lia. reflexivity.
Qed.

(** With no column reading HIGH in any row, the scan finds no key. *)
Lemma scanKeypad_no_key (pins : KeypadPins) :
  (forall r c, (r < 4)%nat -> (c < 3)%nat -> pins r c = false) ->
  scanKeypad pins = NOKEY.
Proof.
  intros H. unfold scanKeypad. cbn [KEYPAD_ROWS seq find].
  rewrite !scanRow_none by (intros c Hc; apply H; lia).
  reflexivity.
Qed.

(** The first key down in scan order is the key the scan finds. *)
Lemma scanKeypad_keyDownFirst (pins : KeypadPins) (r c : nat) :
  (r < 4)%nat -> (c < 3)%nat ->
  keyDownFirst pins r c = true ->
  scanKeypad pins = nth c (nth r keys []) NOKEY /\ scanKeypad pins <> NOKEY.
Proof.
  intros Hr Hc H. unfold keyDownFirst in H.
  apply andb_true_iff in H. destruct H as [H Hcols].
  apply andb_true_iff in H. destruct H as [Hp Hrows].
  assert (Hrows' : forall r' c', (r' < r)%nat -> (c' < 3)%nat -> pins r' c' = false).
  { intros r' c' Hr' Hc'. rewrite forallb_forall in Hrows.
    assert (Hrow := Hrows r' ltac:(apply in_seq; lia)).
    rewrite forallb_forall in Hrow. apply negb_true_iff. apply Hrow.
    apply in_seq. unfold KEYPAD_COLS. lia. }
  assert (Hcols' : forall c', (c' < c)%nat -> pins r c' = false).
  { intros c' Hc'. rewrite forallb_forall in Hcols. apply negb_true_iff.
    apply Hcols. apply in_seq. lia. }
  destruct (scanRow_first pins r c Hr Hc Hp Hcols') as (E & NE).
  assert (Hnone : forall r', (r' < r)%nat -> scanRow pins r' = NOKEY).
  { intros r' Hlt. apply scanRow_none. intros c' Hc'. apply Hrows'; assumption. }
  assert (Hfound : Ascii.eqb (scanRow pins r) NOKEY = false)
    by (apply Ascii.eqb_neq; exact NE).
  unfold scanKeypad. cbn [KEYPAD_ROWS seq find].
  destruct r as [|[|[|[|r]]]]; [| | | |lia].
  - rewrite Hfound. cbn [negb]. split; assumption.
  - rewrite (Hnone 0%nat) by lia. rewrite Hfound.
    change (Ascii.eqb NOKEY NOKEY) with true. cbn [negb]. split; assumption.
  - rewrite (Hnone 0%nat), (Hnone 1%nat) by lia. rewrite Hfound.
    change (Ascii.eqb NOKEY NOKEY) with true. cbn [negb]. split; assumption.
  - rewrite (Hnone 0%nat), (Hnone 1%nat), (Hnone 2%nat) by lia. rewrite Hfound.
    change (Ascii.eqb NOKEY NOKEY) with true. cbn [negb]. split; assumption.
Qed.

Lemma scanKeypad_keysUp (pins : KeypadPins) :
  keysUp pins = true -> scanKeypad pins = NOKEY.
Proof.
  intros H. apply scanKeypad_no_key. intros r c Hr Hc.
  unfold keysUp in H. rewrite forallb_forall in H.
  assert (Hrow := H r ltac:(apply in_seq; unfold KEYPAD_ROWS; lia)).
  rewrite forallb_forall in Hrow. apply negb_true_iff. apply Hrow.
  apply in_seq. unfold KEYPAD_COLS. lia.
Qed.

Lemma keyDownFirst_intro (pins : KeypadPins) (r c : nat) :
  pins r c = true ->
  (forall r' c', (r' < r)%nat -> (c' < 3)%nat -> pins r' c' = false) ->
  (forall c', (c' < c)%nat -> pins r c' = false) ->
  keyDownFirst pins r c = true.
Proof.
  intros Hp Hrows Hcols. unfold keyDownFirst. rewrite Hp. cbn [andb].
  apply andb_true_iff. split.
  - apply forallb_forall. intros r' Hr'. apply in_seq in Hr'.
    apply forallb_forall. intros c' Hc'. apply in_seq in Hc'.
    unfold KEYPAD_COLS in Hc'. rewrite Hrows by lia. reflexivity.
  - apply forallb_forall. intros c' Hc'. apply in_seq in Hc'.
    rewrite Hcols by lia. reflexivity.
Qed.

(** The key found in a row is down, with no key to its left. *)
Lemma scanRow_found (pins : KeypadPins) (r : nat) :
  scanRow pins r <> NOKEY ->
  exists c, (c < 3)%nat /\ pins r c = true
            /\ (forall c', (c' < c)%nat -> pins r c' = false)
            /\ scanRow pins r = nth c (nth r keys []) NOKEY.
Proof.
  unfold scanRow. cbn [KEYPAD_COLS seq find].
  destruct (pins r 0%nat) eqn:E0;
    [|destruct (pins r 1%nat) eqn:E1; [|destruct (pins r 2%nat) eqn:E2]];
    intros H.
  - exists 0%nat. repeat split; [lia | exact E0 | intros c' Hc'; lia].
  - exists 1%nat. repeat split; [lia | exact E1 |].
    intros c' Hc'. assert (c' = 0%nat) by lia. subst c'. exact E0.
  - exists 2%nat. repeat split; [lia | exact E2 |].
    intros c' Hc'. destruct c' as [|[|c']]; [exact E0 | exact E1 | lia].
  - contradiction H. reflexivity.
Qed.

(** A row in which no key is found has no key down. *)
Lemma scanRow_nothing (pins : KeypadPins) (r : nat) :
  (r < 4)%nat -> scanRow pins r = NOKEY ->
  forall c, (c < 3)%nat -> pins r c = false.
Proof.
  intros Hr H.
  assert (N : forall c, (c < 3)%nat -> nth c (nth r keys []) NOKEY <> NOKEY).
  { intros c Hc. destruct r as [|[|[|[|r]]]]; [| | | |lia];
      destruct c as [|[|[|c]]]; try lia; discriminate. }
  intros c Hc.
  destruct (pins r c) eqn:Ec; [|reflexivity].
  exfalso. revert H.
  unfold scanRow. cbn [KEYPAD_COLS seq find].
  destruct (pins r 0%nat) eqn:E0; [apply N; lia|].
  destruct (pins r 1%nat) eqn:E1; [apply N; lia|].
  destruct (pins r 2%nat) eqn:E2; [apply N; lia|].
  destruct c as [|[|[|c]]]; [congruence | congruence | congruence | lia].
Qed.

(** The key a scan finds is down, and it is the first one down in scan
    order. *)
Lemma scanKeypad_found_is_down (pins : KeypadPins) :
  scanKeypad pins <> NOKEY ->
  exists r c, (r < 4)%nat /\ (c < 3)%nat
              /\ keyDownFirst pins r c = true
              /\ scanKeypad pins = nth c (nth r keys []) NOKEY.
Proof.
  assert (Found : forall r, (r < 4)%nat ->
            (forall r', (r' < r)%nat -> scanRow pins r' = NOKEY) ->
            scanRow pins r <> NOKEY ->
            exists r0 c, (r0 < 4)%nat /\ (c < 3)%nat
                         /\ keyDownFirst pins r0 c = true
                         /\ scanRow pins r = nth c (nth r0 keys []) NOKEY).
  { intros r Hr Hbefore Hne.
    destruct (scanRow_found pins r Hne) as (c & Hc & Hp & Hleft & E).
    exists r, c. repeat split; try assumption.
    apply keyDownFirst_intro; [exact Hp | | exact Hleft].
    intros r' c' Hr' Hc'. apply (scanRow_nothing pins r'); [lia | | exact Hc'].
    apply Hbefore. exact Hr'. }
  unfold scanKeypad. cbn [KEYPAD_ROWS seq find].
  destruct (Ascii.eqb (scanRow pins 0) NOKEY) eqn:E0; cbn [negb].
  2: { intros _. apply Ascii.eqb_neq in E0.
       apply (Found 0%nat); [lia | intros r' Hr'; lia | exact E0]. }
  apply Ascii.eqb_eq in E0.
  destruct (Ascii.eqb (scanRow pins 1) NOKEY) eqn:E1; cbn [negb].
  2: { intros _. apply Ascii.eqb_neq in E1.
       apply (Found 1%nat); [lia | | exact E1].
       intros r' Hr'. assert (r' = 0%nat) by lia. subst r'. exact E0. }
  apply Ascii.eqb_eq in E1.
  destruct (Ascii.eqb (scanRow pins 2) NOKEY) eqn:E2; cbn [negb].
  2: { intros _. apply Ascii.eqb_neq in E2.
       apply (Found 2%nat); [lia | | exact E2].
       intros r' Hr'. destruct r' as [|[|r']]; [exact E0 | exact E1 | lia]. }
  apply Ascii.eqb_eq in E2.
  destruct (Ascii.eqb (scanRow pins 3) NOKEY) eqn:E3; cbn [negb].
  2: { intros _. apply Ascii.eqb_neq in E3.
       apply (Found 3%nat); [lia | | exact E3].
       intros r' Hr'.
       destruct r' as [|[|[|r']]]; [exact E0 | exact E1 | exact E2 | lia]. }
  intros H. contradiction H. reflexivity.
Qed.

(** A press, its release and the next press, as the scan senses them. *)
Lemma runScans_press_release_press
  (st : State) (k k2 : ascii) (t0 tr t1 : Z) (p0 pr p1 : KeypadPins)
  (hold again : list (Z * KeypadPins)) :
  k <> NOKEY -> k2 <> NOKEY ->
  keypadReleased st ->
  scanKeypad p0 = k ->
  (forall ev, In ev hold -> scanKeypad (snd ev) = k) ->
  scanKeypad pr = NOKEY ->
  scanKeypad p1 = k2 ->
  (forall ev, In ev again -> scanKeypad (snd ev) = k2) ->
  let press1 := runScans ((t0, p0) :: hold) st in
  let release := runScans [(tr, pr)] (snd press1) in
  let press2 := runScans ((t1, p1) :: again) (snd release) in
  keyEvents (fst press1) = (if existsb (stableSince t0) hold then [k] else [])
  /\ keyEvents (fst release) = []
  /\ keypadReleased (snd release)
  /\ keyEvents (fst press2) = (if existsb (stableSince t1) again then [k2] else []).
Proof.
  intros Hk Hk2 [Hp Hr] H0 Hhold Hrel H1 Hagain press1 release press2.
  destruct (runScans_press st k t0 p0 hold Hk) as (P1 & P2);
    try assumption; try congruence.
  fold press1 in P1, P2.
  destruct (runScans_release (snd press1) k tr pr Hk P2 Hrel) as (R1 & R2).
  fold release in R1, R2.
  destruct R2 as [R2p R2r].
  destruct (runScans_press (snd release) k2 t1 p1 again Hk2) as (Q1 & _);
    try assumption; try congruence.
  fold press2 in Q1.
  repeat split; assumption.
Qed.

(** C7, as amended.  [manualGetKeyState] returns a key only on a scan at
    which that key is down and is the first key down in scan order, when
    it has been the sensed key for more than [KEYPAD_DEBOUNCE_PERIOD] and
    is not the key returned last.  A press of the key in row [r], column
    [c] starts from the released keypad and is held over any number of
    scans and for any duration, the key being the first one down in scan
    order at each of them (keys later in that order may go down and up
    meanwhile): it yields exactly one key event, on the first scan past
    the debounce period (and none if the key goes up before such a scan);
    everything returned during the rest of the hold is "no key".  The scan
    that finds all keys up returns nothing and re-arms the resolver, so
    that the next stable press yields a new event. *)
Theorem one_key_event_per_press
  (st : State) (r c r2 c2 : nat) (t0 tr t1 : Z) (p0 pr p1 : KeypadPins)
  (hold again : list (Z * KeypadPins)) :
  (r < 4)%nat -> (c < 3)%nat -> (r2 < 4)%nat -> (c2 < 3)%nat ->
  keypadReleased st ->
  (forall ev, In ev ((t0, p0) :: hold) -> keyDownFirst (snd ev) r c = true) ->
  keysUp pr = true ->
  (forall ev, In ev ((t1, p1) :: again) -> keyDownFirst (snd ev) r2 c2 = true) ->
  let k := nth c (nth r keys []) NOKEY in
  let k2 := nth c2 (nth r2 keys []) NOKEY in
  let press1 := runScans ((t0, p0) :: hold) st in
  let release := runScans [(tr, pr)] (snd press1) in
  let press2 := runScans ((t1, p1) :: again) (snd release) in
  (forall pins s,
      fst (manualGetKeyState pins s) <> NOKEY ->
      (exists r' c', (r' < 4)%nat /\ (c' < 3)%nat
                     /\ keyDownFirst pins r' c' = true
                     /\ fst (manualGetKeyState pins s)
                        = nth c' (nth r' keys []) NOKEY)
      /\ lastPhysicallyPressedKey (keypad s) = fst (manualGetKeyState pins s)
      /\ KEYPAD_DEBOUNCE_PERIOD < ulong (millis s - lastKeyPressTime (keypad s))
      /\ lastReturnedKey (keypad s) <> fst (manualGetKeyState pins s))
  /\ k <> NOKEY /\ k2 <> NOKEY
  /\ keyEvents (fst press1) = (if existsb (stableSince t0) hold then [k] else [])
  /\ keyEvents (fst release) = []
  /\ keypadReleased (snd release)
  /\ keyEvents (fst press2) = (if existsb (stableSince t1) again then [k2] else []).
Proof.
  intros Hr Hc Hr2 Hc2 Hrel Hhold Hup Hagain k k2 press1 release press2.
  split.
  { intros pins s Hne.
    destruct (manualGetKeyState_returns_only_stable pins s Hne)
      as (A & B & C & D & _).
    split; [|repeat split; assumption].
    rewrite <- A in Hne. destruct (scanKeypad_found_is_down pins Hne)
      as (r' & c' & H1 & H2 & H3 & H4).
    exists r', c'. rewrite <- A. repeat split; assumption. }
  assert (S1 : forall ev, In ev ((t0, p0) :: hold) ->
                 scanKeypad (snd ev) = k /\ scanKeypad (snd ev) <> NOKEY)
    by (intros ev Hev; apply scanKeypad_keyDownFirst; auto).
  assert (S2 : forall ev, In ev ((t1, p1) :: again) ->
                 scanKeypad (snd ev) = k2 /\ scanKeypad (snd ev) <> NOKEY)
    by (intros ev Hev; apply scanKeypad_keyDownFirst; auto).
  assert (Hk : k <> NOKEY).
  { destruct (S1 (t0, p0) (or_introl eq_refl)) as (E & NE). rewrite <- E. exact NE. }
  assert (Hk2 : k2 <> NOKEY).
  { destruct (S2 (t1, p1) (or_introl eq_refl)) as (E & NE). rewrite <- E. exact NE. }
  split; [exact Hk|]. split; [exact Hk2|].
  apply (runScans_press_release_press st k k2 t0 tr t1 p0 pr p1 hold again Hk Hk2 Hrel).
  - apply (S1 (t0, p0)). left. reflexivity.
  - intros ev Hev. apply (S1 ev). right. exact Hev.
  - apply scanKeypad_keysUp. exact Hup.
  - apply (S2 (t1, p1)). left. reflexivity.
  - intros ev Hev. apply (S2 ev). right. exact Hev.
Qed.

Lemma one_key_event_per_press_witness :
  let p5 := pinsDown 1 1 in
  let p59 := pinsWith (pinsDown 1 1) (pinsDown 2 2) in
  let press1 := runScans [(10010, p5); (10020, p5); (10070, p59); (10080, p59);
                          (90000, p5)] idleState in
  let release := runScans [(90010, pinsUp)] (snd press1) in
  let press2 := runScans [(90100, p5); (90120, p5); (90160, p5)] (snd release) in
  keypadReleased idleState
  /\ keyDownFirst p5 1 1 = true
  /\ keyDownFirst p59 1 1 = true
  /\ keysUp pinsUp = true
  /\ keyEvents (fst press1) = ["5"%char]
  /\ keyEvents (fst release) = []
  /\ keyEvents (fst press2) = ["5"%char].
Proof.
  intros p5 p59 press1 release press2.
  assert (Hrel : keypadReleased idleState) by (split; reflexivity).
  pose proof (one_key_event_per_press idleState 1 1 1 1 10010 90010 90100
                p5 pinsUp p5
                [(10020, p5); (10070, p59); (10080, p59); (90000, p5)]
                [(90120, p5); (90160, p5)]) as H.
  cbv zeta in H.
  destruct H as (_ & _ & _ & E1 & E2 & _ & E3); try lia; try exact Hrel;
    try reflexivity;
    try (intros ev Hin; cbn [In] in Hin;
         repeat (destruct Hin as [<-|Hin]; [reflexivity|]); contradiction).
  repeat split; try assumption.
Defined.

(** The claim as it was stated fails when a second key comes into play:
    5 is held down at every scan; 3, which precedes it in scan order, is
    pressed for 60 ms and released.  The resolver reports 5, then 3, then
    5 again, though 5 was never released. *)
Lemma held_key_reported_again_after_second_key :
  let p5 := pinsDown 1 1 in
  let scans := [(10010, p5); (10070, p5); (10100, pinsRollover);
                (10160, pinsRollover); (10200, p5); (10260, p5); (10500, p5)] in
  keypadReleased idleState
  /\ forallb (fun ev => snd ev 1%nat 1%nat) scans = true
  /\ fst (runScans scans idleState)
     = [NOKEY; "5"; NOKEY; "3"; NOKEY; "5"; NOKEY]%char
  /\ keyEvents (fst (runScans scans idleState)) = ["5"; "3"; "5"]%char
  /\ count_occ ascii_dec (keyEvents (fst (runScans scans idleState))) "5"%char
     = 2%nat.
Proof. repeat split. Qed.

(** ** C4: grouping coin pulses *)

Lemma processAcceptedCoin_waits (st : State) :
  ((0 <? coinPulseCount (pay st))
   && gapExceeded (COIN_PROCESSING_DELAY (timing st))
                  (lastCoinPulseTime (pay st)) (millis st)) = false ->
  processAcceptedCoin st = st.
Proof.
  unfold gapExceeded. intros H. unfold processAcceptedCoin. rewrite H.
  reflexivity.
Qed.

Lemma processAcceptedCoin_drains (st : State) :
  0 < coinPulseCount (pay st) ->
  gapExceeded (COIN_PROCESSING_DELAY (timing st))
              (lastCoinPulseTime (pay st)) (millis st) = true ->
  let n := coinPulseCount (pay st) in
  let st' := processAcceptedCoin st in
  coinPulseCount (pay st') = 0
  /\ timing st' = timing st
  /\ coinDrains st' = S (coinDrains st)
  /\ credit (pay st')
     = (if 0 <? coinCents n then creditAddCents (credit (pay st)) (coinCents n)
        else credit (pay st))
  /\ (0 < coinCents n ->
        nvCredit (preferences (world st')) = credit (pay st')
        /\ serial (world st')
           = LogCoinAccepted n (coinCents n) (credit (pay st'))
               :: LogCoinProcessing n :: serial (world st))
  /\ (coinCents n <= 0 ->
        (serial (world st')
           = LogCoinZeroValue n :: LogCoinProcessing n :: serial (world st)
         \/ serial (world st')
            = LogCoinInvalid n :: LogCoinProcessing n :: serial (world st))
        /\ preferences (world st') = preferences (world st)).
Proof.
  intros Hc Hg. cbv zeta. unfold gapExceeded in Hg.
  unfold processAcceptedCoin.
  apply Z.ltb_lt in Hc. rewrite Hc, Hg. cbn [andb].
  unfold coinCents, coinDrains. fields. rewrite Hc. cbn [andb].
  destruct (ulong (coinPulseCount (pay st)) <? Z.of_nat (List.length pulseValues))
    eqn:Edom.
  - destruct (0 <? aget 0 pulseValues (coinPulseCount (pay st))) eqn:Eval; fields;
      cbn [filter isCoinProcessing List.length];
      [apply Z.ltb_lt in Eval | apply Z.ltb_ge in Eval];
      repeat split; try reflexivity; try lia.
    left. reflexivity.
  - fields. cbn [filter isCoinProcessing List.length].
    repeat split; try reflexivity; try lia.
    right. reflexivity.
Qed.

Lemma runCoin_app (a b : list CoinEvent) (st : State) :
  runCoin (a ++ b) st = runCoin b (runCoin a st).
Proof. unfold runCoin. apply fold_left_app. Qed.

(** While the group is arriving the counter only counts. *)
Lemma runCoin_group (evs : list CoinEvent) :
  forall (st : State) (pending : bool),
    pending = (0 <? coinPulseCount (pay st)) ->
    0 <= coinPulseCount (pay st) ->
    coinPulseCount (pay st) + edges evs < 2147483648 ->
    withinGroupingTimeout (COIN_PROCESSING_DELAY (timing st)) pending
                          (lastCoinPulseTime (pay st)) evs = true ->
    let st' := runCoin evs st in
    coinPulseCount (pay st') = coinPulseCount (pay st) + edges evs
    /\ lastCoinPulseTime (pay st') = latestEdge (lastCoinPulseTime (pay st)) evs
    /\ credit (pay st') = credit (pay st)
    /\ serial (world st') = serial (world st)
    /\ preferences (world st') = preferences (world st)
    /\ timing st' = timing st.
Proof.
  induction evs as [|[t|t] evs IH]; intros st pending Hp Hc Hn Hw; cbv zeta.
  - cbn [runCoin fold_left edges latestEdge]. repeat split. lia.
  - assert (Hedges : 0 <= edges evs).
    { clear. induction evs as [|[?|?] ? IHe]; cbn [edges]; lia. }
    cbn [edges] in Hn. cbn [withinGroupingTimeout] in Hw.
    cbn [runCoin fold_left coinStep]. change (fold_left coinStep evs ?x) with (runCoin evs x).
    set (st1 := coinAcceptorISR (set_clock t st)).
    assert (E1 : coinPulseCount (pay st1) = coinPulseCount (pay st) + 1).
    { subst st1. unfold coinAcceptorISR. fields. apply to_int_small. lia. }
    assert (E2 : lastCoinPulseTime (pay st1) = t) by reflexivity.
    assert (E3 : credit (pay st1) = credit (pay st)) by reflexivity.
    assert (E4 : serial (world st1) = serial (world st)) by reflexivity.
    assert (E5 : preferences (world st1) = preferences (world st)) by reflexivity.
    assert (E6 : timing st1 = timing st) by reflexivity.
    destruct (IH st1 true) as (I1 & I2 & I3 & I4 & I5 & I6).
    + rewrite E1. symmetry. apply Z.ltb_lt. lia.
    + lia.
    + lia.
    + rewrite E6, E2. exact Hw.
    + cbn [edges latestEdge].
      rewrite I1, I2, I3, I4, I5, I6, E1, E2, E3, E4, E5, E6.
      repeat split. lia.
  - cbn [edges] in Hn. cbn [withinGroupingTimeout] in Hw.
    apply andb_true_iff in Hw. destruct Hw as [Hw1 Hw2].
    cbn [runCoin fold_left coinStep]. change (fold_left coinStep evs ?x) with (runCoin evs x).
    rewrite processAcceptedCoin_waits.
    2: { fields. rewrite <- Hp. unfold gapExceeded.
         destruct pending; [|reflexivity]. cbn [negb orb] in Hw1.
         apply negb_true_iff in Hw1. rewrite Hw1. reflexivity. }
    destruct (IH (set_clock t st) pending) as (I1 & I2 & I3 & I4 & I5 & I6);
      try assumption.
    cbn [edges latestEdge]. repeat split; assumption.
Qed.

(** With nothing pending, ticks do nothing. *)
Lemma runCoin_idle_ticks (ts : list Z) :
  forall st : State,
    coinPulseCount (pay st) = 0 ->
    pay (runCoin (map CoinTick ts) st) = pay st
    /\ serial (world (runCoin (map CoinTick ts) st)) = serial (world st)
    /\ preferences (world (runCoin (map CoinTick ts) st)) = preferences (world st).
Proof.
  induction ts as [|t ts IH]; intros st Hc.
  - repeat split.
  - cbn [map runCoin fold_left coinStep].
    change (fold_left coinStep (map CoinTick ts) ?x)
      with (runCoin (map CoinTick ts) x).
    rewrite processAcceptedCoin_waits by (fields; rewrite Hc; reflexivity).
    destruct (IH (set_clock t st) Hc) as (I1 & I2 & I3).
    repeat split; assumption.
Qed.

(** The quiet gap: the first tick that comes more than the delay after the
    latest pulse drains the counter; the ticks before it and after it do
    nothing. *)
Lemma runCoin_quiet (ts : list Z) :
  forall st : State,
    0 < coinPulseCount (pay st) ->
    existsb (gapExceeded (COIN_PROCESSING_DELAY (timing st))
                         (lastCoinPulseTime (pay st))) ts = true ->
    let n := coinPulseCount (pay st) in
    let st' := runCoin (map CoinTick ts) st in
    coinPulseCount (pay st') = 0
    /\ coinDrains st' = S (coinDrains st)
    /\ credit (pay st')
       = (if 0 <? coinCents n then creditAddCents (credit (pay st)) (coinCents n)
          else credit (pay st))
    /\ (0 < coinCents n ->
          nvCredit (preferences (world st')) = credit (pay st')
          /\ serial (world st')
             = LogCoinAccepted n (coinCents n) (credit (pay st'))
                 :: LogCoinProcessing n :: serial (world st))
    /\ (coinCents n <= 0 ->
          (serial (world st')
             = LogCoinZeroValue n :: LogCoinProcessing n :: serial (world st)
           \/ serial (world st')
              = LogCoinInvalid n :: LogCoinProcessing n :: serial (world st))
          /\ preferences (world st') = preferences (world st)).
Proof.
  induction ts as [|t ts IH]; intros st Hc Hex; cbv zeta.
  - discriminate Hex.
  - cbn [existsb] in Hex.
    cbn [map runCoin fold_left coinStep].
    change (fold_left coinStep (map CoinTick ts) ?x)
      with (runCoin (map CoinTick ts) x).
    destruct (gapExceeded (COIN_PROCESSING_DELAY (timing st))
                          (lastCoinPulseTime (pay st)) t) eqn:Eg.
    + pose proof (processAcceptedCoin_drains (set_clock t st)) as D.
      cbv zeta in D. fields in D.
      destruct (D Hc Eg) as (D1 & D2 & D3 & D4 & D5 & D6).
      set (st1 := processAcceptedCoin (set_clock t st)) in *.
      destruct (runCoin_idle_ticks ts st1 D1) as (I1 & I2 & I3).
      unfold coinDrains in *. rewrite I1, I2, I3.
      repeat split; try assumption.
      * apply D5; assumption.
      * apply D5; assumption.
      * apply D6; assumption.
      * apply D6; assumption.
    + cbn [orb] in Hex.
      rewrite processAcceptedCoin_waits.
      2: { fields. rewrite Eg. apply andb_false_r. }
      pose proof (IH (set_clock t st) Hc Hex) as I. cbv zeta in I. fields in I.
      exact I.
Qed.

Lemma edges_nonneg (evs : list CoinEvent) : 0 <= edges evs.
Proof. induction evs as [|[t|t] evs IH]; cbn [edges]; lia. Qed.

(** In a group as the sensor delivers it, the next edge is never more than
    the delay after the latest one. *)
Lemma arrivesWithin_next_edge (evs : list CoinEvent) :
  forall (delay l t : Z),
    arrivesWithin delay (Some l) t evs -> 0 < edges evs ->
    exists tn, t <= tn /\ tn - l <= delay.
Proof.
  induction evs as [|[t'|t'] evs IH]; intros delay l t H He.
  - cbn [edges] in He. lia.
  - cbn [arrivesWithin] in H. destruct H as (Ht & Hgap & _).
    exists t'. split; [lia | exact Hgap].
  - cbn [arrivesWithin] in H. destruct H as (Ht & He' & Hrest).
    destruct (IH delay l t' Hrest He') as (tn & H1 & H2).
    exists tn. split; [lia | exact H2].
Qed.

(** Edges that follow each other within the grouping timeout are grouped:
    no tick between them finds the gap exceeded. *)
Lemma arrivesWithin_grouped (evs : list CoinEvent) :
  forall (delay : Z) (pending : bool) (last prev : Z),
    0 <= prev ->
    (pending = true -> 0 <= last <= prev) ->
    arrivesWithin delay (if pending then Some last else None) prev evs ->
    withinGroupingTimeout delay pending last evs = true.
Proof.
  induction evs as [|[t|t] evs IH]; intros delay pending last prev Hp Hl H.
  - reflexivity.
  - cbn [arrivesWithin] in H. destruct H as (Ht & _ & Hrest).
    cbn [withinGroupingTimeout].
    apply (IH delay true t t); [lia | intros _; lia | exact Hrest].
  - cbn [arrivesWithin] in H. destruct H as (Ht & He & Hrest).
    cbn [withinGroupingTimeout]. apply andb_true_iff. split.
    + destruct pending; [|reflexivity]. cbn [negb orb].
      destruct (arrivesWithin_next_edge evs delay last t Hrest He)
        as (tn & H1 & H2).
      specialize (Hl eq_refl).
      rewrite ulong_small by lia.
      apply negb_true_iff, Z.ltb_ge. lia.
    + apply (IH delay pending last t); [lia | intros E; specialize (Hl E); lia
                                        | exact Hrest].
Qed.



(** ** C8: stock notifications fire once per episode *)

Lemma sendTelegramMessage_delivers (m : TelegramMsg) (st : State) :
  notificationsEnabled st ->
  exists log,
    sendTelegramMessage m st
    = set_telegramOutbox (m :: telegramOutbox (world st)) (set_serial log st).
Proof.
  intros (_ & _ & H3 & H4 & H5 & H6 & H7).
  unfold sendTelegramMessage. rewrite H3, H4, H5.
  apply Z.ltb_lt in H6. apply Z.ltb_lt in H7. rewrite H6, H7. cbn [negb orb andb].
  fields. destruct (botDelivers (world st)); eexists; reflexivity.
Qed.

(** The three branches of [checkOverallStockLevel] and its fall-through. *)
Lemma stockCheck_cases (st : State) (sd : SlotData) :
  notificationsEnabled st ->
  let n := availableIn sd in
  let T := almostEmptyThreshold (notify st) in
  let almost := almostEmptyNotificationSent (notify st) in
  let empty := emptyNotificationSent (notify st) in
  exists log,
    stockCheck st sd =
    if (0 <? n) && (n <=? T) && negb almost then
      set_notificationFlags true false
        (set_telegramOutbox (MsgAlmostEmpty n :: telegramOutbox (world st))
           (set_serial log (with_slots sd st)))
    else if (n =? 0) && negb empty then
      set_notificationFlags true true
        (set_telegramOutbox (MsgEmpty :: telegramOutbox (world st))
           (set_serial log (with_slots sd st)))
    else if T <? n then
      set_notificationFlags false false (set_serial log (with_slots sd st))
    else with_slots sd st.
Proof.
  intros Hen. pose proof Hen as (H1 & H2 & _). cbv zeta.
  unfold stockCheck, checkOverallStockLevel.
  change (countAvailableSlots (with_slots sd st)) with (availableIn sd).
  fields. rewrite H1, H2. cbn [andb].
  assert (Hen' : notificationsEnabled (with_slots sd st)) by exact Hen.
  destruct ((0 <? availableIn sd)
            && (availableIn sd <=? almostEmptyThreshold (notify st))
            && negb (almostEmptyNotificationSent (notify st))).
  { destruct (sendTelegramMessage_delivers
                (MsgAlmostEmpty (availableIn sd)) _ Hen') as (log & ->).
    exists log. reflexivity. }
  destruct ((availableIn sd =? 0) && negb (emptyNotificationSent (notify st))).
  { destruct (sendTelegramMessage_delivers MsgEmpty _ Hen') as (log & ->).
    exists log. reflexivity. }
  destruct (almostEmptyThreshold (notify st) <? availableIn sd).
  - destruct (almostEmptyNotificationSent (notify st)
              || emptyNotificationSent (notify st)).
    + exists (LogStockHighAgain :: serial (world st)). reflexivity.
    + exists (serial (world st)). reflexivity.
  - exists (serial (world st)). reflexivity.
Qed.

(** One check while the level is at or below the threshold and the "almost
    empty" latch is set. *)
Lemma stockCheck_low_latched (st : State) (sd : SlotData) :
  notificationsEnabled st ->
  0 <= almostEmptyThreshold (notify st) ->
  almostEmptyNotificationSent (notify st) = true ->
  availableIn sd <= almostEmptyThreshold (notify st) ->
  let st' := stockCheck st sd in
  let fires := isSoldOut sd && negb (emptyNotificationSent (notify st)) in
  notificationsEnabled st'
  /\ almostEmptyThreshold (notify st') = almostEmptyThreshold (notify st)
  /\ almostEmptyNotificationSent (notify st') = true
  /\ emptyNotificationSent (notify st')
     = (emptyNotificationSent (notify st) || isSoldOut sd)
  /\ telegramOutbox (world st')
     = (if fires then MsgEmpty :: telegramOutbox (world st)
        else telegramOutbox (world st)).
Proof.
  intros Hen HT Ha Hn. cbv zeta.
  destruct (stockCheck_cases st sd Hen) as (log & ->).
  rewrite Ha. rewrite andb_false_r.
  replace (almostEmptyThreshold (notify st) <? availableIn sd) with false
    by (symmetry; apply Z.ltb_ge; exact Hn).
  unfold isSoldOut.
  destruct (availableIn sd =? 0); destruct (emptyNotificationSent (notify st)) eqn:Ee;
    cbn [andb negb orb]; fields; rewrite ?Ee;
    (split; [exact Hen|]); repeat split; assumption.
Qed.

(** Any number of checks while the level stays at or below the threshold:
    no further "almost empty", and "empty" at most once, at the first
    check that finds nothing left. *)
Lemma runStock_low_latched (low : list SlotData) :
  forall st : State,
    notificationsEnabled st ->
    0 <= almostEmptyThreshold (notify st) ->
    almostEmptyNotificationSent (notify st) = true ->
    (forall sd, In sd low -> availableIn sd <= almostEmptyThreshold (notify st)) ->
    let st' := runStock low st in
    let fires := existsb isSoldOut low && negb (emptyNotificationSent (notify st)) in
    notificationsEnabled st'
    /\ almostEmptyThreshold (notify st') = almostEmptyThreshold (notify st)
    /\ almostEmptyNotificationSent (notify st') = true
    /\ emptyNotificationSent (notify st')
       = (emptyNotificationSent (notify st) || existsb isSoldOut low)
    /\ almostEmptyEmitted st' = almostEmptyEmitted st
    /\ emptyEmitted st' = (if fires then S (emptyEmitted st) else emptyEmitted st).
Proof.
  induction low as [|sd low IH]; intros st Hen HT Ha Hall; cbv zeta.
  - cbn [runStock fold_left existsb andb]. rewrite orb_false_r.
    repeat split; try assumption; apply Hen.
  - cbn [runStock fold_left existsb].
    change (fold_left stockCheck low ?x) with (runStock low x).
    destruct (stockCheck_low_latched st sd Hen HT Ha (Hall sd (or_introl eq_refl)))
      as (S1 & S2 & S3 & S4 & S5).
    set (st1 := stockCheck st sd) in *.
    destruct (IH st1 S1) as (I1 & I2 & I3 & I4 & I5 & I6);
      [rewrite S2; exact HT | exact S3
      | intros sd' Hin; rewrite S2; apply Hall; right; exact Hin |].
    unfold almostEmptyEmitted, emptyEmitted in *.
    rewrite I5, I6, I4, I2, S4, S5, S2.
    split; [exact I1|]. split; [reflexivity|]. split; [exact I3|].
    destruct (isSoldOut sd); destruct (emptyNotificationSent (notify st));
      destruct (existsb isSoldOut low);
      cbn [andb negb orb filter isAlmostEmptyMsg isEmptyMsg List.length];
      repeat split.
Qed.



(** ** C3: the sign of Credit *)

(** [credit < 0] is false. *)
Lemma ltb_zero_notNegative (x : float) :
  f32_ltb x f32_zero = negb (notNegative x).
Proof. destruct x as [s|s| |s m e]; try destruct s; reflexivity. Qed.

Lemma binary_round_aux_notNegative (prec emax : Z) (mx ex : Z) (lx : location) :
  notNegative (binary_round_aux prec emax false mx ex lx) = true.
Proof.
  unfold binary_round_aux.
  destruct (shr_fexp prec emax mx ex lx) as [mrs e'].
  destruct (shr_fexp prec emax _ e' loc_Exact) as [mrs' e''].
  destruct (shr_m mrs'); [reflexivity | | reflexivity].
  destruct (e'' <=? emax - prec); reflexivity.
Qed.

Lemma binary_round_notNegative (prec emax : Z) (m : positive) (e : Z) :
  notNegative (binary_round prec emax false m e) = true.
Proof.
  unfold binary_round. destruct (shl_align m e _) as [mz ez].
  apply binary_round_aux_notNegative.
Qed.

Lemma of_int_notNegative (prec emax i : Z) :
  0 <= i -> notNegative (binary_normalize prec emax i 0 false) = true.
Proof.
  intros Hi. destruct i as [|p|p]; [reflexivity | | lia].
  apply binary_round_notNegative.
Qed.

Lemma SFadd_notNegative (prec emax : Z) (x y : float) :
  notNegative x = true -> notNegative y = true ->
  notNegative (SFadd prec emax x y) = true.
Proof.
  destruct x as [sx|sx| |sx mx ex]; destruct y as [sy|sy| |sy my ey];
    try destruct sx; try destruct sy; intros Hx Hy;
    try discriminate; try reflexivity.
  cbn [SFadd cond_Zopp Z.add binary_normalize].
  apply binary_round_notNegative.
Qed.

(** Dividing by a positive finite number keeps the sign. *)
Lemma SFdiv_notNegative (prec emax : Z) (x : float) (my : positive) (ey : Z) :
  notNegative x = true ->
  notNegative (SFdiv prec emax x (S754_finite false my ey)) = true.
Proof.
  destruct x as [sx|sx| |sx mx ex]; try destruct sx; intros Hx;
    try discriminate; try reflexivity.
  cbn [SFdiv xorb].
  destruct (SFdiv_core_binary prec emax (Z.pos mx) ex (Z.pos my) ey) as [[mz ez] lz].
  apply binary_round_aux_notNegative.
Qed.

Lemma to_f32_notNegative (x : float) :
  notNegative x = true -> notNegative (f64_to_f32 x) = true.
Proof.
  destruct x as [s|s| |s m e]; try destruct s; intros H;
    try discriminate; try reflexivity.
  apply binary_round_notNegative.
Qed.

(** An accepted coin keeps Credit from going below zero. *)
Lemma creditAddCents_notNegative (c : float) (cents : Z) :
  notNegative c = true -> 0 <= cents ->
  notNegative (creditAddCents c cents) = true.
Proof.
  intros Hc Hp. unfold creditAddCents, f64_add, f64_div, f64_of_f32.
  apply to_f32_notNegative, SFadd_notNegative; [exact Hc|].
  change (f64_of_int 100) with (S754_finite false 7036874417766400 (-46)).
  apply SFdiv_notNegative. apply of_int_notNegative. exact Hp.
Qed.

(** An accepted bill keeps Credit from going below zero. *)
Lemma creditAddEuros_notNegative (c : float) (euros : Z) :
  notNegative c = true -> 0 <= euros ->
  notNegative (creditAddEuros c euros) = true.
Proof.
  intros Hc Hp. unfold creditAddEuros, f32_add.
  apply SFadd_notNegative; [exact Hc|].
  apply of_int_notNegative. exact Hp.
Qed.

(** The debit of a purchase is clamped: whatever credit and price are,
    [credit < 0] is false afterwards. *)
Lemma creditDebit_notNegative (c price : float) :
  notNegative (creditDebit c price) = true.
Proof.
  unfold creditDebit. destruct (f32_ltb (f32_sub c price) f32_zero) eqn:E.
  - reflexivity.
  - rewrite ltb_zero_notNegative in E. apply negb_false_iff in E. exact E.
Qed.

Lemma processAcceptedCoin_credit_notNegative (st : State) :
  notNegative (credit (pay st)) = true ->
  notNegative (credit (pay (processAcceptedCoin st))) = true.
Proof.
  intros H. unfold processAcceptedCoin.
  destruct ((0 <? coinPulseCount (pay st))
            && (COIN_PROCESSING_DELAY (timing st)
                <? ulong (millis st - lastCoinPulseTime (pay st))));
    [|exact H].
  fields.
  destruct ((0 <? coinPulseCount (pay st))
            && (ulong (coinPulseCount (pay st))
                <? Z.of_nat (List.length pulseValues))); [|exact H].
  destruct (0 <? aget 0 pulseValues (coinPulseCount (pay st))) eqn:E; [|exact H].
  fields. apply creditAddCents_notNegative; [exact H|].
  apply Z.ltb_lt in E. lia.
Qed.

Lemma processBillAcceptorPulses_credit_notNegative (st : State) :
  notNegative (credit (pay st)) = true ->
  notNegative (credit (pay (processBillAcceptorPulses st))) = true.
Proof.
  intros H. unfold processBillAcceptorPulses.
  destruct (ulong (millis st - lastRelayChangeTime (relay st)) <? 1000).
  { destruct (0 <? billAcceptorPulseCount (pay st)); exact H. }
  fields.
  destruct ((0 <? billAcceptorPulseCount (pay st))
            && (BILL_GROUP_PROCESSING_TIMEOUT_MS (timing st)
                <? ulong (millis st - lastBillPulseEdgeTime (pay st))));
    [|exact H].
  fields.
  destruct ((0 <? to_int (billAcceptorPulseCount (pay st)))
            && (ulong (to_int (billAcceptorPulseCount (pay st)))
                <? Z.of_nat (List.length billValues))); [|exact H].
  destruct (0 <? aget 0 billValues (to_int (billAcceptorPulseCount (pay st))))
    eqn:E; [|exact H].
  fields. apply creditAddEuros_notNegative; [exact H|].
  apply Z.ltb_lt in E. lia.
Qed.

Lemma processDispenseJob_credit_notNegative (errOn errOff : Z) (st : State) :
  notNegative (credit (pay st)) = true ->
  notNegative (credit (pay (processDispenseJob errOn errOff st))) = true.
Proof.
  intros H.
  destruct (active (dispenseJob st)) eqn:Ha;
    [|rewrite processDispenseJob_inactive by exact Ha; exact H].
  destruct (relayActivated (dispenseJob st)) eqn:Hr.
  { rewrite processDispenseJob_open by assumption.
    match goal with
    | |- context [dispenseStep2 ?a ?b ?c] =>
        destruct (dispenseStep2_frame a b c) as (P1 & _); rewrite P1
    end.
    exact H. }
  destruct (Z.eq_dec errOn 0) as [->|He].
  - destruct (Z_lt_dec (slot (dispenseJob st)) 0) as [Hneg|Hnn];
      [|destruct (Z_le_dec MAX_SLOTS (slot (dispenseJob st))) as [Hbig|Hsmall]].
    1,2: (unfold processDispenseJob; rewrite Ha; fields; rewrite Hr; fields;
          unfold controlSlotRelay;
          replace ((slot (dispenseJob st) <? 0) || (MAX_SLOTS <=? slot (dispenseJob st)))
            with true
            by (symmetry; apply orb_true_iff; rewrite Z.ltb_lt, Z.leb_le; lia);
          fields;
          match goal with
          | |- context [displayErrorMessage ?e ?x] =>
              destruct (displayErrorMessage_spec e x) as (t & ->)
          end;
          exact H).
    destruct (processDispenseJob_commit errOff st Ha Hr ltac:(lia))
      as (st1 & -> & C1 & _).
    match goal with
    | |- context [dispenseStep2 ?a ?b ?c] =>
        destruct (dispenseStep2_frame a b c) as (P1 & _); rewrite P1
    end.
    rewrite C1. apply creditDebit_notNegative.
  - destruct (processDispenseJob_abort errOn errOff st Ha Hr He) as (A1 & _).
    rewrite A1. exact H.
Qed.

Lemma handleResetCreditWeb_credit_notNegative (st : State) :
  notNegative (credit (pay st)) = true ->
  notNegative (credit (pay (snd (handleResetCreditWeb st)))) = true.
Proof.
  intros H. unfold handleResetCreditWeb. fields.
  destruct (isAuthenticated (web st)); [reflexivity | exact H].
Qed.

(** The adjustment of the admin panel is a plain addition of a non-zero
    amount of either sign. *)
Lemma handleAddCreditWeb_adds (amount : float) (st : State) :
  isAuthenticated (web st) = true ->
  f32_eqb amount (f32_of_int 0) = false ->
  fst (handleAddCreditWeb (Some amount) st) = 200
  /\ credit (pay (snd (handleAddCreditWeb (Some amount) st)))
     = f32_add (credit (pay st)) amount
  /\ nvCredit (preferences (world (snd (handleAddCreditWeb (Some amount) st))))
     = f32_add (credit (pay st)) amount.
Proof.
  intros Ha Hz. unfold handleAddCreditWeb. fields. rewrite Ha, Hz.
  repeat split.
Qed.

(** C3 (where the code departs). With no credit, an adjustment of -5.00
    from the admin panel is accepted (status 200) and leaves Credit at
    -5.00, below zero, in memory and in the store: the addition of
    [handleAddCreditWeb] has no clamp, unlike the debit of a purchase. *)
Theorem handleAddCreditWeb_negative_credit :
  let amount := SFopp (f32_of_int 5) in
  let result := handleAddCreditWeb (Some amount) adminState in
  notNegative (credit (pay adminState)) = true
  /\ fst result = 200
  /\ credit (pay (snd result)) = S754_finite true 10485760 (-21)
  /\ f32_ltb (credit (pay (snd result))) f32_zero = true
  /\ notNegative (credit (pay (snd result))) = false
  /\ nvCredit (preferences (world (snd result))) = credit (pay (snd result)).
Proof. vm_compute. repeat split. Qed.

(** * Further properties of the sketch *)

(** ** Reading fields of the panel *)

Declare Reduction readPanel :=
  cbn [timing keypad input ui slots notify pay dispenseJob relay web world
       with_keypad with_input with_ui with_slots with_notify with_pay
       with_job with_relay with_web with_world
       set_keypadInputBuffer set_lastKeypadInputTime set_selectedSlot
       set_slotSelectedTime set_currentSystemState set_displayNeedsUpdate
       set_lastUserInteractionTime set_slotAvailable set_credit
       set_coinPulseCount set_lastCoinPulseTime set_billAcceptorPulseCount
       set_billEdgeTimes set_active set_expanderOutputStates
       set_lastRelayChangeTime set_notificationFlags set_lastActivityTimeWeb
       set_clock set_billInhibitPin set_wire set_serial set_tft
       set_telegramOutbox set_preferences
       logMessage draw digitalWrite_BILL_INHIBIT millis delay afterError
       resetDisplayToDefault
       COIN_PROCESSING_DELAY BILL_ISR_DEBOUNCE_MS
       BILL_GROUP_PROCESSING_TIMEOUT_MS DISPENSE_RELAY_ON_TIME
       lastPhysicallyPressedKey lastReturnedKey lastKeyPressTime
       keypadInputBuffer lastKeypadInputTime selectedSlot slotSelectedTime
       currentSystemState displayNeedsUpdate lastUserInteractionTime
       slotPrices slotAvailable slotLocked activeSlots
       almostEmptyThreshold almostEmptyNotificationSent emptyNotificationSent
       telegramEnabled telegramNotifyOnSale telegramNotifyAlmostEmpty
       telegramNotifyEmpty telegramBotToken telegramChatId
       credit coinPulseCount lastCoinPulseTime billAcceptorPulseCount
       lastBillPulseEdgeTime lastBillDebounceEdgeTime
       active slot startTime relayActivated
       expanderOutputStates lastRelayChangeTime
       isAuthenticated lastActivityTimeWeb
       nvCredit nvAvail
       clock billInhibitPin wire serial tft telegramOutbox preferences
       offlineMode wifiConnected botDelivers
       machine WEB_TIMEOUT SLOT_SELECTION_TIMEOUT DISPLAY_TIMEOUT savedPassword
       displaySlogan displayFooter otaStatusMessage lastWiFiCheckTime nvPanel
       panelLog panelTft wifiReconnects
       set_machine set_savedPassword set_displayTexts set_otaStatusMessage
       set_lastWiFiCheckTime set_nvPanel set_panelLog set_panelTft
       set_wifiReconnects onMachine logPanel drawPanel nvPut touchWeb
       set_isAuthenticated set_slotPrices set_slotLocked putAvail
       updateDisplayScreen
       frameCredit frameWifi frameContent frameSlogan frameFooter
       fst snd negb andb orb].

Ltac pfields :=
  match goal with
  | |- ?G => let G' := eval readPanel in G in change G'
  end.

Tactic Notation "pfields" "in" hyp(H) :=
  let T := type of H in
  let T' := eval readPanel in T in
  change T' in H.

(** ** Arrays *)

Lemma length_aset_nat {A : Type} (a : list A) :
  forall (i : nat) (v : A), List.length (aset_nat a i v) = List.length a.
Proof.
  induction a as [|x a IH]; intros [|i] v; cbn [aset_nat List.length];
    try reflexivity.
  rewrite IH. reflexivity.
Qed.

Lemma nth_aset_nat_same {A : Type} (d : A) (a : list A) :
  forall (i : nat) (v : A),
    (i < List.length a)%nat -> nth i (aset_nat a i v) d = v.
Proof.
  induction a as [|x a IH]; intros [|i] v H; cbn [List.length] in H;
    cbn [aset_nat nth]; try lia; try reflexivity.
  apply IH. lia.
Qed.

Lemma nth_aset_nat_other {A : Type} (d : A) (a : list A) :
  forall (i j : nat) (v : A), i <> j -> nth j (aset_nat a i v) d = nth j a d.
Proof.
  induction a as [|x a IH]; intros [|i] [|j] v H; cbn [aset_nat nth];
    try reflexivity; try congruence.
  apply IH. congruence.
Qed.

Lemma length_aset {A : Type} (a : list A) (i : Z) (v : A) :
  List.length (aset a i v) = List.length a.
Proof.
  unfold aset. destruct (i <? 0); [reflexivity | apply length_aset_nat].
Qed.

Lemma aget_aset_same {A : Type} (d : A) (a : list A) (i : Z) (v : A) :
  0 <= i < Z.of_nat (List.length a) -> aget d (aset a i v) i = v.
Proof.
  intros H. unfold aget, aset.
  replace (i <? 0) with false by (symmetry; apply Z.ltb_ge; lia).
  apply nth_aset_nat_same. lia.
Qed.

Lemma aget_aset_other {A : Type} (d : A) (a : list A) (i j : Z) (v : A) :
  0 <= j -> i <> j -> aget d (aset a i v) j = aget d a j.
Proof.
  intros Hj Hne. unfold aget, aset.
  destruct (i <? 0) eqn:E; [reflexivity|].
  apply Z.ltb_ge in E. apply nth_aset_nat_other. lia.
Qed.

(** ** The bill channel *)

(** An edge during the first five seconds of the clock, or inside the
    debounce window, leaves the counters alone. *)
Lemma billAcceptorISR_ignored (t : Z) (st : State) :
  t < STARTUP_IGNORE_BILL_TIME
  \/ bouncesAfter (BILL_ISR_DEBOUNCE_MS (timing st))
                  (lastBillDebounceEdgeTime (pay st)) t = true ->
  billAcceptorISR (set_clock t st) = set_clock t st.
Proof.
  intros H. unfold billAcceptorISR. fields.
  destruct (t <? STARTUP_IGNORE_BILL_TIME) eqn:E; [reflexivity|].
  destruct H as [H|H]; [apply Z.ltb_ge in E; lia|].
  unfold bouncesAfter in H. apply negb_true_iff in H. rewrite H. reflexivity.
Qed.

Lemma billAcceptorISR_counted (t : Z) (st : State) :
  STARTUP_IGNORE_BILL_TIME <= t ->
  bouncesAfter (BILL_ISR_DEBOUNCE_MS (timing st))
               (lastBillDebounceEdgeTime (pay st)) t = false ->
  billAcceptorISR (set_clock t st)
  = set_billEdgeTimes t
      (set_billAcceptorPulseCount (ulong (billAcceptorPulseCount (pay st) + 1))
         (set_clock t st)).
Proof.
  intros Ht H. unfold billAcceptorISR. fields.
  apply Z.ltb_ge in Ht. rewrite Ht.
  unfold bouncesAfter in H. apply negb_false_iff in H. rewrite H. reflexivity.
Qed.

Lemma runBill_bounces (ts : list Z) :
  forall (st : State) (t0 : Z),
    lastBillDebounceEdgeTime (pay st) = t0 ->
    (forall t, In t ts ->
               t < STARTUP_IGNORE_BILL_TIME
               \/ bouncesAfter (BILL_ISR_DEBOUNCE_MS (timing st)) t0 t = true) ->
    pay (runBill (map BillEdge ts) st) = pay st
    /\ timing (runBill (map BillEdge ts) st) = timing st.
Proof.
  induction ts as [|t ts IH]; intros st t0 H0 Hall; [split; reflexivity|].
  cbn [map runBill fold_left billStep].
  rewrite billAcceptorISR_ignored
    by (rewrite H0; apply Hall; left; reflexivity).
  change (fold_left billStep (map BillEdge ts) (set_clock t st))
    with (runBill (map BillEdge ts) (set_clock t st)).
  destruct (IH (set_clock t st) t0) as (P & T).
  - exact H0.
  - intros t' Hin. apply Hall. right. exact Hin.
  - rewrite P, T. split; reflexivity.
Qed.

(** X1. A rising edge of the bill line that comes after the start-up
    window and outside the debounce window counts as one pulse; every
    further edge within [BILL_ISR_DEBOUNCE_MS] of it is ignored, however
    many there are, and the next edge after the window counts again.
    Credit is not touched by the ISR. *)
Theorem bill_edge_with_bounces_counts_once
  (st : State) (t0 t1 : Z) (bounces : list Z) :
  let D := BILL_ISR_DEBOUNCE_MS (timing st) in
  let N := billAcceptorPulseCount (pay st) in
  STARTUP_IGNORE_BILL_TIME <= t0 ->
  bouncesAfter D (lastBillDebounceEdgeTime (pay st)) t0 = false ->
  (forall t, In t bounces -> bouncesAfter D t0 t = true) ->
  STARTUP_IGNORE_BILL_TIME <= t1 ->
  bouncesAfter D t0 t1 = false ->
  let st1 := runBill (BillEdge t0 :: map BillEdge bounces) st in
  let st2 := runBill [BillEdge t1] st1 in
  billAcceptorPulseCount (pay st1) = ulong (N + 1)
  /\ lastBillPulseEdgeTime (pay st1) = t0
  /\ lastBillDebounceEdgeTime (pay st1) = t0
  /\ credit (pay st1) = credit (pay st)
  /\ billAcceptorPulseCount (pay st2) = ulong (ulong (N + 1) + 1)
  /\ lastBillPulseEdgeTime (pay st2) = t1.
Proof.
  intros D N H0 Hc Hb H1 Hn. cbv zeta.
  change (runBill (BillEdge t0 :: map BillEdge bounces) st)
    with (runBill (map BillEdge bounces) (billAcceptorISR (set_clock t0 st))).
  rewrite (billAcceptorISR_counted t0 st H0 Hc).
  match goal with
  | |- context [runBill (map BillEdge bounces) ?x] =>
      destruct (runBill_bounces bounces x t0 eq_refl) as (P & T);
      [ intros t Hin; right; exact (Hb t Hin) | set (s1 := x) in * ]
  end.
  assert (E : runBill [BillEdge t1] (runBill (map BillEdge bounces) s1)
              = billAcceptorISR (set_clock t1 (runBill (map BillEdge bounces) s1)))
    by reflexivity.
  rewrite E. rewrite billAcceptorISR_counted.
  - fields. rewrite P. subst s1. fields. repeat split.
  - exact H1.
  - rewrite P, T. subst s1. fields. exact Hn.
Qed.

Lemma bill_edge_with_bounces_counts_once_witness :
  let st1 := runBill [BillEdge 20000; BillEdge 20010; BillEdge 20040;
                      BillEdge 20075] idleState in
  STARTUP_IGNORE_BILL_TIME <= 20000
  /\ bouncesAfter 75 0 20000 = false
  /\ bouncesAfter 75 20000 20076 = false
  /\ billAcceptorPulseCount (pay st1) = 1
  /\ billAcceptorPulseCount (pay (runBill [BillEdge 20076] st1)) = 2.
Proof.
  pose proof (bill_edge_with_bounces_counts_once idleState 20000 20076
                [20010; 20040; 20075]) as H.
  cbv zeta in H.
  assert (H0 : STARTUP_IGNORE_BILL_TIME <= 20000) by (vm_compute; discriminate).
  assert (H1 : STARTUP_IGNORE_BILL_TIME <= 20076) by (vm_compute; discriminate).
  assert (Hb : forall t, In t [20010; 20040; 20075] ->
                         bouncesAfter (BILL_ISR_DEBOUNCE_MS (timing idleState))
                                      20000 t = true).
  { intros t [<-|[<-|[<-|[]]]]; reflexivity. }
  destruct (H H0 eq_refl Hb H1 eq_refl) as (A & _ & _ & _ & B & _).
  cbv zeta. repeat split; try assumption; try reflexivity.
Defined.

(** X2. While the millisecond clock reads less than
    [STARTUP_IGNORE_BILL_TIME] (5000), [billAcceptorISR] ignores every
    edge: counter, edge times and credit stay as they were. *)
Theorem bill_edges_in_first_five_seconds_are_ignored (st : State) (ts : list Z) :
  (forall t, In t ts -> t < STARTUP_IGNORE_BILL_TIME) ->
  pay (runBill (map BillEdge ts) st) = pay st.
Proof.
  intros H.
  destruct (runBill_bounces ts st _ eq_refl) as (P & _); [|exact P].
  intros t Hin. left. exact (H t Hin).
Qed.

Lemma bill_edges_in_first_five_seconds_are_ignored_witness :
  (forall t, In t [100; 2500; 4999] -> t < STARTUP_IGNORE_BILL_TIME)
  /\ billAcceptorPulseCount
       (pay (runBill (map BillEdge [100; 2500; 4999]) idleState)) = 0
  /\ billAcceptorPulseCount (pay (runBill [BillEdge 5000] idleState)) = 1.
Proof.
  assert (H : forall t, In t [100; 2500; 4999] -> t < STARTUP_IGNORE_BILL_TIME).
  { intros t [<-|[<-|[<-|[]]]]; reflexivity. }
  split; [exact H|]. split; [|reflexivity].
  rewrite (bill_edges_in_first_five_seconds_are_ignored idleState _ H).
  reflexivity.
Defined.

(** With nothing pending, a pass of [processBillAcceptorPulses] at most
    drives the inhibit pin LOW. *)
Lemma processBillAcceptorPulses_idle (st : State) :
  billAcceptorPulseCount (pay st) = 0 ->
  processBillAcceptorPulses st = st
  \/ processBillAcceptorPulses st = digitalWrite_BILL_INHIBIT LOW st.
Proof.
  intros H. unfold processBillAcceptorPulses. rewrite H.
  change (0 <? 0) with false. cbn [andb].
  destruct (ulong (millis st - lastRelayChangeTime (relay st)) <? 1000);
    [left; reflexivity|].
  right. rewrite H. reflexivity.
Qed.

Lemma runBill_idle_ticks (ts : list Z) :
  forall st : State,
    billAcceptorPulseCount (pay st) = 0 ->
    pay (runBill (map BillTick ts) st) = pay st
    /\ preferences (world (runBill (map BillTick ts) st)) = preferences (world st)
    /\ serial (world (runBill (map BillTick ts) st)) = serial (world st).
Proof.
  induction ts as [|t ts IH]; intros st H; [repeat split|].
  cbn [map runBill fold_left billStep].
  change (fold_left billStep (map BillTick ts) ?x)
    with (runBill (map BillTick ts) x).
  destruct (processBillAcceptorPulses_idle (set_clock t st) H) as [E|E];
    rewrite E;
    match goal with
    | |- context [runBill _ ?x] => destruct (IH x H) as (P1 & P2 & P3)
    end;
    rewrite P1, P2, P3; repeat split.
Qed.

(** X3. A group of [N] bill pulses that has been quiet for longer than
    the grouping timeout, more than a second after the last relay change,
    is drained in one pass: the counter is zero and the inhibit pin LOW
    afterwards.  Credit grows by 5, 10 or 20 euros for exactly 4, 8 or 16
    pulses and is written to the store; any other count, up to the
    32 bits of the counter, leaves credit and store alone. *)
Theorem bill_group_credits_5_10_or_20_euros (st : State) (t : Z) :
  let N := billAcceptorPulseCount (pay st) in
  let c := credit (pay st) in
  0 < N < 4294967296 ->
  1000 <= ulong (t - lastRelayChangeTime (relay st)) ->
  gapExceeded (BILL_GROUP_PROCESSING_TIMEOUT_MS (timing st))
              (lastBillPulseEdgeTime (pay st)) t = true ->
  let st' := runBill [BillTick t] st in
  billAcceptorPulseCount (pay st') = 0
  /\ billInhibitPin (world st') = LOW
  /\ credit (pay st')
     = (if N =? 4 then creditAddEuros c 5
        else if N =? 8 then creditAddEuros c 10
        else if N =? 16 then creditAddEuros c 20
        else c)
  /\ nvCredit (preferences (world st'))
     = (if (N =? 4) || (N =? 8) || (N =? 16) then credit (pay st')
        else nvCredit (preferences (world st)))
  /\ nvAvail (preferences (world st')) = nvAvail (preferences (world st))
  /\ slots st' = slots st.
Proof.
  intros N c HN Hw Hg. cbv zeta.
  change (runBill [BillTick t] st) with (processBillAcceptorPulses (set_clock t st)).
  unfold processBillAcceptorPulses. fields.
  apply Z.ltb_ge in Hw. rewrite Hw.
  unfold gapExceeded in Hg. rewrite Hg.
  assert (Hp : (0 <? billAcceptorPulseCount (pay st)) = true)
    by (apply Z.ltb_lt; apply HN).
  rewrite Hp. cbn [andb]. fields.
  fold N. fold c.
  assert (Hcase : (1 <= N <= 16) \/ (17 <= N < 2147483648)
                  \/ (2147483648 <= N < 4294967296)) by (subst N; lia).
  destruct Hcase as [Hs|[Hm|Hl]].
  - rewrite (to_int_small N) by lia.
    assert (Hd : N = 1 \/ N = 2 \/ N = 3 \/ N = 4 \/ N = 5 \/ N = 6 \/ N = 7
                 \/ N = 8 \/ N = 9 \/ N = 10 \/ N = 11 \/ N = 12 \/ N = 13
                 \/ N = 14 \/ N = 15 \/ N = 16) by lia.
    repeat (destruct Hd as [Hd|Hd]; [rewrite Hd; repeat split|]).
    rewrite Hd; repeat split.
  - rewrite (to_int_small N) by lia.
    rewrite (ulong_small N) by lia.
    replace (N <? Z.of_nat (Datatypes.length billValues)) with false
      by (symmetry; apply Z.ltb_ge; change (Z.of_nat (Datatypes.length billValues)) with 17; lia).
    rewrite Bool.andb_false_r. fields.
    replace (N =? 4) with false by (symmetry; apply Z.eqb_neq; lia).
    replace (N =? 8) with false by (symmetry; apply Z.eqb_neq; lia).
    replace (N =? 16) with false by (symmetry; apply Z.eqb_neq; lia).
    repeat split.
  - assert (Hneg : to_int N < 0).
    { unfold to_int. change (2 ^ 31) with 2147483648.
      change (2 ^ 32) with 4294967296.
      replace (N + 2147483648) with ((N - 2147483648) + 1 * 4294967296) by lia.
      rewrite Z.mod_add by lia. rewrite Z.mod_small by lia. lia. }
    replace (0 <? to_int N) with false by (symmetry; apply Z.ltb_ge; lia).
    cbn [andb]. fields.
    replace (N =? 4) with false by (symmetry; apply Z.eqb_neq; lia).
    replace (N =? 8) with false by (symmetry; apply Z.eqb_neq; lia).
    replace (N =? 16) with false by (symmetry; apply Z.eqb_neq; lia).
    repeat split.
Qed.

Lemma bill_group_credits_5_10_or_20_euros_witness :
  let st := set_billEdgeTimes 20700
              (set_billAcceptorPulseCount 8 idleState) in
  0 < billAcceptorPulseCount (pay st) < 4294967296
  /\ 1000 <= ulong (22201 - lastRelayChangeTime (relay st))
  /\ gapExceeded 1500 20700 22201 = true
  /\ credit (pay (runBill [BillTick 22201] st)) = f32_of_int 10
  /\ credit (pay (runBill [BillTick 22201]
                    (set_billAcceptorPulseCount 7 st))) = f32_zero.
Proof.
  cbv zeta.
  pose proof (bill_group_credits_5_10_or_20_euros
                (set_billEdgeTimes 20700
                   (set_billAcceptorPulseCount 8 idleState)) 22201) as H.
  cbv zeta in H.
  assert (H1 : 0 < billAcceptorPulseCount
                     (pay (set_billEdgeTimes 20700
                             (set_billAcceptorPulseCount 8 idleState)))
               < 4294967296) by (split; reflexivity).
  assert (H2 : 1000 <= ulong (22201 - lastRelayChangeTime
                                        (relay (set_billEdgeTimes 20700
                                                  (set_billAcceptorPulseCount 8 idleState)))))
    by (vm_compute; discriminate).
  destruct (H H1 H2 eq_refl) as (_ & _ & C & _).
  split; [exact H1|]. split; [exact H2|]. split; [reflexivity|].
  split; [rewrite C; reflexivity | reflexivity].
Defined.

(** X4. Bill pulses found pending less than a second after a relay
    change are logged as noise and dropped: the counter is zeroed, the
    inhibit pin is not driven, and no later pass credits them. *)
Theorem bill_pulses_after_relay_change_are_dropped
  (st : State) (t : Z) (later : list Z) :
  let N := billAcceptorPulseCount (pay st) in
  0 < N ->
  ulong (t - lastRelayChangeTime (relay st)) < 1000 ->
  let st1 := runBill [BillTick t] st in
  let st2 := runBill (map BillTick later) st1 in
  billAcceptorPulseCount (pay st1) = 0
  /\ serial (world st1) = LogBillNoise N :: serial (world st)
  /\ billInhibitPin (world st1) = billInhibitPin (world st)
  /\ credit (pay st2) = credit (pay st)
  /\ billAcceptorPulseCount (pay st2) = 0
  /\ preferences (world st2) = preferences (world st)
  /\ serial (world st2) = serial (world st1).
Proof.
  intros N HN Hw. cbv zeta.
  assert (E : runBill [BillTick t] st
              = set_billAcceptorPulseCount 0
                  (logMessage (LogBillNoise N) (set_clock t st))).
  { change (runBill [BillTick t] st)
      with (processBillAcceptorPulses (set_clock t st)).
    unfold processBillAcceptorPulses. fields.
    apply Z.ltb_lt in Hw. rewrite Hw.
    apply Z.ltb_lt in HN. fold N. rewrite HN. reflexivity. }
  rewrite E.
  match goal with
  | |- context [runBill (map BillTick later) ?x] =>
      destruct (runBill_idle_ticks later x eq_refl) as (P1 & P2 & P3)
  end.
  rewrite P1, P2, P3. fields. repeat split.
Qed.

Lemma bill_pulses_after_relay_change_are_dropped_witness :
  let st := set_lastRelayChangeTime 20000
              (set_billEdgeTimes 20100
                 (set_billAcceptorPulseCount 4 idleState)) in
  0 < billAcceptorPulseCount (pay st)
  /\ ulong (20500 - lastRelayChangeTime (relay st)) < 1000
  /\ credit (pay (runBill (map BillTick [20500; 21000; 22000; 30000]) st))
     = f32_zero
  /\ billAcceptorPulseCount
       (pay (runBill (map BillTick [20500; 21000; 22000; 30000]) st)) = 0.
Proof.
  cbv zeta.
  pose proof (bill_pulses_after_relay_change_are_dropped
                (set_lastRelayChangeTime 20000
                   (set_billEdgeTimes 20100
                      (set_billAcceptorPulseCount 4 idleState)))
                20500 [21000; 22000; 30000]) as H.
  cbv zeta in H.
  assert (H1 : 0 < billAcceptorPulseCount
                     (pay (set_lastRelayChangeTime 20000
                             (set_billEdgeTimes 20100
                                (set_billAcceptorPulseCount 4 idleState)))))
    by reflexivity.
  assert (H2 : ulong (20500 - lastRelayChangeTime
                                (relay (set_lastRelayChangeTime 20000
                                          (set_billEdgeTimes 20100
                                             (set_billAcceptorPulseCount 4 idleState)))))
               < 1000) by reflexivity.
  destruct (H H1 H2) as (_ & _ & _ & C & D & _).
  split; [exact H1|]. split; [exact H2|]. split; [exact C | exact D].
Defined.

(** X5. [processBillAcceptorPulses] drives the inhibit pin from the
    pending pulse count alone.  While a job holds its relay on, a pass
    that comes a second or more after the relay change with no pulse
    pending sets the pin LOW, and the tick of [processDispenseJob] that
    follows before the deadline leaves it LOW with the relay still on. *)
Theorem bill_inhibit_is_released_while_relay_is_held
  (st : State) (errOn errOff : Z) :
  active (dispenseJob st) = true ->
  relayActivated (dispenseJob st) = true ->
  ulong (millis st - startTime (dispenseJob st))
    < DISPENSE_RELAY_ON_TIME (timing st) ->
  1000 <= ulong (millis st - lastRelayChangeTime (relay st)) ->
  billAcceptorPulseCount (pay st) = 0 ->
  let st' := processDispenseJob errOn errOff (processBillAcceptorPulses st) in
  billInhibitPin (world (processBillAcceptorPulses st)) = LOW
  /\ billInhibitPin (world st') = LOW
  /\ active (dispenseJob st') = true
  /\ relayActivated (dispenseJob st') = true
  /\ expanderOutputStates (relay st') = expanderOutputStates (relay st)
  /\ wire (world st') = wire (world st).
Proof.
  intros Ha Hr Hd Hw Hn. cbv zeta.
  assert (E : processBillAcceptorPulses st = digitalWrite_BILL_INHIBIT LOW st).
  { unfold processBillAcceptorPulses. apply Z.ltb_ge in Hw. rewrite Hw.
    rewrite Hn. change (0 <? 0) with false. cbn [andb]. rewrite Hn.
    reflexivity. }
  rewrite E.
  rewrite processDispenseJob_waits_before_deadline.
  - fields. rewrite Ha, Hr. repeat split.
  - exact Ha.
  - exact Hr.
  - exact Hd.
Qed.

Lemma bill_inhibit_is_released_while_relay_is_held_witness :
  active (dispenseJob heldOpenState) = true
  /\ billInhibitPin (world heldOpenState) = HIGH
  /\ billInhibitPin
       (world (processDispenseJob 0 0 (processBillAcceptorPulses heldOpenState)))
     = LOW
  /\ active (dispenseJob
               (processDispenseJob 0 0 (processBillAcceptorPulses heldOpenState)))
     = true.
Proof.
  pose proof (bill_inhibit_is_released_while_relay_is_held heldOpenState 0 0) as H.
  cbv zeta in H.
  assert (H3 : ulong (millis heldOpenState - startTime (dispenseJob heldOpenState))
               < DISPENSE_RELAY_ON_TIME (timing heldOpenState)) by reflexivity.
  assert (H4 : 1000 <= ulong (millis heldOpenState
                              - lastRelayChangeTime (relay heldOpenState)))
    by (vm_compute; discriminate).
  destruct (H eq_refl eq_refl H3 H4 eq_refl) as (_ & A & B & _).
  split; [reflexivity|]. split; [reflexivity|]. split; [exact A | exact B].
Defined.

(** X6. The [*] key clears selection and buffer and returns the display
    to idle; it changes neither credit nor slots, and a dispense job
    that is running goes on: job, relay mask, bus, inhibit pin and store
    are as before. *)
Theorem cancel_key_keeps_credit_and_job (probe : Z) (st : State) :
  let st' := processResolvedKey "*" probe st in
  selectedSlot (input st') = -1
  /\ keypadInputBuffer (input st') = ""%string
  /\ currentSystemState (ui st') = IDLE
  /\ displayNeedsUpdate (ui st') = true
  /\ pay st' = pay st
  /\ slots st' = slots st
  /\ dispenseJob st' = dispenseJob st
  /\ relay st' = relay st
  /\ wire (world st') = wire (world st)
  /\ billInhibitPin (world st') = billInhibitPin (world st)
  /\ preferences (world st') = preferences (world st)
  /\ tft (world st') = tft (world st)
  /\ serial (world st') = LogCancel :: LogKey "*" :: serial (world st).
Proof.
  cbv zeta. unfold processResolvedKey.
  change (isdigit "*") with false. change (Ascii.eqb "*" "#") with false.
  change (Ascii.eqb "*" "*") with true. cbv iota.
  unfold playKeyPressBeep. fields. repeat split.
Qed.

(** [isFinal] is set whenever the buffer holds two characters. *)
Lemma selectionIsFinal_two (buf : string) (n : Z) :
  strlen buf = 2 -> selectionIsFinal buf n = true.
Proof.
  intros H. unfold selectionIsFinal. rewrite H.
  change (2 =? 2) with true. change (2 =? 1) with false. reflexivity.
Qed.

Lemma strlen_nonneg (s : string) : 0 <= strlen s.
Proof. unfold strlen. lia. Qed.

Lemma strlen_bufferAfterDigit (buf : string) (key : ascii) :
  strlen (bufferAfterDigit buf key) = 1 \/ strlen (bufferAfterDigit buf key) = 2.
Proof.
  unfold bufferAfterDigit. rewrite strlen_append_char.
  destruct (2 <=? strlen buf) eqn:E.
  - left. reflexivity.
  - apply Z.leb_gt in E. pose proof (strlen_nonneg buf). lia.
Qed.

Lemma digit_key_leaves_at_most_one (key : ascii) (probe : Z) (st : State) :
  isdigit key = true ->
  strlen (keypadInputBuffer (input (processResolvedKey key probe st))) <= 1.
Proof.
  intros Hd.
  pose proof (strlen_bufferAfterDigit (keypadInputBuffer (input st)) key) as L.
  destruct (Z_le_dec 1 (toInt (bufferAfterDigit (keypadInputBuffer (input st)) key)))
    as [H1|H1];
    [destruct (Z_le_dec (toInt (bufferAfterDigit (keypadInputBuffer (input st)) key))
                        (activeSlots (slots st))) as [H2|H2]|].
  - destruct (press_digit_valid key probe st Hd (conj H1 H2)) as (_ & B & _).
    rewrite B.
    destruct (selectionIsFinal _ _) eqn:F; [change (strlen "") with 0; lia|].
    destruct L as [L|L]; [lia|].
    rewrite (selectionIsFinal_two _ _ L) in F. discriminate.
  - destruct L as [L|L].
    + destruct (processResolvedKey_digit key probe st Hd)
        as (pre & -> & Hb & _ & Hs & _).
      destruct (processKeypadSelection_invalid_one_digit pre) as (I & _).
      * rewrite Hb. exact L.
      * rewrite Hb, Hs. intros [_ C]. contradiction.
      * fields. rewrite I, Hb. unfold bufferAfterDigit in L. lia.
    + destruct (press_digit_invalid_two_digits key probe st Hd L) as (_ & B & _).
      * intros [_ C]. contradiction.
      * rewrite B. change (strlen "") with 0. lia.
  - destruct L as [L|L].
    + destruct (processResolvedKey_digit key probe st Hd)
        as (pre & -> & Hb & _ & Hs & _).
      destruct (processKeypadSelection_invalid_one_digit pre) as (I & _).
      * rewrite Hb. exact L.
      * rewrite Hb. intros [C _]. contradiction.
      * fields. rewrite I, Hb. unfold bufferAfterDigit in L. lia.
    + destruct (press_digit_invalid_two_digits key probe st Hd L) as (_ & B & _).
      * intros [C _]. contradiction.
      * rewrite B. change (strlen "") with 0. lia.
Qed.

(** X7. After any key of the keypad has been processed the input buffer
    holds at most one character, whatever it held before; after [#] and
    [*] it is empty. *)
Theorem keypad_buffer_holds_at_most_one_digit
  (key : ascii) (probe : Z) (st : State) :
  In key (List.concat keys) ->
  let st' := processResolvedKey key probe st in
  strlen (keypadInputBuffer (input st')) <= 1
  /\ (isdigit key = false -> keypadInputBuffer (input st') = ""%string).
Proof.
  intros Hin. cbv zeta.
  assert (Hk : isdigit key = true \/ key = "#"%char \/ key = "*"%char).
  { cbn in Hin.
    repeat (destruct Hin as [<-|Hin]; [auto|]). contradiction. }
  destruct Hk as [Hd|[->| ->]].
  - split; [apply digit_key_leaves_at_most_one; exact Hd|].
    intros C. rewrite Hd in C. discriminate.
  - assert (E : keypadInputBuffer (input (processResolvedKey "#" probe st))
                = ""%string).
    { unfold processResolvedKey.
      change (isdigit "#") with false. change (Ascii.eqb "#" "#") with true.
      cbv iota. fields. reflexivity. }
    rewrite E. split; [change (strlen "") with 0; lia | reflexivity].
  - assert (E : keypadInputBuffer (input (processResolvedKey "*" probe st))
                = ""%string).
    { unfold processResolvedKey.
      change (isdigit "*") with false. change (Ascii.eqb "*" "#") with false.
      change (Ascii.eqb "*" "*") with true.
      cbv iota. fields. reflexivity. }
    rewrite E. split; [change (strlen "") with 0; lia | reflexivity].
Qed.

Lemma keypad_buffer_holds_at_most_one_digit_witness :
  let full := set_keypadInputBuffer "123" idleState in
  In "1"%char (List.concat keys)
  /\ strlen (keypadInputBuffer (input full)) = 3
  /\ strlen (keypadInputBuffer (input (processResolvedKey "1" 0 full))) <= 1.
Proof.
  cbv zeta.
  assert (Hin : In "1"%char (List.concat keys)) by (left; reflexivity).
  pose proof (keypad_buffer_holds_at_most_one_digit "1" 0
                (set_keypadInputBuffer "123" idleState) Hin) as H.
  cbv zeta in H. destruct H as (H & _).
  split; [exact Hin|]. split; [reflexivity | exact H].
Defined.

(** ** The keypad scan *)

(** X8. The scan reports the first key that is down in scan order: rows
    from the top, columns from the left within a row.  A key is reported
    whenever no key in an earlier row and no key to its left in its own
    row is down, whatever else is pressed after it. *)
Theorem scanKeypad_reports_first_key_in_scan_order
  (pins : KeypadPins) (r c : nat) :
  (r < 4)%nat -> (c < 3)%nat ->
  pins r c = true ->
  (forall r' c', (r' < r)%nat -> (c' < 3)%nat -> pins r' c' = false) ->
  (forall c', (c' < c)%nat -> pins r c' = false) ->
  scanKeypad pins = nth c (nth r keys []) NOKEY
  /\ scanKeypad pins <> NOKEY.
Proof.
  intros Hr Hc Hp Hrows Hcols.
  destruct (scanRow_first pins r c Hr Hc Hp Hcols) as (E & NE).
  assert (Hnone : forall r', (r' < r)%nat -> scanRow pins r' = NOKEY).
  { intros r' Hlt. apply scanRow_none. intros c' Hc'. apply Hrows; assumption. }
  assert (Hfound : Ascii.eqb (scanRow pins r) NOKEY = false)
    by (apply Ascii.eqb_neq; exact NE).
  unfold scanKeypad. cbn [KEYPAD_ROWS seq find].
  destruct r as [|[|[|[|r]]]]; [| | | |lia].
  - rewrite Hfound. cbn [negb]. split; assumption.
  - rewrite (Hnone 0%nat) by lia. rewrite Hfound.
    change (Ascii.eqb NOKEY NOKEY) with true. cbn [negb]. split; assumption.
  - rewrite (Hnone 0%nat), (Hnone 1%nat) by lia. rewrite Hfound.
    change (Ascii.eqb NOKEY NOKEY) with true. cbn [negb]. split; assumption.
  - rewrite (Hnone 0%nat), (Hnone 1%nat), (Hnone 2%nat) by lia. rewrite Hfound.
    change (Ascii.eqb NOKEY NOKEY) with true. cbn [negb]. split; assumption.
Qed.

Lemma scanKeypad_reports_first_key_in_scan_order_witness :
  pinsRollover 1%nat 1%nat = true
  /\ pinsRollover 0%nat 2%nat = true
  /\ scanKeypad pinsRollover = "3"%char.
Proof.
  assert (H : scanKeypad pinsRollover = nth 2 (nth 0 keys []) NOKEY
              /\ scanKeypad pinsRollover <> NOKEY).
  { apply (scanKeypad_reports_first_key_in_scan_order pinsRollover 0 2).
    - lia.
    - lia.
    - reflexivity.
    - intros r' c' Hlt. lia.
    - intros c' Hlt. destruct c' as [|[|c']]; [reflexivity | reflexivity | lia]. }
  destruct H as (H & _).
  split; [reflexivity|]. split; [reflexivity | exact H].
Defined.

(** ** Counting the stock *)

Lemma count_fold_split (p q r : Z -> bool) (l : list nat) :
  (forall i, In i l ->
             (if p (Z.of_nat i) then 1 else 0) + (if q (Z.of_nat i) then 1 else 0)
             = (if r (Z.of_nat i) then 1 else 0)) ->
  forall a b : Z,
    fold_left (fun count i => if p (Z.of_nat i) then count + 1 else count) l a
    + fold_left (fun count i => if q (Z.of_nat i) then count + 1 else count) l b
    = fold_left (fun count i => if r (Z.of_nat i) then count + 1 else count) l (a + b).
Proof.
  induction l as [|i l IH]; intros H a b; [reflexivity|].
  cbn [fold_left]. rewrite IH by (intros j Hj; apply H; right; exact Hj).
  f_equal. specialize (H i (or_introl eq_refl)).
  destruct (p (Z.of_nat i)), (q (Z.of_nat i)), (r (Z.of_nat i)); lia.
Qed.

Lemma count_fold_bounds (p : Z -> bool) (l : list nat) :
  forall a : Z,
    a <= fold_left (fun count i => if p (Z.of_nat i) then count + 1 else count) l a
      <= a + Z.of_nat (List.length l).
Proof.
  induction l as [|i l IH]; intros a; cbn [fold_left List.length]; [lia|].
  destruct (p (Z.of_nat i)).
  - specialize (IH (a + 1)). lia.
  - specialize (IH a). lia.
Qed.

Lemma countSlots_bounds (p : Z -> bool) (n : Z) :
  0 <= countSlots p n <= Z.max 0 n.
Proof.
  unfold countSlots.
  pose proof (count_fold_bounds p (seq 0 (Z.to_nat n)) 0) as H.
  rewrite length_seq in H. lia.
Qed.


(** ** The latch of the stock alert *)

Lemma sendTelegramMessage_outbox (m : TelegramMsg) (st : State) :
  telegramOutbox (world (sendTelegramMessage m st))
  = (if telegramReady st then m :: telegramOutbox (world st)
     else telegramOutbox (world st))
  /\ notify (sendTelegramMessage m st) = notify st.
Proof.
  unfold sendTelegramMessage, telegramReady.
  destruct (telegramEnabled (notify st)); cbn [negb andb]; [|split; reflexivity].
  destruct (offlineMode (world st) || negb (wifiConnected (world st)));
    cbn [negb andb]; [split; reflexivity|].
  destruct ((0 <? strlen (telegramBotToken (notify st)))
            && (0 <? strlen (telegramChatId (notify st)))); [|split; reflexivity].
  fields. destruct (botDelivers (world st)); split; reflexivity.
Qed.

(** With the alert latched and the stock inside the band, the check does
    nothing. *)
Lemma stockCheck_latched_in_band (st : State) (sd : SlotData) :
  almostEmptyNotificationSent (notify st) = true ->
  0 < availableIn sd <= almostEmptyThreshold (notify st) ->
  stockCheck st sd = with_slots sd st.
Proof.
  intros Hl Hb.
  unfold stockCheck, checkOverallStockLevel.
  change (countAvailableSlots (with_slots sd st)) with (availableIn sd).
  fields. rewrite Hl. cbn [negb]. rewrite Bool.andb_false_r.
  replace (availableIn sd =? 0) with false by (symmetry; apply Z.eqb_neq; lia).
  rewrite Bool.andb_false_r. cbn [andb].
  replace (almostEmptyThreshold (notify st) <? availableIn sd) with false
    by (symmetry; apply Z.ltb_ge; lia).
  reflexivity.
Qed.

(** X10. The "almost empty" alert is latched by the stock check whether
    or not the message went out: with Telegram off, offline or not
    configured the outbox stays as it was and the latch is set all the
    same, and while the stock stays within (0, threshold] no later check
    sends the alert. *)
Theorem stock_alert_is_latched_without_delivery (st : State) (sd : SlotData) :
  telegramNotifyAlmostEmpty (notify st) = true ->
  almostEmptyNotificationSent (notify st) = false ->
  0 < availableIn sd <= almostEmptyThreshold (notify st) ->
  let st1 := stockCheck st sd in
  almostEmptyNotificationSent (notify st1) = true
  /\ emptyNotificationSent (notify st1) = false
  /\ telegramOutbox (world st1)
     = (if telegramReady st
        then MsgAlmostEmpty (availableIn sd) :: telegramOutbox (world st)
        else telegramOutbox (world st))
  /\ (forall sd2,
        0 < availableIn sd2 <= almostEmptyThreshold (notify st) ->
        stockCheck st1 sd2 = with_slots sd2 st1).
Proof.
  intros Hn Hl Hband. cbv zeta.
  assert (E : stockCheck st sd
              = set_notificationFlags true false
                  (sendTelegramMessage (MsgAlmostEmpty (availableIn sd))
                     (with_slots sd st))).
  { unfold stockCheck, checkOverallStockLevel.
    change (countAvailableSlots (with_slots sd st)) with (availableIn sd).
    fields. rewrite Hn, Hl.
    replace (0 <? availableIn sd) with true by (symmetry; apply Z.ltb_lt; lia).
    replace (availableIn sd <=? almostEmptyThreshold (notify st)) with true
      by (symmetry; apply Z.leb_le; lia).
    reflexivity. }
  rewrite E.
  destruct (sendTelegramMessage_outbox (MsgAlmostEmpty (availableIn sd))
              (with_slots sd st)) as (O & N).
  split; [reflexivity|]. split; [reflexivity|].
  split; [fields; rewrite O; reflexivity|].
  intros sd2 Hb2. apply stockCheck_latched_in_band; [reflexivity|].
  fields. rewrite N. fields. exact Hb2.
Qed.

Lemma stock_alert_is_latched_without_delivery_witness :
  telegramReady idleState = false
  /\ availableIn (stockOf 3) = 3
  /\ almostEmptyNotificationSent (notify (stockCheck idleState (stockOf 3))) = true
  /\ telegramOutbox (world (stockCheck idleState (stockOf 3))) = []
  /\ stockCheck (stockCheck idleState (stockOf 3)) (stockOf 2)
     = with_slots (stockOf 2) (stockCheck idleState (stockOf 3)).
Proof.
  pose proof (stock_alert_is_latched_without_delivery idleState (stockOf 3)) as H.
  cbv zeta in H.
  assert (H3 : 0 < availableIn (stockOf 3) <= almostEmptyThreshold (notify idleState))
    by (split; [reflexivity | vm_compute; discriminate]).
  destruct (H eq_refl eq_refl H3) as (A & _ & B & C).
  assert (H4 : 0 < availableIn (stockOf 2) <= almostEmptyThreshold (notify idleState))
    by (split; [reflexivity | vm_compute; discriminate]).
  split; [reflexivity|]. split; [reflexivity|]. split; [exact A|].
  split; [exact B | exact (C (stockOf 2) H4)].
Defined.

(** ** Requests without a login *)

(** X11. Without a login every handler of the panel that changes the
    machine answers 401 and changes nothing but [lastActivityTimeWeb]
    (the three settings handlers not even that): slots, credit, relays,
    the world, the password and the store are as before. *)
Theorem panel_handlers_refuse_without_login (p : Panel) :
  isAuthenticated (web (machine p)) = false ->
  (forall a, handleChangePasswordWeb a p = (401, touchWeb p))
  /\ (forall a x, handleUpdatePriceWeb a x p = (401, touchWeb p))
  /\ (forall a, handleRefillWeb a p = (401, touchWeb p))
  /\ handleRefillAllWeb p = (401, touchWeb p)
  /\ (forall a e1 e2, handleTriggerRelayWeb a e1 e2 p = (401, touchWeb p))
  /\ (forall err, handleTriggerAllRelaysWeb err p = (401, touchWeb p))
  /\ (forall a, handleToggleSlotLockWeb a p = (401, touchWeb p))
  /\ (forall x, handleAddCreditWeb x (machine p)
                = (401, machine (touchWeb p)))
  /\ handleResetCreditWeb (machine p) = (401, machine (touchWeb p))
  /\ (forall a b c d e f g, handleSaveTimingConfig a b c d e f g p = (401, p))
  /\ (forall a b c d e f g, handleSaveTelegramConfig a b c d e f g p = (401, p))
  /\ (forall a b, handleSaveDisplayConfig a b p = (401, p))
  /\ slots (machine (touchWeb p)) = slots (machine p)
  /\ pay (machine (touchWeb p)) = pay (machine p)
  /\ relay (machine (touchWeb p)) = relay (machine p)
  /\ world (machine (touchWeb p)) = world (machine p)
  /\ savedPassword (touchWeb p) = savedPassword p
  /\ nvPanel (touchWeb p) = nvPanel p.
Proof.
  intros H.
  repeat split; intros;
    unfold handleChangePasswordWeb, handleUpdatePriceWeb, handleRefillWeb,
      handleRefillAllWeb, handleTriggerRelayWeb, handleTriggerAllRelaysWeb,
      handleToggleSlotLockWeb, handleAddCreditWeb, handleResetCreditWeb,
      handleSaveTimingConfig, handleSaveTelegramConfig, handleSaveDisplayConfig;
    pfields; rewrite ?H; reflexivity.
Qed.

Lemma panel_handlers_refuse_without_login_witness :
  isAuthenticated (web (machine idlePanel)) = false
  /\ fst (handleRefillAllWeb idlePanel) = 401
  /\ slots (machine (snd (handleRefillAllWeb idlePanel))) = slots idleState.
Proof.
  destruct (panel_handlers_refuse_without_login idlePanel eq_refl)
    as (_ & _ & _ & E & _).
  rewrite E. repeat split.
Defined.

(** ** Refilling *)

(** The stock check touches the notification flags, the log and the
    outbox, nothing else. *)
Lemma checkOverallStockLevel_frame (st : State) :
  let st' := checkOverallStockLevel st in
  slots st' = slots st /\ pay st' = pay st /\ web st' = web st
  /\ ui st' = ui st /\ input st' = input st /\ relay st' = relay st
  /\ dispenseJob st' = dispenseJob st /\ timing st' = timing st
  /\ preferences (world st') = preferences (world st)
  /\ clock (world st') = clock (world st)
  /\ wire (world st') = wire (world st)
  /\ almostEmptyThreshold (notify st') = almostEmptyThreshold (notify st).
Proof.
  cbv zeta. destruct (checkOverallStockLevel_shape st) as (a & e & l & o & ->).
  fields. repeat split.
Qed.

(** Above the threshold the check clears both latches. *)
Lemma checkOverallStockLevel_high (st : State) :
  0 <= almostEmptyThreshold (notify st) ->
  almostEmptyThreshold (notify st) < countAvailableSlots st ->
  almostEmptyNotificationSent (notify (checkOverallStockLevel st)) = false
  /\ emptyNotificationSent (notify (checkOverallStockLevel st)) = false
  /\ telegramOutbox (world (checkOverallStockLevel st)) = telegramOutbox (world st).
Proof.
  intros H0 H. unfold checkOverallStockLevel.
  replace (countAvailableSlots st <=? almostEmptyThreshold (notify st))
    with false by (symmetry; apply Z.leb_gt; lia).
  rewrite !Bool.andb_false_r. cbn [andb].
  replace (countAvailableSlots st =? 0) with false
    by (symmetry; apply Z.eqb_neq; lia).
  rewrite !Bool.andb_false_r. cbn [andb].
  replace (almostEmptyThreshold (notify st) <? countAvailableSlots st)
    with true by (symmetry; apply Z.ltb_lt; lia).
  destruct (almostEmptyNotificationSent (notify st) || emptyNotificationSent (notify st));
    fields; repeat split.
Qed.

(** X12. A refill request for an active slot is refused (400) when the
    slot is locked.  Otherwise it marks that slot, and no other, as in
    stock, in memory and in the store, leaves credit alone and runs the
    stock check: if the count is above a non-negative threshold
    afterwards both alert latches are cleared and nothing is sent. *)
Theorem handleRefillWeb_restocks_an_unlocked_slot (a : string) (p : Panel) :
  let st := machine p in
  let s := toInt a in
  isAuthenticated (web st) = true ->
  0 <= s < activeSlots (slots st) ->
  s < Z.of_nat (List.length (slotAvailable (slots st))) ->
  let r := handleRefillWeb (Some a) p in
  let st' := machine (snd r) in
  if aget false (slotLocked (slots st)) s then
    fst r = 400 /\ snd r = touchWeb p
  else
    fst r = 200
    /\ aget false (slotAvailable (slots st')) s = true
    /\ (forall j, 0 <= j -> j <> s ->
          aget false (slotAvailable (slots st')) j
          = aget false (slotAvailable (slots st)) j)
    /\ slotLocked (slots st') = slotLocked (slots st)
    /\ slotPrices (slots st') = slotPrices (slots st)
    /\ nvAvail (preferences (world st'))
       = aset (nvAvail (preferences (world st))) s true
    /\ pay st' = pay st
    /\ (0 <= almostEmptyThreshold (notify st) ->
        almostEmptyThreshold (notify st) < countAvailableSlots st' ->
        almostEmptyNotificationSent (notify st') = false
        /\ emptyNotificationSent (notify st') = false
        /\ telegramOutbox (world st') = telegramOutbox (world st)).
Proof.
  intros st s Ha Hs Hlen. cbv zeta. unfold handleRefillWeb. pfields.
  fold st. rewrite Ha. cbn [negb]. fold s.
  replace ((0 <=? s) && (s <? activeSlots (slots st))) with true
    by (symmetry; apply andb_true_iff; rewrite Z.leb_le, Z.ltb_lt; lia).
  destruct (aget false (slotLocked (slots st)) s) eqn:Hl; cbn [negb].
  - split; reflexivity.
  - unfold countAvailableSlots. pfields.
    match goal with
    | |- context [checkOverallStockLevel ?x] =>
        pose proof (checkOverallStockLevel_frame x) as F;
        pose proof (checkOverallStockLevel_high x) as Hi;
        set (st1 := x) in *
    end.
    cbv zeta in F.
    destruct F as (F1 & F2 & _ & _ & _ & _ & _ & _ & F9 & _ & _ & F12).
    rewrite F1, F2, F9.
    unfold countAvailableSlots in Hi. 
    subst st1. pfields. pfields in Hi. fold st. fold st in Hi.
    split; [reflexivity|].
    split; [apply aget_aset_same; lia|].
    split; [intros j Hj Hne; apply aget_aset_other; [lia|congruence]|].
    split; [reflexivity|]. split; [reflexivity|]. split; [reflexivity|].
    split; [reflexivity|].
    intros H0 Hhigh.
    destruct (Hi H0 Hhigh) as (I1 & I2 & I3). repeat split; assumption.
Qed.

Lemma handleRefillWeb_restocks_an_unlocked_slot_witness :
  isAuthenticated (web (machine lowStockPanel)) = true
  /\ toInt "5" = 5
  /\ countAvailableSlots (machine lowStockPanel) = 5
  /\ fst (handleRefillWeb (Some "5"%string) lowStockPanel) = 200
  /\ aget false (slotAvailable
                   (slots (machine (snd (handleRefillWeb (Some "5"%string)
                                                         lowStockPanel))))) 5
     = true
  /\ almostEmptyNotificationSent
       (notify (machine (snd (handleRefillWeb (Some "5"%string) lowStockPanel))))
     = false
  /\ handleRefillWeb (Some "4294967297"%string) lowStockPanel
     = (400, touchWeb lowStockPanel).
Proof.
  pose proof (handleRefillWeb_restocks_an_unlocked_slot "5" lowStockPanel) as H.
  cbv zeta in H.
  assert (H2 : 0 <= toInt "5" < activeSlots (slots (machine lowStockPanel)))
    by (split; [vm_compute; discriminate | reflexivity]).
  assert (H3 : toInt "5"
               < Z.of_nat (List.length (slotAvailable (slots (machine lowStockPanel)))))
    by reflexivity.
  specialize (H eq_refl H2 H3).
  change (aget false (slotLocked (slots (machine lowStockPanel))) (toInt "5"))
    with false in H.
  destruct H as (A & B & _ & _ & _ & _ & _ & C).
  assert (H4 : 0 <= almostEmptyThreshold (notify (machine lowStockPanel)))
    by (vm_compute; discriminate).
  assert (H5 : almostEmptyThreshold (notify (machine lowStockPanel))
               < countAvailableSlots
                   (machine (snd (handleRefillWeb (Some "5"%string) lowStockPanel))))
    by reflexivity.
  destruct (C H4 H5) as (D & _).
  split; [reflexivity|]. split; [reflexivity|]. split; [reflexivity|].
  split; [exact A|]. split; [exact B|]. split; [exact D|].
  reflexivity.
Defined.

(** *** Refilling every slot *)

Lemma refill_prefix (k : nat) :
  forall st : State,
    let st' := fold_left refillUnlocked (seq 0 k) st in
    slotLocked (slots st') = slotLocked (slots st)
    /\ slotPrices (slots st') = slotPrices (slots st)
    /\ activeSlots (slots st') = activeSlots (slots st)
    /\ List.length (slotAvailable (slots st')) = List.length (slotAvailable (slots st))
    /\ pay st' = pay st /\ notify st' = notify st /\ web st' = web st
    /\ ui st' = ui st /\ relay st' = relay st /\ dispenseJob st' = dispenseJob st
    /\ telegramOutbox (world st') = telegramOutbox (world st)
    /\ serial (world st') = serial (world st)
    /\ clock (world st') = clock (world st)
    /\ (forall i, 0 <= i ->
          aget false (slotAvailable (slots st')) i
          = if (i <? Z.of_nat k)
               && (i <? Z.of_nat (List.length (slotAvailable (slots st))))
            then aget false (slotAvailable (slots st)) i
                 || negb (aget false (slotLocked (slots st)) i)
            else aget false (slotAvailable (slots st)) i).
Proof.
  induction k as [|k IH]; intros st.
  - cbn [seq fold_left]. repeat split. intros i Hi.
    replace (i <? Z.of_nat 0) with false by (symmetry; apply Z.ltb_ge; lia).
    reflexivity.
  - cbv zeta. rewrite seq_S, fold_left_app. cbn [Nat.add fold_left].
    specialize (IH st). cbv zeta in IH.
    destruct IH as (L & P & N & Len & Y & Nt & W & U & R & J & O & S1 & C & A).
    set (stk := fold_left refillUnlocked (seq 0 k) st) in *.
    unfold refillUnlocked. rewrite L.
    destruct (aget false (slotLocked (slots st)) (Z.of_nat k)) eqn:Hl; cbn [negb].
    + rewrite ?L, ?P, ?N, ?Len, ?Y, ?Nt, ?W, ?U, ?R, ?J, ?O, ?S1, ?C. repeat split.
      intros i Hi. rewrite (A i Hi).
      destruct (Z.eq_dec i (Z.of_nat k)) as [->|Hne].
      * rewrite Hl. cbn [negb]. rewrite Bool.orb_false_r.
        destruct ((Z.of_nat k <? Z.of_nat k) && _), ((Z.of_nat k <? Z.of_nat (S k)) && _);
          reflexivity.
      * replace (i <? Z.of_nat (S k)) with (i <? Z.of_nat k); [reflexivity|].
        destruct (Z.ltb_spec i (Z.of_nat k)), (Z.ltb_spec i (Z.of_nat (S k)));
          try reflexivity; lia.
    + pfields. rewrite ?L, ?P, ?N, ?Y, ?Nt, ?W, ?U, ?R, ?J, ?O, ?S1, ?C.
      rewrite length_aset, Len. repeat split.
      intros i Hi.
      destruct (Z.eq_dec i (Z.of_nat k)) as [->|Hne].
      * rewrite Hl. cbn [negb]. rewrite Bool.orb_true_r.
        replace (Z.of_nat k <? Z.of_nat (S k)) with true
          by (symmetry; apply Z.ltb_lt; lia).
        cbn [andb].
        destruct (Z.ltb_spec (Z.of_nat k)
                             (Z.of_nat (List.length (slotAvailable (slots st)))))
          as [Hin|Hout].
        -- apply aget_aset_same. rewrite Len. lia.
        -- unfold aget, aset.
           replace (Z.of_nat k <? 0) with false by (symmetry; apply Z.ltb_ge; lia).
           rewrite Nat2Z.id.
           assert (Hlen : (List.length (slotAvailable (slots stk)) <= k)%nat) by lia.
           rewrite nth_overflow by (rewrite length_aset_nat; exact Hlen).
           rewrite nth_overflow by lia. reflexivity.
      * rewrite aget_aset_other by (try lia; congruence).
        rewrite (A i Hi).
        replace (i <? Z.of_nat (S k)) with (i <? Z.of_nat k); [reflexivity|].
        destruct (Z.ltb_spec i (Z.of_nat k)), (Z.ltb_spec i (Z.of_nat (S k)));
          try reflexivity; lia.
Qed.

Lemma count_fold_zero (q : Z -> bool) (l : list nat) :
  (forall i, In i l -> q (Z.of_nat i) = false) ->
  forall a : Z,
    fold_left (fun count i => if q (Z.of_nat i) then count + 1 else count) l a = a.
Proof.
  induction l as [|i l IH]; intros H a; [reflexivity|].
  cbn [fold_left]. rewrite (H i (or_introl eq_refl)).
  apply IH. intros j Hj. apply H. right. exact Hj.
Qed.

(** X13. After "refill all" every unlocked active slot is in stock and
    [countEmptySlots] is zero; locked slots and slots beyond
    [activeSlots] keep their state, and prices and credit are
    untouched. *)
Theorem handleRefillAllWeb_leaves_no_unlocked_slot_empty (p : Panel) :
  let st := machine p in
  let n := activeSlots (slots st) in
  isAuthenticated (web st) = true ->
  n <= Z.of_nat (List.length (slotAvailable (slots st))) ->
  let r := handleRefillAllWeb p in
  let st' := machine (snd r) in
  fst r = 200
  /\ (forall i, 0 <= i < n ->
        aget false (slotAvailable (slots st')) i
        = (aget false (slotAvailable (slots st)) i
           || negb (aget false (slotLocked (slots st)) i)))
  /\ (forall i, n <= i -> 0 <= i ->
        aget false (slotAvailable (slots st')) i
        = aget false (slotAvailable (slots st)) i)
  /\ slotLocked (slots st') = slotLocked (slots st)
  /\ slotPrices (slots st') = slotPrices (slots st)
  /\ countEmptySlots st' = 0
  /\ pay st' = pay st.
Proof.
  intros st n Ha Hn. cbv zeta. unfold handleRefillAllWeb. pfields.
  fold st. rewrite Ha. cbn [negb]. unfold countEmptySlots. pfields. fold st. fold n.
  match goal with
  | |- context [checkOverallStockLevel ?x] =>
      pose proof (checkOverallStockLevel_frame x) as F; set (st1 := x) in *
  end.
  cbv zeta in F. destruct F as (F1 & F2 & _).
  rewrite F1, F2.
  pose proof (refill_prefix (Z.to_nat n)
                (set_lastActivityTimeWeb (millis st) st)) as R.
  cbv zeta in R. fold st1 in R. pfields in R.
  destruct R as (L & P & N & Len & Y & _ & _ & _ & _ & _ & _ & _ & _ & A).
  rewrite L, P, N, Y.
  split; [reflexivity|].
  split.
  { intros i Hi. rewrite (A i) by lia.
    replace (i <? Z.of_nat (Z.to_nat n)) with true by (symmetry; apply Z.ltb_lt; lia).
    replace (i <? Z.of_nat (List.length (slotAvailable (slots st)))) with true
      by (symmetry; apply Z.ltb_lt; lia).
    reflexivity. }
  split.
  { intros i Hi Hi0. rewrite (A i) by lia.
    replace (i <? Z.of_nat (Z.to_nat n)) with false by (symmetry; apply Z.ltb_ge; lia).
    reflexivity. }
  split; [reflexivity|]. split; [reflexivity|].
  split; [|reflexivity].
  unfold countSlots. fold n.
  apply (count_fold_zero
           (fun i => negb (aget false (slotAvailable (slots st1)) i)
                     && negb (aget false (slotLocked (slots st)) i))).
  intros i Hin. apply in_seq in Hin.
  rewrite (A (Z.of_nat i)) by lia.
  replace (Z.of_nat i <? Z.of_nat (Z.to_nat n)) with true
    by (symmetry; apply Z.ltb_lt; lia).
  replace (Z.of_nat i <? Z.of_nat (List.length (slotAvailable (slots st)))) with true
    by (symmetry; apply Z.ltb_lt; lia).
  cbn [andb].
  destruct (aget false (slotAvailable (slots st)) (Z.of_nat i)),
           (aget false (slotLocked (slots st)) (Z.of_nat i)); reflexivity.
Qed.

Lemma handleRefillAllWeb_leaves_no_unlocked_slot_empty_witness :
  isAuthenticated (web (machine lowStockPanel)) = true
  /\ countEmptySlots (machine lowStockPanel) = 11
  /\ fst (handleRefillAllWeb lowStockPanel) = 200
  /\ countEmptySlots (machine (snd (handleRefillAllWeb lowStockPanel))) = 0.
Proof.
  pose proof (handleRefillAllWeb_leaves_no_unlocked_slot_empty lowStockPanel) as H.
  cbv zeta in H.
  assert (H2 : activeSlots (slots (machine lowStockPanel))
               <= Z.of_nat (List.length (slotAvailable (slots (machine lowStockPanel)))))
    by (vm_compute; discriminate).
  destruct (H eq_refl H2) as (A & _ & _ & _ & _ & B & _).
  split; [reflexivity|]. split; [reflexivity|]. split; assumption.
Defined.

(** ** Locking a slot *)

Lemma handleToggleSlotLockWeb_ok (a : string) (p : Panel) :
  isAuthenticated (web (machine p)) = true ->
  0 <= toInt a < activeSlots (slots (machine p)) ->
  handleToggleSlotLockWeb (Some a) p
  = (200,
     let s := toInt a in
     let was := aget false (slotLocked (slots (machine p))) s in
     let now := aget false (aset (slotLocked (slots (machine p))) s (negb was)) s in
     onMachine (set_displayNeedsUpdate true)
       (logPanel (LogWebSlotLock (s + 1) now)
          (nvPut (KeyLocked s) (NvBool now)
             (onMachine
                (fun st => set_slotLocked
                             (aset (slotLocked (slots st)) s
                                   (negb (aget false (slotLocked (slots st)) s))) st)
                (touchWeb p))))).
Proof.
  intros Ha Hs. unfold handleToggleSlotLockWeb. cbv zeta.
  change (isAuthenticated (web (machine (touchWeb p))))
    with (isAuthenticated (web (machine p))).
  rewrite Ha. cbn [negb].
  change (activeSlots (slots (machine (touchWeb p))))
    with (activeSlots (slots (machine p))).
  replace ((0 <=? toInt a) && (toInt a <? activeSlots (slots (machine p))))
    with true
    by (symmetry; apply andb_true_iff; rewrite Z.leb_le, Z.ltb_lt; lia).
  reflexivity.
Qed.

(** X14. Toggling the lock of a slot flips that slot's lock and no
    other; toggling it twice restores every lock.  Both states are
    written to the store, and no stock check is run: availability,
    notification state and outbox are as before. *)
Theorem handleToggleSlotLockWeb_twice_restores_the_lock (a : string) (p : Panel) :
  let st := machine p in
  let s := toInt a in
  isAuthenticated (web st) = true ->
  0 <= s < activeSlots (slots st) ->
  s < Z.of_nat (List.length (slotLocked (slots st))) ->
  let r1 := handleToggleSlotLockWeb (Some a) p in
  let r2 := handleToggleSlotLockWeb (Some a) (snd r1) in
  let st1 := machine (snd r1) in
  let st2 := machine (snd r2) in
  let was := aget false (slotLocked (slots st)) s in
  fst r1 = 200 /\ fst r2 = 200
  /\ aget false (slotLocked (slots st1)) s = negb was
  /\ (forall j, 0 <= j -> j <> s ->
        aget false (slotLocked (slots st1)) j = aget false (slotLocked (slots st)) j)
  /\ (forall j, 0 <= j ->
        aget false (slotLocked (slots st2)) j = aget false (slotLocked (slots st)) j)
  /\ nvPanel (snd r2)
     = (KeyLocked s, NvBool was) :: (KeyLocked s, NvBool (negb was)) :: nvPanel p
  /\ slotAvailable (slots st2) = slotAvailable (slots st)
  /\ notify st2 = notify st
  /\ telegramOutbox (world st2) = telegramOutbox (world st).
Proof.
  intros st s Ha Hs Hlen. cbv zeta.
  rewrite (handleToggleSlotLockWeb_ok a p Ha Hs). cbv zeta. cbn [snd fst].
  rewrite handleToggleSlotLockWeb_ok; [|exact Ha|exact Hs].
  cbv zeta. pfields. fold st. fold s.
  rewrite !(aget_aset_same false (slotLocked (slots st)) s) by lia.
  rewrite !aget_aset_same by (rewrite length_aset; lia).
  rewrite Bool.negb_involutive.
  split; [reflexivity|]. split; [reflexivity|].
  split; [reflexivity|].
  split; [intros j Hj Hne; apply aget_aset_other; [lia|congruence]|].
  split.
  { intros j Hj. destruct (Z.eq_dec j s) as [->|Hne].
    - apply aget_aset_same. rewrite length_aset. lia.
    - rewrite !aget_aset_other by (try lia; congruence). reflexivity. }
  repeat split.
Qed.

Lemma handleToggleSlotLockWeb_twice_restores_the_lock_witness :
  let r1 := handleToggleSlotLockWeb (Some "3"%string) adminPanel in
  let r2 := handleToggleSlotLockWeb (Some "3"%string) (snd r1) in
  isAuthenticated (web (machine adminPanel)) = true
  /\ aget false (slotLocked (slots (machine adminPanel))) 3 = false
  /\ aget false (slotLocked (slots (machine (snd r1)))) 3 = true
  /\ aget false (slotLocked (slots (machine (snd r2)))) 3 = false
  /\ handleToggleSlotLockWeb (Some "4294967299"%string) adminPanel
     = (400, touchWeb adminPanel).
Proof.
  cbv zeta.
  pose proof (handleToggleSlotLockWeb_twice_restores_the_lock "3" adminPanel) as H.
  cbv zeta in H.
  assert (H2 : 0 <= toInt "3" < activeSlots (slots (machine adminPanel)))
    by (split; [vm_compute; discriminate | reflexivity]).
  assert (H3 : toInt "3"
               < Z.of_nat (List.length (slotLocked (slots (machine adminPanel)))))
    by reflexivity.
  destruct (H eq_refl H2 H3) as (_ & _ & A & _ & B & _).
  split; [reflexivity|]. split; [reflexivity|].
  split; [exact A|].
  split; [rewrite (B 3) by (vm_compute; discriminate); reflexivity|].
  reflexivity.
Defined.

(** ** Prices *)

Lemma aset_nat_overflow {A : Type} (a : list A) :
  forall (i : nat) (v : A), (List.length a <= i)%nat -> aset_nat a i v = a.
Proof.
  induction a as [|x a IH]; intros [|i] v H; cbn [List.length] in H;
    cbn [aset_nat]; try reflexivity; try lia.
  rewrite IH by lia. reflexivity.
Qed.

Lemma aget_aset_cases {A : Type} (d : A) (a : list A) (i j : Z) (v : A) :
  aget d (aset a i v) j = v \/ aget d (aset a i v) j = aget d a j.
Proof.
  unfold aget, aset. destruct (i <? 0); [right; reflexivity|].
  destruct (Nat.eq_dec (Z.to_nat i) (Z.to_nat j)) as [E|E].
  - destruct (Nat.lt_ge_cases (Z.to_nat i) (List.length a)) as [L|L].
    + left. rewrite <- E. apply nth_aset_nat_same. exact L.
    + right. rewrite aset_nat_overflow by exact L. reflexivity.
  - right. apply nth_aset_nat_other. exact E.
Qed.

Lemma aget_forallb {A : Type} (f : A -> bool) (d : A) (a : list A) :
  f d = true -> forallb f a = true -> forall i, f (aget d a i) = true.
Proof.
  intros Hd Ha i. unfold aget.
  destruct (nth_in_or_default (Z.to_nat i) a d) as [Hin|E].
  - rewrite forallb_forall in Ha. apply Ha. exact Hin.
  - rewrite E. exact Hd.
Qed.

Lemma validPrice_sign (x : float) :
  validPrice x = true ->
  x <> S754_nan /\ notNegative x = true /\ f32_ltb x f32_zero = false.
Proof.
  destruct x as [[|]|[|]| |[|] m e]; intros H;
    try discriminate H; repeat split; try reflexivity; discriminate.
Qed.

(** X15. [handleUpdatePriceWeb] keeps every price at or above zero: a
    price is stored (status 200) only for an active slot and a value
    that passes [price >= 0], which a negative number and NaN do not;
    any other request leaves prices and store alone.  Credit,
    availability and locks are never touched. *)
Theorem handleUpdatePriceWeb_keeps_prices_valid
  (a : option string) (x : option float) (p : Panel) :
  (forall i, validPrice (aget f32_zero (slotPrices (slots (machine p))) i) = true) ->
  let r := handleUpdatePriceWeb a x p in
  let st' := machine (snd r) in
  (forall i, validPrice (aget f32_zero (slotPrices (slots st')) i) = true)
  /\ (forall i, notNegative (aget f32_zero (slotPrices (slots st')) i) = true
                /\ aget f32_zero (slotPrices (slots st')) i <> S754_nan)
  /\ (fst r = 200 ->
        exists s price,
          a = Some s /\ x = Some price /\ validPrice price = true
          /\ 0 <= toInt s < activeSlots (slots (machine p))
          /\ slotPrices (slots st')
             = aset (slotPrices (slots (machine p))) (toInt s) price
          /\ nvPanel (snd r) = (KeyPrice (toInt s), NvFloat price) :: nvPanel p)
  /\ (fst r <> 200 -> slotPrices (slots st') = slotPrices (slots (machine p))
                      /\ nvPanel (snd r) = nvPanel p)
  /\ pay st' = pay (machine p)
  /\ slotAvailable (slots st') = slotAvailable (slots (machine p))
  /\ slotLocked (slots st') = slotLocked (slots (machine p)).
Proof.
  intros Hv. cbv zeta.
  assert (Main :
    (forall i, validPrice
                 (aget f32_zero
                    (slotPrices (slots (machine (snd (handleUpdatePriceWeb a x p))))) i)
               = true)
    /\ (fst (handleUpdatePriceWeb a x p) = 200 ->
        exists s price,
          a = Some s /\ x = Some price /\ validPrice price = true
          /\ 0 <= toInt s < activeSlots (slots (machine p))
          /\ slotPrices (slots (machine (snd (handleUpdatePriceWeb a x p))))
             = aset (slotPrices (slots (machine p))) (toInt s) price
          /\ nvPanel (snd (handleUpdatePriceWeb a x p))
             = (KeyPrice (toInt s), NvFloat price) :: nvPanel p)
    /\ (fst (handleUpdatePriceWeb a x p) <> 200 ->
        slotPrices (slots (machine (snd (handleUpdatePriceWeb a x p))))
        = slotPrices (slots (machine p))
        /\ nvPanel (snd (handleUpdatePriceWeb a x p)) = nvPanel p)
    /\ pay (machine (snd (handleUpdatePriceWeb a x p))) = pay (machine p)
    /\ slotAvailable (slots (machine (snd (handleUpdatePriceWeb a x p))))
       = slotAvailable (slots (machine p))
    /\ slotLocked (slots (machine (snd (handleUpdatePriceWeb a x p))))
       = slotLocked (slots (machine p))).
  { unfold handleUpdatePriceWeb. pfields.
    destruct (isAuthenticated (web (machine p))); cbn [negb];
      [|pfields; repeat split; try exact Hv; try discriminate; intros C; discriminate C].
    destruct a as [s|]; [destruct x as [price|]|];
      try (pfields; repeat split; try exact Hv; intros C; discriminate C).
    destruct ((0 <=? toInt s) && (toInt s <? activeSlots (slots (machine p)))) eqn:E1;
      cbn [andb];
      [|pfields; repeat split; try exact Hv; intros C; discriminate C].
    destruct (f32_leb (f32_of_int 0) price) eqn:E2;
      [|pfields; repeat split; try exact Hv; intros C; discriminate C].
    pfields. apply andb_true_iff in E1. rewrite Z.leb_le, Z.ltb_lt in E1.
    split.
    { intros i.
      destruct (aget_aset_cases f32_zero (slotPrices (slots (machine p)))
                  (toInt s) i price) as [-> | ->]; [exact E2 | apply Hv]. }
    split.
    { intros _. exists s, price. repeat split; try reflexivity; try exact E2; lia. }
    split; [intros C; contradiction C; reflexivity|].
    repeat split. }
  destruct Main as (M1 & M2 & M3 & M4 & M5 & M6).
  split; [exact M1|].
  split.
  { intros i. destruct (validPrice_sign _ (M1 i)) as (N1 & N2 & _).
    split; assumption. }
  split; [exact M2|]. split; [exact M3|].
  split; [exact M4|]. split; [exact M5 | exact M6].
Qed.

Lemma handleUpdatePriceWeb_keeps_prices_valid_witness :
  (forall i, validPrice
               (aget f32_zero (slotPrices (slots (machine adminPanel))) i) = true)
  /\ fst (handleUpdatePriceWeb (Some "2"%string) (Some (f32_of_int 7)) adminPanel)
     = 200
  /\ fst (handleUpdatePriceWeb (Some "2"%string) (Some (SFopp (f32_of_int 7)))
                               adminPanel) = 400
  /\ fst (handleUpdatePriceWeb (Some "2"%string) (Some S754_nan) adminPanel) = 400
  /\ validPrice
       (aget f32_zero
          (slotPrices
             (slots (machine (snd (handleUpdatePriceWeb (Some "2"%string)
                                     (Some (f32_of_int 7)) adminPanel))))) 2)
     = true.
Proof.
  assert (Hv : forall i,
             validPrice (aget f32_zero (slotPrices (slots (machine adminPanel))) i)
             = true).
  { apply aget_forallb; reflexivity. }
  destruct (handleUpdatePriceWeb_keeps_prices_valid
              (Some "2"%string) (Some (f32_of_int 7)) adminPanel Hv) as (A & _).
  split; [exact Hv|]. split; [reflexivity|]. split; [reflexivity|].
  split; [reflexivity | apply A].
Defined.

(** ** Relay tests *)

(** X16. The relay test of one slot writes the bank byte twice, first
    with the slot's bit set, a second later with it cleared, and leaves
    the slot's bit off in the mirror whatever the bus answered; the
    other relays, credit, slots and the dispense job are untouched.
    When the second write succeeds the time of the last relay change is
    the end of the test. *)
Theorem handleTriggerRelayWeb_pulses_one_relay
  (a : string) (errOn errOff : Z) (p : Panel) :
  let st := machine p in
  let s := toInt a in
  isAuthenticated (web st) = true ->
  0 <= s < activeSlots (slots st) ->
  activeSlots (slots st) <= MAX_SLOTS ->
  let r := handleTriggerRelayWeb (Some a) errOn errOff p in
  let st' := machine (snd r) in
  let mOn := relayMask (expanderOutputStates (relay st)) s true in
  let mOff := relayMask mOn s false in
  fst r = 200
  /\ expanderOutputStates (relay st') = mOff
  /\ Z.testbit mOff s = false
  /\ (forall i, 0 <= i < 16 -> i <> s ->
        Z.testbit mOff i = Z.testbit (expanderOutputStates (relay st)) i)
  /\ wire (world st') = relayWrite mOff s :: relayWrite mOn s :: wire (world st)
  /\ Z.testbit (snd (relayWrite mOn s)) (s mod 8) = true
  /\ Z.testbit (snd (relayWrite mOff s)) (s mod 8) = false
  /\ millis st' = ulong (millis st + 1000)
  /\ pay st' = pay st
  /\ slots st' = slots st
  /\ dispenseJob st' = dispenseJob st
  /\ (errOff = 0 -> lastRelayChangeTime (relay st') = ulong (millis st + 1000)).
Proof.
  intros st s Ha Hs Hmax. cbv zeta.
  assert (Hr : 0 <= s < MAX_SLOTS) by lia.
  assert (Hr16 : 0 <= s < 16) by (unfold MAX_SLOTS in Hr; lia).
  unfold handleTriggerRelayWeb. pfields. fold st. rewrite Ha. cbn [negb]. fold s.
  replace ((0 <=? s) && (s <? activeSlots (slots st))) with true
    by (symmetry; apply andb_true_iff; rewrite Z.leb_le, Z.ltb_lt; lia).
  pfields.
  rewrite (controlSlotRelay_in_range s true errOn _ Hr). cbv zeta.
  assert (Bits :
    Z.testbit (relayMask (relayMask (expanderOutputStates (relay st)) s true) s false) s
    = false
    /\ (forall i, 0 <= i < 16 -> i <> s ->
          Z.testbit (relayMask (relayMask (expanderOutputStates (relay st)) s true)
                               s false) i
          = Z.testbit (expanderOutputStates (relay st)) i)
    /\ Z.testbit (snd (relayWrite (relayMask (expanderOutputStates (relay st)) s true) s))
                 (s mod 8) = true
    /\ Z.testbit (snd (relayWrite
                         (relayMask (relayMask (expanderOutputStates (relay st)) s true)
                                    s false) s)) (s mod 8) = false).
  { split; [apply relayMask_bit; exact Hr16|].
    split.
    { intros i Hi Hne. rewrite !relayMask_other_bits by assumption. reflexivity. }
    rewrite !relayWrite_bit by exact Hr16.
    rewrite !relayMask_bit by exact Hr16. split; reflexivity. }
  destruct Bits as (B1 & B2 & B3 & B4).
  destruct (errOn =? 0); pfields;
    rewrite (controlSlotRelay_in_range s false errOff _ Hr); cbv zeta; pfields;
    fold st;
    (destruct (errOff =? 0) eqn:Eoff; pfields; fold st;
     (split; [reflexivity|]);
     (split; [reflexivity|]);
     (split; [exact B1|]);
     (split; [exact B2|]);
     (split; [reflexivity|]);
     (split; [exact B3|]);
     (split; [exact B4|]);
     (split; [reflexivity|]);
     (split; [reflexivity|]);
     (split; [reflexivity|]);
     (split; [reflexivity|]);
     intros E0; [reflexivity | rewrite E0 in Eoff; discriminate Eoff]).
Qed.

Lemma handleTriggerRelayWeb_pulses_one_relay_witness :
  isAuthenticated (web (machine adminPanel)) = true
  /\ toInt "10" = 10
  /\ fst (handleTriggerRelayWeb (Some "10"%string) 0 0 adminPanel) = 200
  /\ wire (world (machine (snd (handleTriggerRelayWeb (Some "10"%string) 0 0
                                                       adminPanel))))
     = [(3, 0); (3, 4)]
  /\ expanderOutputStates
       (relay (machine (snd (handleTriggerRelayWeb (Some "10"%string) 0 0
                                                    adminPanel)))) = 0
  /\ handleTriggerRelayWeb (Some "8589934594"%string) 0 0 adminPanel
     = (400, touchWeb adminPanel).
Proof.
  pose proof (handleTriggerRelayWeb_pulses_one_relay "10" 0 0 adminPanel) as H.
  cbv zeta in H.
  assert (H2 : 0 <= toInt "10" < activeSlots (slots (machine adminPanel)))
    by (split; [vm_compute; discriminate | reflexivity]).
  assert (H3 : activeSlots (slots (machine adminPanel)) <= MAX_SLOTS)
    by (vm_compute; discriminate).
  destruct (H eq_refl H2 H3) as (A & B & _ & _ & C & _).
  split; [reflexivity|]. split; [reflexivity|]. split; [exact A|].
  split; [rewrite C; reflexivity|]. split; [rewrite B; reflexivity|].
  reflexivity.
Defined.

(** *** Testing every relay *)

Lemma pulse_prefix (err : Z -> bool -> Z) (k : nat) :
  forall st : State,
    (k <= 16)%nat ->
    0 <= millis st < 4294967296 ->
    let st' := fold_left (pulseRelay err) (seq 0 k) st in
    pay st' = pay st /\ slots st' = slots st /\ dispenseJob st' = dispenseJob st
    /\ notify st' = notify st /\ web st' = web st
    /\ preferences (world st') = preferences (world st)
    /\ millis st' = ulong (millis st + 400 * Z.of_nat k)
    /\ List.length (wire (world st')) = (List.length (wire (world st)) + 2 * k)%nat
    /\ (forall i, 0 <= i < 16 ->
          Z.testbit (expanderOutputStates (relay st')) i
          = if i <? Z.of_nat k then false
            else Z.testbit (expanderOutputStates (relay st)) i).
Proof.
  induction k as [|k IH]; intros st Hk Hclock.
  - cbn [seq fold_left].
    do 6 (split; [reflexivity|]).
    split.
    { change (400 * Z.of_nat 0) with 0. rewrite Z.add_0_r.
      symmetry. apply ulong_small. exact Hclock. }
    split; [lia|].
    intros i Hi.
    replace (i <? Z.of_nat 0) with false by (symmetry; apply Z.ltb_ge; lia).
    reflexivity.
  - cbv zeta. rewrite seq_S, fold_left_app. cbn [Nat.add fold_left].
    specialize (IH st ltac:(lia) Hclock). cbv zeta in IH.
    destruct IH as (P & S1 & J & N & W & F & T & L & B).
    set (stk := fold_left (pulseRelay err) (seq 0 k) st) in *.
    assert (Hr : 0 <= Z.of_nat k < MAX_SLOTS) by (unfold MAX_SLOTS; lia).
    assert (Hr16 : 0 <= Z.of_nat k < 16) by lia.
    assert (Bits : forall i, 0 <= i < 16 ->
              Z.testbit (relayMask (relayMask (expanderOutputStates (relay stk))
                                              (Z.of_nat k) true) (Z.of_nat k) false) i
              = if i <? Z.of_nat (S k) then false
                else Z.testbit (expanderOutputStates (relay st)) i).
    { intros i Hi. destruct (Z.eq_dec i (Z.of_nat k)) as [->|Hne].
      - rewrite relayMask_bit by exact Hr16.
        replace (Z.of_nat k <? Z.of_nat (S k)) with true
          by (symmetry; apply Z.ltb_lt; lia).
        reflexivity.
      - rewrite !relayMask_other_bits by assumption. rewrite (B i Hi).
        replace (i <? Z.of_nat (S k)) with (i <? Z.of_nat k); [reflexivity|].
        destruct (Z.ltb_spec i (Z.of_nat k)), (Z.ltb_spec i (Z.of_nat (S k)));
          try reflexivity; lia. }
    assert (Clock : ulong (ulong (millis stk + 300) + 100)
                    = ulong (millis st + 400 * Z.of_nat (S k))).
    { rewrite ulong_add_l, T, <- Z.add_assoc, ulong_add_l. f_equal. lia. }
    unfold pulseRelay. cbv zeta.
    rewrite (controlSlotRelay_in_range (Z.of_nat k) true _ stk Hr). cbv zeta.
    destruct (err (Z.of_nat k) true =? 0); pfields;
      match goal with
      | |- context [controlSlotRelay (Z.of_nat k) false ?e ?x] =>
          rewrite (controlSlotRelay_in_range (Z.of_nat k) false e x Hr)
      end; cbv zeta; pfields;
      (destruct (err (Z.of_nat k) false =? 0); pfields;
       rewrite ?P, ?S1, ?J, ?N, ?W, ?F;
       (split; [reflexivity|]); (split; [reflexivity|]); (split; [reflexivity|]);
       (split; [reflexivity|]); (split; [reflexivity|]); (split; [reflexivity|]);
       (split; [exact Clock|]);
       (split; [cbn [List.length]; rewrite L; lia|]);
       exact Bits).
Qed.

Lemma handleTriggerAllRelaysWeb_ok (err : Z -> bool -> Z) (p : Panel) :
  isAuthenticated (web (machine p)) = true ->
  handleTriggerAllRelaysWeb err p
  = (200,
     set_machine
       (fold_left (pulseRelay err)
                  (seq 0 (Z.to_nat (activeSlots (slots (machine p)))))
                  (set_lastActivityTimeWeb (millis (machine p)) (machine p)))
       (logPanel LogWebTestingAllRelays (touchWeb p))).
Proof.
  intros Ha. unfold handleTriggerAllRelaysWeb. cbv zeta.
  change (isAuthenticated (web (machine (touchWeb p))))
    with (isAuthenticated (web (machine p))).
  rewrite Ha. reflexivity.
Qed.

(** X17. The test of all relays pulses the active slots one after the
    other: afterwards every active slot's bit is off in the mirror, the
    bits of the other slots are unchanged, two bytes per slot were written
    and the clock has moved on by 400 ms per slot.  Credit, slots and the
    dispense job are untouched. *)
Theorem handleTriggerAllRelaysWeb_leaves_every_relay_off
  (err : Z -> bool -> Z) (p : Panel) :
  let st := machine p in
  let n := activeSlots (slots st) in
  isAuthenticated (web st) = true ->
  0 <= n <= MAX_SLOTS ->
  0 <= millis st < 4294967296 ->
  let r := handleTriggerAllRelaysWeb err p in
  let st' := machine (snd r) in
  fst r = 200
  /\ (forall i, 0 <= i < n -> Z.testbit (expanderOutputStates (relay st')) i = false)
  /\ (forall i, n <= i < 16 ->
        Z.testbit (expanderOutputStates (relay st')) i
        = Z.testbit (expanderOutputStates (relay st)) i)
  /\ List.length (wire (world st'))
     = (List.length (wire (world st)) + 2 * Z.to_nat n)%nat
  /\ millis st' = ulong (millis st + 400 * n)
  /\ pay st' = pay st
  /\ slots st' = slots st
  /\ dispenseJob st' = dispenseJob st.
Proof.
  intros st n Ha Hn Hclock. cbv zeta.
  rewrite (handleTriggerAllRelaysWeb_ok err p Ha).
  cbn [fst snd machine set_machine]. fold st. fold n.
  assert (Hk : (Z.to_nat n <= 16)%nat) by (unfold MAX_SLOTS in Hn; lia).
  destruct (pulse_prefix err (Z.to_nat n)
              (set_lastActivityTimeWeb (millis st) st) Hk Hclock)
    as (P & S1 & J & _ & _ & _ & T & L & B).
  rewrite P, S1, J, T, L.
  split; [reflexivity|].
  split.
  { intros i Hi. rewrite B by (unfold MAX_SLOTS in Hn; lia).
    replace (i <? Z.of_nat (Z.to_nat n)) with true
      by (symmetry; apply Z.ltb_lt; lia).
    reflexivity. }
  split.
  { intros i Hi. rewrite B by lia.
    replace (i <? Z.of_nat (Z.to_nat n)) with false
      by (symmetry; apply Z.ltb_ge; lia).
    reflexivity. }
  split; [reflexivity|].
  split; [rewrite Z2Nat.id by lia; reflexivity|].
  repeat split.
Qed.

Lemma handleTriggerAllRelaysWeb_leaves_every_relay_off_witness :
  isAuthenticated (web (machine relaysOnPanel)) = true
  /\ expanderOutputStates (relay (machine relaysOnPanel)) = 4100
  /\ fst (handleTriggerAllRelaysWeb (fun _ _ => 0) relaysOnPanel) = 200
  /\ Z.testbit (expanderOutputStates
                  (relay (machine (snd (handleTriggerAllRelaysWeb (fun _ _ => 0)
                                                                  relaysOnPanel)))))
               12 = false
  /\ millis (machine (snd (handleTriggerAllRelaysWeb (fun _ _ => 0) relaysOnPanel)))
     = 16400.
Proof.
  pose proof (handleTriggerAllRelaysWeb_leaves_every_relay_off
                (fun _ _ => 0) relaysOnPanel) as H.
  cbv zeta in H.
  assert (H2 : 0 <= activeSlots (slots (machine relaysOnPanel)) <= MAX_SLOTS)
    by (split; vm_compute; discriminate).
  assert (H3 : 0 <= millis (machine relaysOnPanel) < 4294967296)
    by (split; [vm_compute; discriminate | reflexivity]).
  destruct (H eq_refl H2 H3) as (A & B & _ & _ & C & _).
  split; [reflexivity|]. split; [reflexivity|]. split; [exact A|].
  split; [apply B; split; [vm_compute; discriminate | reflexivity]|].
  rewrite C. reflexivity.
Defined.

(** ** The password *)

(** X18. A new password of four characters or more is stored and is from
    then on the one password [handleLogin] accepts: logging in with it
    answers 302 and authenticates, any other attempt answers 200 and
    leaves the login state as it was.  A shorter password is refused
    (400) and changes nothing. *)
Theorem password_change_round_trip (pw : string) (p : Panel) :
  isAuthenticated (web (machine p)) = true ->
  4 <= strlen pw ->
  let r := handleChangePasswordWeb (Some pw) p in
  fst r = 200
  /\ savedPassword (snd r) = pw
  /\ nvPanel (snd r) = (KeyPassword, NvString pw) :: nvPanel p
  /\ (forall q, savedPassword q = pw ->
        fst (handleLogin (Some pw) q) = 302
        /\ isAuthenticated (web (machine (snd (handleLogin (Some pw) q)))) = true)
  /\ (forall q attempt, savedPassword q = pw -> attempt <> Some pw ->
        fst (handleLogin attempt q) = 200
        /\ isAuthenticated (web (machine (snd (handleLogin attempt q))))
           = isAuthenticated (web (machine q)))
  /\ (forall short, strlen short < 4 ->
        fst (handleChangePasswordWeb (Some short) p) = 400
        /\ savedPassword (snd (handleChangePasswordWeb (Some short) p))
           = savedPassword p
        /\ nvPanel (snd (handleChangePasswordWeb (Some short) p)) = nvPanel p).
Proof.
  intros Ha Hlen. cbv zeta.
  split; [|split; [|split; [|split; [|split]]]].
  1-3: unfold handleChangePasswordWeb; pfields; rewrite Ha; cbn [negb];
       replace (4 <=? strlen pw) with true by (symmetry; apply Z.leb_le; lia);
       reflexivity.
  - intros q Hq. unfold handleLogin. pfields. rewrite Hq, String.eqb_refl.
    split; reflexivity.
  - intros q attempt Hq Hne. unfold handleLogin. pfields.
    destruct attempt as [at_|]; [|split; reflexivity].
    rewrite Hq. destruct (String.eqb_spec at_ pw) as [->|_].
    + contradiction Hne. reflexivity.
    + split; reflexivity.
  - intros short Hs. unfold handleChangePasswordWeb. pfields. rewrite Ha.
    cbn [negb].
    replace (4 <=? strlen short) with false by (symmetry; apply Z.leb_gt; lia).
    repeat split.
Qed.

Lemma password_change_round_trip_witness :
  let p1 := snd (handleChangePasswordWeb (Some "honig"%string) adminPanel) in
  isAuthenticated (web (machine adminPanel)) = true
  /\ 4 <= strlen "honig"
  /\ savedPassword p1 = "honig"%string
  /\ fst (handleLogin (Some "honig"%string) p1) = 302
  /\ fst (handleLogin (Some "admin"%string) p1) = 200
  /\ fst (handleChangePasswordWeb (Some "abc"%string) adminPanel) = 400.
Proof.
  cbv zeta.
  assert (H2 : 4 <= strlen "honig") by (vm_compute; discriminate).
  destruct (password_change_round_trip "honig" adminPanel eq_refl H2)
    as (_ & A & _ & B & _).
  destruct (B _ A) as (B1 & _).
  split; [reflexivity|]. split; [exact H2|]. split; [exact A|].
  split; [exact B1|]. split; reflexivity.
Defined.

(** ** The notification settings *)

(** X19. Saving the notification settings takes over the seven form
    values, the threshold as [toInt] reads it, and sends nothing; the two
    alert latches are not reset.  An alert latched before, say while
    Telegram was off, is therefore not sent by a later stock check as
    long as the stock stays within (0, new threshold]. *)
Theorem handleSaveTelegramConfig_keeps_the_alert_latches
  (tg_enabled notify_sale notify_almost_empty notify_empty : bool)
  (tg_token tg_chat_id almost_empty_threshold : string) (p : Panel) :
  let st := machine p in
  isAuthenticated (web st) = true ->
  let r := handleSaveTelegramConfig tg_enabled notify_sale notify_almost_empty
             notify_empty tg_token tg_chat_id almost_empty_threshold p in
  let st' := machine (snd r) in
  fst r = 302
  /\ telegramEnabled (notify st') = tg_enabled
  /\ telegramNotifyOnSale (notify st') = notify_sale
  /\ telegramNotifyAlmostEmpty (notify st') = notify_almost_empty
  /\ telegramNotifyEmpty (notify st') = notify_empty
  /\ telegramBotToken (notify st') = tg_token
  /\ telegramChatId (notify st') = tg_chat_id
  /\ almostEmptyThreshold (notify st') = toInt almost_empty_threshold
  /\ almostEmptyNotificationSent (notify st') = almostEmptyNotificationSent (notify st)
  /\ emptyNotificationSent (notify st') = emptyNotificationSent (notify st)
  /\ telegramOutbox (world st') = telegramOutbox (world st)
  /\ slots st' = slots st
  /\ (almostEmptyNotificationSent (notify st) = true ->
      forall sd, 0 < availableIn sd <= toInt almost_empty_threshold ->
                 stockCheck st' sd = with_slots sd st').
Proof.
  intros st Ha. cbv zeta. unfold handleSaveTelegramConfig. fold st.
  rewrite Ha. cbn [negb]. pfields. fold st.
  do 12 (split; [reflexivity|]).
  intros Hl sd Hb. apply stockCheck_latched_in_band; fields; assumption.
Qed.

Lemma handleSaveTelegramConfig_keeps_the_alert_latches_witness :
  let r := handleSaveTelegramConfig true false true true "token" "chat" "5"
                                    latchedPanel in
  isAuthenticated (web (machine latchedPanel)) = true
  /\ telegramReady (machine latchedPanel) = false
  /\ telegramReady (machine (snd r)) = true
  /\ availableIn (stockOf 3) = 3
  /\ telegramOutbox (world (stockCheck (machine (snd r)) (stockOf 3))) = []
  /\ almostEmptyThreshold
       (notify (machine (snd (handleSaveTelegramConfig
                                true false true true "token" "chat" "-4294967293"
                                latchedPanel))))
     = LONG_MIN.
Proof.
  cbv zeta.
  pose proof (handleSaveTelegramConfig_keeps_the_alert_latches
                true false true true "token" "chat" "5" latchedPanel) as H.
  cbv zeta in H.
  destruct (H eq_refl) as (_ & _ & _ & _ & _ & _ & _ & _ & _ & _ & O & _ & L).
  assert (Hb : 0 < availableIn (stockOf 3) <= toInt "5")
    by (split; [reflexivity | vm_compute; discriminate]).
  rewrite (L eq_refl (stockOf 3) Hb).
  split; [reflexivity|]. split; [reflexivity|]. split; [reflexivity|].
  split; [reflexivity|]. split; [exact O | reflexivity].
Defined.

(** ** The timing settings *)

(** X20. Saving the timing settings writes seven values to the store
    and nothing else: the timing values in use are unchanged.  Each
    stored value is the [toInt] of its argument taken as [unsigned
    long], so an empty field is stored as 0, -1 as 4294967295 and a
    number beyond the range of [long] as the end of that range. *)
Theorem handleSaveTimingConfig_changes_only_the_store
  (coin_delay bill_isr_debounce bill_group_timeout disp_time keypad_time
   slot_sel_time disp_timeout : string) (p : Panel) :
  isAuthenticated (web (machine p)) = true ->
  let r := handleSaveTimingConfig coin_delay bill_isr_debounce bill_group_timeout
             disp_time keypad_time slot_sel_time disp_timeout p in
  fst r = 302
  /\ machine (snd r) = machine (touchWeb p)
  /\ timing (machine (snd r)) = timing (machine p)
  /\ DISPLAY_TIMEOUT (snd r) = DISPLAY_TIMEOUT p
  /\ SLOT_SELECTION_TIMEOUT (snd r) = SLOT_SELECTION_TIMEOUT p
  /\ WEB_TIMEOUT (snd r) = WEB_TIMEOUT p
  /\ nvPanel (snd r)
     = (KeyDispTimeout, NvULong (ulong (toInt disp_timeout)))
         :: (KeySlotSelTime, NvULong (ulong (toInt slot_sel_time)))
         :: (KeyKeypadTime, NvULong (ulong (toInt keypad_time)))
         :: (KeyDispTime, NvULong (ulong (toInt disp_time)))
         :: (KeyBillGrpTout, NvULong (ulong (toInt bill_group_timeout)))
         :: (KeyBillIsrDeb, NvULong (ulong (toInt bill_isr_debounce)))
         :: (KeyCoinDelay, NvULong (ulong (toInt coin_delay)))
         :: nvPanel p
  /\ ulong (toInt "") = 0
  /\ ulong (toInt "-1") = 4294967295
  /\ ulong (toInt "3000000000") = 2147483647
  /\ ulong (toInt "-3000000000") = 2147483648.
Proof.
  intros Ha. cbv zeta. unfold handleSaveTimingConfig. rewrite Ha. cbn [negb].
  pfields. repeat split.
Qed.

Lemma handleSaveTimingConfig_changes_only_the_store_witness :
  isAuthenticated (web (machine adminPanel)) = true
  /\ fst (handleSaveTimingConfig "150" "75" "1500" "" "3000" "10000" "-1"
                                 adminPanel) = 302
  /\ timing (machine (snd (handleSaveTimingConfig "150" "75" "1500" "" "3000"
                                                   "10000" "-1" adminPanel)))
     = defaultTiming
  /\ hd_error (nvPanel (snd (handleSaveTimingConfig "150" "75" "1500" "" "3000"
                                                    "10000" "-1" adminPanel)))
     = Some (KeyDispTimeout, NvULong 4294967295)
  /\ hd_error (nvPanel (snd (handleSaveTimingConfig "150" "75" "1500" "" "3000"
                                                    "10000" "4294967295"
                                                    adminPanel)))
     = Some (KeyDispTimeout, NvULong 2147483647).
Proof.
  destruct (handleSaveTimingConfig_changes_only_the_store
              "150" "75" "1500" "" "3000" "10000" "-1" adminPanel eq_refl)
    as (A & _ & B & _ & _ & _ & C & _).
  split; [reflexivity|]. split; [exact A|]. split; [exact B|].
  split; [rewrite C; reflexivity|].
  destruct (handleSaveTimingConfig_changes_only_the_store
              "150" "75" "1500" "" "3000" "10000" "4294967295" adminPanel eq_refl)
    as (_ & _ & _ & _ & _ & _ & C' & _).
  rewrite C'. reflexivity.
Defined.

(** ** The display texts *)

Lemma length_substring_0 (n : nat) :
  forall s : string, String.length (substring 0 n s) = Nat.min n (String.length s).
Proof.
  induction n as [|n IH]; intros [|c s]; cbn [substring String.length Nat.min];
    try reflexivity.
  rewrite IH. reflexivity.
Qed.

Lemma prefix_substring_0 (n : nat) :
  forall s : string, prefix (substring 0 n s) s = true.
Proof.
  induction n as [|n IH]; intros [|c s]; cbn [substring prefix];
    try reflexivity.
  rewrite IH. destruct (ascii_dec c c); [reflexivity | congruence].
Qed.

Lemma prefix_refl (s : string) : prefix s s = true.
Proof.
  induction s as [|c s IH]; cbn [prefix]; [reflexivity|].
  rewrite IH. destruct (ascii_dec c c); [reflexivity | congruence].
Qed.

Lemma truncateTo_spec (n : Z) (s : string) :
  0 <= n ->
  strlen (truncateTo n s) <= n
  /\ prefix (truncateTo n s) s = true
  /\ (strlen s <= n -> truncateTo n s = s)
  /\ strlen (truncateTo n s) = Z.min n (strlen s).
Proof.
  intros Hn. unfold truncateTo, strlen.
  destruct (Z.ltb_spec n (Z.of_nat (String.length s))) as [L|L].
  - rewrite length_substring_0. repeat split; try lia.
    apply prefix_substring_0.
  - repeat split; try lia. apply prefix_refl.
Qed.

(** X21. The display texts are cut to 24 (slogan) and 30 (footer)
    characters: what is kept and stored is a prefix of the argument, of
    the length of the argument or of the limit, whichever is less, and
    an argument within the limit is kept as it is.  The handler asks for
    a redraw and does not refresh [lastActivityTimeWeb]. *)
Theorem handleSaveDisplayConfig_truncates_the_texts
  (slogan footer : string) (p : Panel) :
  isAuthenticated (web (machine p)) = true ->
  let r := handleSaveDisplayConfig slogan footer p in
  fst r = 302
  /\ strlen (displaySlogan (snd r)) = Z.min SLOGAN_MAX_LENGTH (strlen slogan)
  /\ strlen (displayFooter (snd r)) = Z.min 30 (strlen footer)
  /\ prefix (displaySlogan (snd r)) slogan = true
  /\ prefix (displayFooter (snd r)) footer = true
  /\ (strlen slogan <= SLOGAN_MAX_LENGTH -> displaySlogan (snd r) = slogan)
  /\ (strlen footer <= 30 -> displayFooter (snd r) = footer)
  /\ nvPanel (snd r)
     = (KeyDispFooter, NvString (displayFooter (snd r)))
         :: (KeyDispSlogan, NvString (displaySlogan (snd r))) :: nvPanel p
  /\ displayNeedsUpdate (ui (machine (snd r))) = true
  /\ lastActivityTimeWeb (web (machine (snd r)))
     = lastActivityTimeWeb (web (machine p)).
Proof.
  intros Ha. cbv zeta. unfold handleSaveDisplayConfig. rewrite Ha. cbn [negb].
  pfields.
  destruct (truncateTo_spec SLOGAN_MAX_LENGTH slogan) as (S1 & S2 & S3 & S4);
    [unfold SLOGAN_MAX_LENGTH; lia|].
  destruct (truncateTo_spec 30 footer) as (F1 & F2 & F3 & F4); [lia|].
  repeat split; assumption.
Qed.

Lemma handleSaveDisplayConfig_truncates_the_texts_witness :
  let r := handleSaveDisplayConfig "Honig direkt vom Imker aus der Region"
                                   "www.hanimat.at" adminPanel in
  isAuthenticated (web (machine adminPanel)) = true
  /\ strlen "Honig direkt vom Imker aus der Region" = 37
  /\ displaySlogan (snd r) = "Honig direkt vom Imker a"%string
  /\ strlen (displaySlogan (snd r)) = 24
  /\ displayFooter (snd r) = "www.hanimat.at"%string.
Proof.
  cbv zeta.
  destruct (handleSaveDisplayConfig_truncates_the_texts
              "Honig direkt vom Imker aus der Region" "www.hanimat.at"
              adminPanel eq_refl) as (_ & A & _ & _ & _ & _ & B & _).
  split; [reflexivity|]. split; [reflexivity|]. split; [reflexivity|].
  split; [rewrite A; reflexivity|].
  apply B. vm_compute. discriminate.
Defined.

(** ** The screen and the confirm key *)

(** X22. With a slot selected, the buffer empty and no job open, the
    screen and the [#] key agree: when [updateDisplayScreen] shows the
    price with "# Kaufen", [#] hands the slot to [scheduleDispense];
    when it shows "Guthaben?", "Leer" or "Gesperrt", [#] shows an error
    and leaves credit, slots and job alone. *)
Theorem screen_offers_purchase_exactly_when_confirm_buys (probe : Z) (p : Panel) :
  let st := machine p in
  let s := selectedSlot (input st) in
  currentSystemState (ui st) <> ERROR_DISPLAY ->
  active (dispenseJob st) = false ->
  s <> -1 ->
  keypadInputBuffer (input st) = ""%string ->
  let st' := processResolvedKey "#" probe st in
  match frameContent (renderScreen p) with
  | ContentPrice n price true =>
      n = s + 1
      /\ price = aget f32_zero (slotPrices (slots st)) s
      /\ exists st0,
           st' = set_displayNeedsUpdate true
                   (set_keypadInputBuffer "" (scheduleDispense s probe st0))
           /\ pay st0 = pay st /\ slots st0 = slots st
           /\ dispenseJob st0 = dispenseJob st
  | ContentPrice _ _ false | ContentLocked _ | ContentEmpty _ =>
      pay st' = pay st /\ slots st' = slots st /\ dispenseJob st' = dispenseJob st
      /\ exists e, tft (world st') = ScreenError e :: tft (world st)
  | _ => False
  end.
Proof.
  intros st s Hne Hact Hsel Hbuf. cbv zeta.
  pose proof (confirm_key_eligibility probe st Hbuf) as E. cbv zeta in E.
  fold s in E.
  assert (Hs : (s =? -1) = false) by (apply Z.eqb_neq; exact Hsel).
  rewrite Hs in E. cbn [negb andb] in E.
  unfold renderScreen. cbn [frameContent]. fold st. fold s.
  rewrite Hact, Hs. cbn [negb].
  assert (Content :
    (match currentSystemState (ui st) with
     | ERROR_DISPLAY => ContentNone
     | _ =>
         if aget false (slotLocked (slots st)) s then ContentLocked (s + 1)
         else if negb (aget false (slotAvailable (slots st)) s)
              then ContentEmpty (s + 1)
              else ContentPrice (s + 1) (aget f32_zero (slotPrices (slots st)) s)
                     (f32_leb (aget f32_zero (slotPrices (slots st)) s)
                              (credit (pay st)))
     end)
    = (if aget false (slotLocked (slots st)) s then ContentLocked (s + 1)
       else if negb (aget false (slotAvailable (slots st)) s)
            then ContentEmpty (s + 1)
            else ContentPrice (s + 1) (aget f32_zero (slotPrices (slots st)) s)
                   (f32_leb (aget f32_zero (slotPrices (slots st)) s)
                            (credit (pay st))))).
  { destruct (currentSystemState (ui st)); try reflexivity.
    contradiction Hne. reflexivity. }
  rewrite Content. clear Content.
  destruct (aget false (slotLocked (slots st)) s); cbn [negb andb] in E |- *;
    [exact E|].
  destruct (aget false (slotAvailable (slots st)) s); cbn [negb andb] in E |- *;
    [|exact E].
  destruct (f32_leb (aget f32_zero (slotPrices (slots st)) s) (credit (pay st)));
    [|exact E].
  split; [reflexivity|]. split; [reflexivity|].
  destruct E as (st0 & E0 & P & S1 & J & _).
  exists st0. repeat split; assumption.
Qed.

Lemma screen_offers_purchase_exactly_when_confirm_buys_witness :
  frameContent (renderScreen selectedPanel)
  = ContentPrice 4 (aget f32_zero (slotPrices (slots paidState)) 3) false
  /\ credit (pay (processResolvedKey "#" 0 (machine selectedPanel)))
     = f32_of_int 5
  /\ dispenseJob (processResolvedKey "#" 0 (machine selectedPanel))
     = dispenseJob idleState
  /\ frameContent (renderScreen (set_machine (set_selectedSlot 0 paidState) idlePanel))
     = ContentPrice 1 (f32_of_int 5) true
  /\ active (dispenseJob (processResolvedKey "#" 0 (set_selectedSlot 0 paidState)))
     = true.
Proof.
  pose proof (screen_offers_purchase_exactly_when_confirm_buys 0 selectedPanel) as H.
  cbv zeta in H.
  assert (H1 : currentSystemState (ui (machine selectedPanel)) <> ERROR_DISPLAY)
    by discriminate.
  assert (H3 : selectedSlot (input (machine selectedPanel)) <> -1) by discriminate.
  specialize (H H1 eq_refl H3 eq_refl).
  change (frameContent (renderScreen selectedPanel))
    with (ContentPrice 4 (aget f32_zero (slotPrices (slots paidState)) 3) false) in H.
  destruct H as (A & _ & B & _).
  split; [reflexivity|]. split; [rewrite A; reflexivity|]. split; [exact B|].
  split; reflexivity.
Defined.

(** ** The main loop *)

Lemma CurrentSystemState_eqb_eq (a b : CurrentSystemState) :
  CurrentSystemState_eqb a b = true <-> a = b.
Proof. destruct a, b; cbn; split; intros H; try reflexivity; discriminate H. Qed.

(** With nothing pending the four handlers leave the machine alone, but
    for the inhibit pin outside the second after a relay change. *)
Lemma inputs_when_nothing_pending
      (pins : KeypadPins) (probe errOn errOff : Z) (st : State) :
  nothingPending pins st ->
  processDispenseJob errOn errOff
    (processBillAcceptorPulses (processAcceptedCoin (processKeypad pins probe st)))
  = if ulong (millis st - lastRelayChangeTime (relay st)) <? 1000 then st
    else digitalWrite_BILL_INHIBIT LOW st.
Proof.
  intros (Hscan & Hphys & Hcoin & Hbill & Hjob).
  assert (K : processKeypad pins probe st = st).
  { unfold processKeypad, manualGetKeyState. rewrite Hscan.
    unfold debounceKey. rewrite Hphys.
    change (Ascii.eqb NOKEY NOKEY) with true. cbn [negb andb]. reflexivity. }
  rewrite K.
  rewrite processAcceptedCoin_waits by (rewrite Hcoin; reflexivity).
  assert (B : processBillAcceptorPulses st
              = if ulong (millis st - lastRelayChangeTime (relay st)) <? 1000
                then st else digitalWrite_BILL_INHIBIT LOW st).
  { unfold processBillAcceptorPulses. rewrite Hbill.
    change (0 <? 0) with false. cbn [andb]. rewrite Hbill. reflexivity. }
  rewrite B.
  apply processDispenseJob_inactive.
  destruct (ulong (millis st - lastRelayChangeTime (relay st)) <? 1000);
    exact Hjob.
Qed.

Lemma loopInputs_nothing_pending
      (pins : KeypadPins) (probe errOn errOff : Z) (q : Panel) :
  nothingPending pins (machine q) ->
  onMachine (processDispenseJob errOn errOff)
    (onMachine processBillAcceptorPulses
       (onMachine processAcceptedCoin (onMachine (processKeypad pins probe) q)))
  = set_machine
      (if ulong (millis (machine q) - lastRelayChangeTime (relay (machine q)))
          <? 1000
       then machine q else digitalWrite_BILL_INHIBIT LOW (machine q)) q.
Proof.
  intros Hq. unfold onMachine. cbn [machine set_machine].
  rewrite (inputs_when_nothing_pending pins probe errOn errOff (machine q) Hq).
  reflexivity.
Qed.

Lemma loopTimeouts_cases (p : Panel) :
  (loopTimeouts p = p
   /\ (negb (selectedSlot (input (machine p)) =? -1)
       && (SLOT_SELECTION_TIMEOUT p
           <? ulong (millis (machine p) - slotSelectedTime (input (machine p)))))
      = false)
  \/ (exists m, loopTimeouts p = onMachine resetDisplayToDefault (logPanel m p)).
Proof.
  unfold loopTimeouts.
  destruct (DISPLAY_TIMEOUT p
            <? ulong (millis (machine p) - lastUserInteractionTime (ui (machine p)))).
  - destruct (negb (CurrentSystemState_eqb (currentSystemState (ui (machine p))) IDLE)).
    + right. exists LogDisplayTimeout. pfields. reflexivity.
    + destruct (negb (selectedSlot (input (machine p)) =? -1)
                && (SLOT_SELECTION_TIMEOUT p
                    <? ulong (millis (machine p)
                              - slotSelectedTime (input (machine p))))) eqn:E.
      * right. exists LogSelectionTimeout. reflexivity.
      * left. split; reflexivity.
  - destruct (negb (selectedSlot (input (machine p)) =? -1)
              && (SLOT_SELECTION_TIMEOUT p
                  <? ulong (millis (machine p)
                            - slotSelectedTime (input (machine p))))) eqn:E.
    + right. exists LogSelectionTimeout. reflexivity.
    + left. split; reflexivity.
Qed.

(** What a pass over a machine with nothing pending leaves behind. *)
Lemma loop_nothing_pending
      (button : Z -> bool) (pins : KeypadPins) (probe errOn errOff : Z) (p : Panel) :
  let st := machine p in
  button (millis st) = false ->
  currentSystemState (ui st) <> OTA_UPDATE ->
  nothingPending pins st ->
  exists p',
    loop button pins probe errOn errOff p = Running p'
    /\ pay (machine p') = pay st
    /\ slots (machine p') = slots st
    /\ dispenseJob (machine p') = dispenseJob st
    /\ relay (machine p') = relay st
    /\ notify (machine p') = notify st
    /\ millis (machine p') = ulong (millis st + 10)
    /\ isAuthenticated (web (machine p'))
       = isAuthenticated (web st)
         && negb (WEB_TIMEOUT p <? ulong (millis st - lastActivityTimeWeb (web st)))
    /\ savedPassword p' = savedPassword p
    /\ nvPanel p' = nvPanel p
    /\ input (machine p') = input (machine (loopTimeouts p))
    /\ currentSystemState (ui (machine p'))
       = currentSystemState (ui (machine (loopTimeouts p)))
    /\ displayNeedsUpdate (ui (machine p')) = false
    /\ (displayNeedsUpdate (ui (machine (loopTimeouts p))) = true ->
        exists k, panelTft p'
                  = (k, DrawFrame (renderScreen (loopTimeouts p))) :: panelTft p).
Proof.
  intros st Hb Hota Hq. unfold loop. cbv zeta. fold st. rewrite Hb. cbn [andb].
  unfold loopStateMachine. fold st.
  assert (Ho : CurrentSystemState_eqb (currentSystemState (ui st)) OTA_UPDATE = false).
  { destruct (CurrentSystemState_eqb (currentSystemState (ui st)) OTA_UPDATE) eqn:E;
      [|reflexivity].
    apply CurrentSystemState_eqb_eq in E. contradiction. }
  rewrite Ho. cbn [negb]. cbv zeta.
  assert (T : exists q,
             loopTimeouts p = q
             /\ nothingPending pins (machine q)
             /\ pay (machine q) = pay st /\ slots (machine q) = slots st
             /\ dispenseJob (machine q) = dispenseJob st
             /\ relay (machine q) = relay st /\ notify (machine q) = notify st
             /\ web (machine q) = web st /\ world (machine q) = world st
             /\ currentSystemState (ui (machine q)) <> OTA_UPDATE
             /\ savedPassword q = savedPassword p /\ nvPanel q = nvPanel p
             /\ panelTft q = panelTft p /\ WEB_TIMEOUT q = WEB_TIMEOUT p
             /\ displaySlogan q = displaySlogan p
             /\ displayFooter q = displayFooter p).
  { destruct (loopTimeouts_cases p) as [(E & _)|(m & E)]; rewrite E.
    - exists p. repeat split; try assumption; apply Hq.
    - eexists. split; [reflexivity|]. pfields. fold st.
      repeat split; try apply Hq. discriminate. }
  destruct T as (q & Eq & Qq & Qp & Qs & Qj & Qr & Qn & Qw & Qwd & Qo & Qsp & Qnv
                   & Qtft & Qwt & Qsl & Qft).
  rewrite Eq.
  rewrite (loopInputs_nothing_pending pins probe errOn errOff q Qq).
  set (m1 := if ulong (millis (machine q) - lastRelayChangeTime (relay (machine q)))
                <? 1000
             then machine q else digitalWrite_BILL_INHIBIT LOW (machine q)).
  assert (M1 : pay m1 = pay st /\ slots m1 = slots st
               /\ dispenseJob m1 = dispenseJob st /\ relay m1 = relay st
               /\ notify m1 = notify st /\ web m1 = web st
               /\ ui m1 = ui (machine q) /\ input m1 = input (machine q)
               /\ clock (world m1) = clock (world st)
               /\ offlineMode (world m1) = offlineMode (world st)
               /\ wifiConnected (world m1) = wifiConnected (world st)
               /\ tft (world m1) = tft (world st)
               /\ serial (world m1) = serial (world st)).
  { subst m1.
    destruct (ulong (millis (machine q) - lastRelayChangeTime (relay (machine q)))
              <? 1000); fields; rewrite ?Qp, ?Qs, ?Qj, ?Qr, ?Qn, ?Qw, ?Qwd;
      repeat split. }
  destruct M1 as (Mp & Ms & Mj & Mr & Mn & Mw & Mu & Mi & Mc & Mo & Mwf & Mt & Mse).
  clearbody m1.
  (* the auto-logout *)
  unfold loopAutoLogout. cbn [machine set_machine WEB_TIMEOUT].
  unfold millis. rewrite Mw, Mc, Qwt.
  set (expired := WEB_TIMEOUT p
                  <? ulong (clock (world st) - lastActivityTimeWeb (web st))).
  set (p2 := if isAuthenticated (web st) && expired
             then logPanel LogWebAutoLogout
                    (onMachine (set_isAuthenticated false) (set_machine m1 q))
             else set_machine m1 q).
  assert (P2 : pay (machine p2) = pay st /\ slots (machine p2) = slots st
               /\ dispenseJob (machine p2) = dispenseJob st
               /\ relay (machine p2) = relay st /\ notify (machine p2) = notify st
               /\ ui (machine p2) = ui (machine q)
               /\ input (machine p2) = input (machine q)
               /\ world (machine p2) = world m1
               /\ isAuthenticated (web (machine p2))
                  = isAuthenticated (web st) && negb expired
               /\ savedPassword p2 = savedPassword p /\ nvPanel p2 = nvPanel p
               /\ panelTft p2 = panelTft p
               /\ displaySlogan p2 = displaySlogan p
               /\ displayFooter p2 = displayFooter p
               /\ lastWiFiCheckTime p2 = lastWiFiCheckTime q).
  { subst p2. destruct (isAuthenticated (web st)) eqn:Ea; destruct expired;
      cbn [andb negb]; pfields;
      rewrite ?Mp, ?Ms, ?Mj, ?Mr, ?Mn, ?Mw, ?Mu, ?Mi, ?Qsp, ?Qnv, ?Qtft, ?Qsl, ?Qft,
        ?Ea; repeat split. }
  destruct P2 as (Pp & Ps & Pj & Pr & Pn & Pu & Pi & Pw & Pa & Psp & Pnv & Ptft
                    & Psl & Pft & Plw).
  clearbody p2.
  (* the display *)
  unfold loopRefreshDisplay.
  assert (Ho2 : CurrentSystemState_eqb (currentSystemState (ui (machine p2)))
                                       OTA_UPDATE = false).
  { rewrite Pu.
    destruct (CurrentSystemState_eqb (currentSystemState (ui (machine q))) OTA_UPDATE)
      eqn:E; [|reflexivity].
    apply CurrentSystemState_eqb_eq in E. contradiction. }
  rewrite Ho2. cbn [negb]. rewrite Bool.andb_true_r.
  assert (Frame : renderScreen p2 = renderScreen q).
  { unfold renderScreen. rewrite Pp, Ps, Pj, Pu, Pi, Pw, Mo, Mwf, Qp, Qs, Qj, Qwd,
      Psl, Pft, Qsl, Qft. reflexivity. }
  set (p3 := if displayNeedsUpdate (ui (machine p2))
             then onMachine (set_displayNeedsUpdate false) (updateDisplayScreen p2)
             else p2).
  assert (P3 : pay (machine p3) = pay st /\ slots (machine p3) = slots st
               /\ dispenseJob (machine p3) = dispenseJob st
               /\ relay (machine p3) = relay st /\ notify (machine p3) = notify st
               /\ input (machine p3) = input (machine q)
               /\ currentSystemState (ui (machine p3))
                  = currentSystemState (ui (machine q))
               /\ displayNeedsUpdate (ui (machine p3)) = false
               /\ world (machine p3) = world m1
               /\ web (machine p3) = web (machine p2)
               /\ savedPassword p3 = savedPassword p /\ nvPanel p3 = nvPanel p
               /\ (displayNeedsUpdate (ui (machine q)) = true ->
                   exists k, panelTft p3 = (k, DrawFrame (renderScreen q)) :: panelTft p)).
  { subst p3. destruct (displayNeedsUpdate (ui (machine p2))) eqn:Ed.
    - pfields. rewrite Pp, Ps, Pj, Pr, Pn, Pi, Pu, Pw, Psp, Pnv, Ptft, Frame.
      repeat split. intros _. eexists. reflexivity.
    - rewrite Pp, Ps, Pj, Pr, Pn, Pi, Pu, Pw, Psp, Pnv.
      repeat split; try assumption.
      + rewrite <- Pu. exact Ed.
      + intros C. rewrite <- Pu, Ed in C. discriminate C. }
  destruct P3 as (Rp & Rs & Rj & Rr & Rn & Ri & Rst & Rd & Rw & Rweb & Rsp & Rnv & Rt).
  clearbody p3.
  (* the WiFi check *)
  set (p4 := loopWiFiCheck p3).
  assert (P4 : machine p4 = machine p3 /\ savedPassword p4 = savedPassword p3
               /\ nvPanel p4 = nvPanel p3 /\ panelTft p4 = panelTft p3).
  { subst p4. unfold loopWiFiCheck.
    destruct (negb (offlineMode (world (machine p3)))
              && (30000 <? ulong (millis (machine p3) - lastWiFiCheckTime p3)));
      [|repeat split].
    cbv zeta. pfields. destruct (wifiConnected (world (machine p3)));
      pfields; repeat split. }
  destruct P4 as (Wm & Wsp & Wnv & Wt). clearbody p4.
  eexists. split; [reflexivity|]. pfields.
  rewrite ?Wm, ?Wsp, ?Wnv, ?Wt. unfold millis.
  rewrite Rp, Rs, Rj, Rr, Rn, Ri, Rst, Rd, Rw, Rweb, Rsp, Rnv, Mc, Pa.
  subst expired.
  repeat split. exact Rt.
Qed.

(** X23. A pass of [loop] over a machine with nothing pending drops a
    selection older than [SLOT_SELECTION_TIMEOUT]: selection and buffer
    are cleared, the state is IDLE, the idle screen is drawn once and
    [displayNeedsUpdate] is false again; credit, slots and job are
    untouched. *)
Theorem loop_drops_a_stale_selection
  (button : Z -> bool) (pins : KeypadPins) (probe errOn errOff : Z) (p : Panel) :
  let st := machine p in
  button (millis st) = false ->
  currentSystemState (ui st) <> OTA_UPDATE ->
  nothingPending pins st ->
  selectedSlot (input st) <> -1 ->
  SLOT_SELECTION_TIMEOUT p < ulong (millis st - slotSelectedTime (input st)) ->
  exists p' k f,
    loop button pins probe errOn errOff p = Running p'
    /\ selectedSlot (input (machine p')) = -1
    /\ keypadInputBuffer (input (machine p')) = ""%string
    /\ currentSystemState (ui (machine p')) = IDLE
    /\ displayNeedsUpdate (ui (machine p')) = false
    /\ panelTft p' = (k, DrawFrame f) :: panelTft p
    /\ frameContent f = ContentIdle (activeSlots (slots st))
    /\ frameCredit f = credit (pay st)
    /\ pay (machine p') = pay st
    /\ slots (machine p') = slots st
    /\ dispenseJob (machine p') = dispenseJob st.
Proof.
  intros st Hb Hota Hq Hsel Hstale.
  destruct (loop_nothing_pending button pins probe errOn errOff p Hb Hota Hq)
    as (p' & E & Pp & Ps & Pj & _ & _ & _ & _ & _ & _ & Pi & Pst & Pd & Pt).
  fold st in Pp, Ps, Pj.
  destruct (loopTimeouts_cases p) as [(_ & C)|(m & T)].
  { fold st in C.
    replace (selectedSlot (input st) =? -1) with false in C
      by (symmetry; apply Z.eqb_neq; exact Hsel).
    replace (SLOT_SELECTION_TIMEOUT p
             <? ulong (millis st - slotSelectedTime (input st))) with true in C
      by (symmetry; apply Z.ltb_lt; exact Hstale).
    discriminate C. }
  rewrite T in Pi, Pst, Pt. pfields in Pi. pfields in Pst.
  destruct (Pt eq_refl) as (k & Et).
  exists p', k, (renderScreen (onMachine resetDisplayToDefault (logPanel m p))).
  split; [exact E|].
  rewrite Pi, Pst. cbn [selectedSlot keypadInputBuffer].
  do 4 (split; [first [reflexivity | exact Pd]|]).
  split; [exact Et|].
  destruct Hq as (_ & _ & _ & _ & Hj).
  unfold renderScreen. pfields. fold st. rewrite Hj.
  repeat split; assumption.
Qed.

Lemma loop_drops_a_stale_selection_witness :
  selectedSlot (input (machine stalePanel)) = 3
  /\ SLOT_SELECTION_TIMEOUT stalePanel
     < ulong (millis (machine stalePanel)
              - slotSelectedTime (input (machine stalePanel)))
  /\ exists p', loop (fun _ => false) pinsUp 0 0 0 stalePanel = Running p'
                /\ selectedSlot (input (machine p')) = -1
                /\ credit (pay (machine p')) = f32_of_int 5.
Proof.
  assert (H2 : currentSystemState (ui (machine stalePanel)) <> OTA_UPDATE)
    by discriminate.
  assert (H3 : nothingPending pinsUp (machine stalePanel))
    by (repeat split).
  assert (H4 : selectedSlot (input (machine stalePanel)) <> -1) by discriminate.
  assert (H5 : SLOT_SELECTION_TIMEOUT stalePanel
               < ulong (millis (machine stalePanel)
                        - slotSelectedTime (input (machine stalePanel))))
    by reflexivity.
  destruct (loop_drops_a_stale_selection (fun _ => false) pinsUp 0 0 0 stalePanel
              eq_refl H2 H3 H4 H5)
    as (p' & k & f & E & A & _ & _ & _ & _ & _ & _ & B & _).
  split; [reflexivity|]. split; [exact H5|].
  exists p'. split; [exact E|]. split; [exact A|].
  rewrite B. reflexivity.
Defined.

(** X24. A pass of [loop] over a machine with nothing pending ends the
    admin session exactly when more than [WEB_TIMEOUT] has passed since
    the last request: from then on the handlers answer 401.  Credit,
    slots and the password are untouched. *)
Theorem loop_logs_the_admin_out_after_the_timeout
  (button : Z -> bool) (pins : KeypadPins) (probe errOn errOff : Z) (p : Panel) :
  let st := machine p in
  button (millis st) = false ->
  currentSystemState (ui st) <> OTA_UPDATE ->
  nothingPending pins st ->
  isAuthenticated (web st) = true ->
  exists p',
    loop button pins probe errOn errOff p = Running p'
    /\ isAuthenticated (web (machine p'))
       = negb (WEB_TIMEOUT p <? ulong (millis st - lastActivityTimeWeb (web st)))
    /\ (WEB_TIMEOUT p < ulong (millis st - lastActivityTimeWeb (web st)) ->
        (forall x, fst (handleAddCreditWeb x (machine p')) = 401)
        /\ fst (handleResetCreditWeb (machine p')) = 401
        /\ (forall a, fst (handleRefillWeb a p') = 401)
        /\ (forall a, fst (handleChangePasswordWeb a p') = 401))
    /\ pay (machine p') = pay st
    /\ slots (machine p') = slots st
    /\ savedPassword p' = savedPassword p.
Proof.
  intros st Hb Hota Hq Ha.
  destruct (loop_nothing_pending button pins probe errOn errOff p Hb Hota Hq)
    as (p' & E & Pp & Ps & _ & _ & _ & _ & Pa & Psp & _).
  fold st in Pp, Ps, Pa. rewrite Ha in Pa. cbn [andb] in Pa.
  exists p'. split; [exact E|]. split; [exact Pa|].
  split.
  { intros Hx. apply Z.ltb_lt in Hx. rewrite Hx in Pa. cbn [negb] in Pa.
    repeat split; intros;
      unfold handleAddCreditWeb, handleResetCreditWeb, handleRefillWeb,
        handleChangePasswordWeb; pfields; rewrite Pa; reflexivity. }
  repeat split; assumption.
Qed.

Lemma loop_logs_the_admin_out_after_the_timeout_witness :
  isAuthenticated (web (machine forgottenPanel)) = true
  /\ fst (handleResetCreditWeb (machine forgottenPanel)) = 200
  /\ exists p', loop (fun _ => false) pinsUp 0 0 0 forgottenPanel = Running p'
                /\ isAuthenticated (web (machine p')) = false
                /\ fst (handleResetCreditWeb (machine p')) = 401.
Proof.
  assert (H2 : currentSystemState (ui (machine forgottenPanel)) <> OTA_UPDATE)
    by discriminate.
  assert (H3 : nothingPending pinsUp (machine forgottenPanel))
    by (repeat split).
  destruct (loop_logs_the_admin_out_after_the_timeout (fun _ => false) pinsUp
              0 0 0 forgottenPanel eq_refl H2 H3 eq_refl)
    as (p' & E & A & B & _).
  assert (H5 : WEB_TIMEOUT forgottenPanel
               < ulong (millis (machine forgottenPanel)
                        - lastActivityTimeWeb (web (machine forgottenPanel))))
    by reflexivity.
  destruct (B H5) as (_ & C & _).
  split; [reflexivity|]. split; [reflexivity|].
  exists p'. split; [exact E|]. split; [exact A | exact C].
Defined.

Arguments holdResetButton : simpl never.

(** ** The reset button *)

Lemma holdResetButton_S (n : nat) (button : Z -> bool) (t0 : Z) (st : State) :
  holdResetButton (S n) button t0 st =
  if button (millis st) then
    if 7000 <=? ulong (millis st - t0) then st
    else holdResetButton n button t0 (delay 10 st)
  else st.
Proof. reflexivity. Qed.

Lemma elapsed_polls (t0 k : Z) :
  0 <= k <= 700 -> ulong (ulong (t0 + 10 * k) - t0) = 10 * k.
Proof.
  intros Hk. rewrite ulong_sub_l.
  replace (t0 + 10 * k - t0) with (10 * k) by lia.
  apply ulong_small. lia.
Qed.

(** The polling loop stops at the first poll that reads HIGH, or at the
    poll seven seconds after the first; 701 rounds are enough for it. *)
Lemma holdResetButton_polls (button : Z -> bool) (t0 k0 : Z) (n : nat) :
  forall (k : Z) (st : State),
    0 <= k <= k0 -> k0 <= 700 ->
    k + Z.of_nat n = 701 ->
    millis st = ulong (t0 + 10 * k) ->
    (forall j, k <= j < k0 -> button (ulong (t0 + 10 * j)) = true) ->
    (k0 < 700 -> button (ulong (t0 + 10 * k0)) = false) ->
    holdResetButton n button t0 st = set_clock (ulong (t0 + 10 * k0)) st.
Proof.
  induction n as [|n IH]; intros k st Hk Hk0 Hn Hm Hheld Hrel; [lia|].
  rewrite holdResetButton_S.
  destruct (Z.eq_dec k k0) as [->|Hne].
  - rewrite <- Hm, set_clock_millis.
    destruct (Z_lt_dec k0 700) as [Hlt|Hge].
    + rewrite Hm, (Hrel Hlt). reflexivity.
    + assert (k0 = 700) by lia. subst k0.
      destruct (button (millis st)); [|reflexivity].
      rewrite Hm, elapsed_polls by lia. reflexivity.
  - rewrite Hm. rewrite (Hheld k) by lia.
    rewrite elapsed_polls by lia.
    replace (7000 <=? 10 * k) with false by (symmetry; apply Z.leb_gt; lia).
    rewrite (IH (k + 1)); try lia.
    + reflexivity.
    + change (millis (delay 10 st)) with (ulong (millis st + 10)).
      rewrite Hm, ulong_add_l. f_equal. lia.
    + intros j Hj. apply Hheld. lia.
    + exact Hrel.
Qed.

(** X25. The factory reset needs the button held through seven seconds
    of polling: [k0] is the number of polls, 10 ms apart, that read the
    button LOW from the start of the pass.  Fewer than 700 and the pass
    goes on as usual; 700 and it logs and draws the reset, waits three
    more seconds and restarts, with credit and slots untouched up to
    there. *)
Theorem loop_resets_only_after_seven_seconds
  (button : Z -> bool) (pins : KeypadPins) (probe errOn errOff : Z) (p : Panel)
  (k0 : Z) :
  let t0 := millis (machine p) in
  0 <= t0 < 4294967296 ->
  0 <= k0 <= 700 ->
  (forall j, 0 <= j < k0 -> button (ulong (t0 + 10 * j)) = true) ->
  (k0 < 700 -> button (ulong (t0 + 10 * k0)) = false) ->
  let r := loop button pins probe errOn errOff p in
  if k0 <? 700 then exists p', r = Running p'
  else
    exists p' k k1 k2,
      r = Restarting p'
      /\ millis (machine p') = ulong (t0 + 10000)
      /\ panelTft p' = (k, DrawFactoryReset) :: panelTft p
      /\ panelLog p'
         = (k2, LogFactoryResetComplete) :: (k1, LogFactoryReset) :: panelLog p
      /\ pay (machine p') = pay (machine p)
      /\ slots (machine p') = slots (machine p).
Proof.
  intros t0 Ht Hk Hheld Hrel. cbv zeta.
  assert (T0 : ulong (t0 + 10 * 0) = t0)
    by (rewrite Z.mul_0_r, Z.add_0_r; apply ulong_small; exact Ht).
  destruct (Z.eq_dec k0 0) as [->|Hpos].
  { (* not pressed *)
    change (0 <? 700) with true.
    assert (Hb : button t0 = false) by (rewrite <- T0; apply Hrel; lia).
    unfold loop. cbv zeta. fold t0. rewrite Hb. cbn [andb].
    eexists. reflexivity. }
  assert (Hb : button t0 = true) by (rewrite <- T0; apply Hheld; lia).
  assert (Hold : holdResetButton 701 button t0 (machine p)
                 = set_clock (ulong (t0 + 10 * k0)) (machine p)).
  { apply (holdResetButton_polls button t0 k0 701 0 (machine p));
      [lia | lia | lia | fold t0; symmetry; exact T0
       | intros j Hj; apply Hheld; lia | exact Hrel]. }
  assert (Ep : onMachine (holdResetButton 701 button t0) p
               = set_machine (set_clock (ulong (t0 + 10 * k0)) (machine p)) p)
    by (unfold onMachine; rewrite Hold; reflexivity).
  unfold loop. cbv zeta. fold t0. rewrite Hb. cbn [andb]. rewrite Ep.
  change (millis (machine (set_machine (set_clock (ulong (t0 + 10 * k0)) (machine p))
                                       p)))
    with (ulong (t0 + 10 * k0)).
  rewrite elapsed_polls by lia.
  destruct (Z.ltb_spec k0 700) as [Hlt|Hge].
  - replace (7000 <=? 10 * k0) with false by (symmetry; apply Z.leb_gt; lia).
    eexists. reflexivity.
  - replace (7000 <=? 10 * k0) with true by (symmetry; apply Z.leb_le; lia).
    do 4 eexists. split; [reflexivity|]. pfields.
    assert (k0 = 700) by lia. subst k0.
    split; [rewrite ulong_add_l; f_equal; lia|].
    repeat split.
Qed.

Lemma loop_resets_only_after_seven_seconds_witness :
  let held := fun t => t <? 17000 in
  let tapped := fun t => t <? 12000 in
  (exists p', loop held pinsUp 0 0 0 idlePanel = Restarting p'
              /\ millis (machine p') = 20000)
  /\ (exists p', loop tapped pinsUp 0 0 0 idlePanel = Running p').
Proof.
  cbv zeta. split.
  - pose proof (loop_resets_only_after_seven_seconds
                  (fun t => t <? 17000) pinsUp 0 0 0 idlePanel 700) as H.
    cbv zeta in H.
    assert (H1 : 0 <= millis (machine idlePanel) < 4294967296)
      by (split; [vm_compute; discriminate | reflexivity]).
    assert (H2 : 0 <= 700 <= 700) by lia.
    assert (H3 : forall j, 0 <= j < 700 ->
                   (ulong (millis (machine idlePanel) + 10 * j) <? 17000) = true).
    { intros j Hj. change (millis (machine idlePanel)) with 10000.
      rewrite ulong_small by lia. apply Z.ltb_lt. lia. }
    assert (H4 : 700 < 700 ->
                 (ulong (millis (machine idlePanel) + 10 * 700) <? 17000) = false)
      by lia.
    specialize (H H1 H2 H3 H4). change (700 <? 700) with false in H.
    destruct H as (p' & k & k1 & k2 & E & M & _).
    exists p'. split; [exact E | exact M].
  - pose proof (loop_resets_only_after_seven_seconds
                  (fun t => t <? 12000) pinsUp 0 0 0 idlePanel 200) as H.
    cbv zeta in H.
    assert (H1 : 0 <= millis (machine idlePanel) < 4294967296)
      by (split; [vm_compute; discriminate | reflexivity]).
    assert (H2 : 0 <= 200 <= 700) by lia.
    assert (H3 : forall j, 0 <= j < 200 ->
                   (ulong (millis (machine idlePanel) + 10 * j) <? 12000) = true).
    { intros j Hj. change (millis (machine idlePanel)) with 10000.
      rewrite ulong_small by lia. apply Z.ltb_lt. lia. }
    assert (H4 : 200 < 700 ->
                 (ulong (millis (machine idlePanel) + 10 * 200) <? 12000) = false)
      by (intros _; reflexivity).
    specialize (H H1 H2 H3 H4). change (200 <? 700) with true in H.
    exact H.
Defined.

(** ** The log ring *)

Lemma string_app_assoc (a b c : string) :
  ((a ++ b) ++ c = a ++ b ++ c)%string.
Proof.
  induction a as [|x a IH]; cbn [append]; [reflexivity|].
  rewrite IH. reflexivity.
Qed.

Lemma string_app_nil_r (a : string) : (a ++ "" = a)%string.
Proof.
  induction a as [|x a IH]; cbn [append]; [reflexivity|].
  rewrite IH. reflexivity.
Qed.

Lemma length_rotate {A : Type} (i : nat) (l : list A) :
  List.length (rotate i l) = List.length l.
Proof.
  unfold rotate. rewrite length_app, length_skipn, length_firstn. lia.
Qed.

Lemma nth_rotate {A : Type} (d : A) (l : list A) (idx i : nat) :
  (idx <= List.length l)%nat -> (i < List.length l)%nat ->
  nth i (rotate idx l) d
  = if (i <? List.length l - idx)%nat then nth (idx + i) l d
    else nth (idx + i - List.length l) l d.
Proof.
  intros Hidx Hi. unfold rotate.
  destruct (Nat.ltb_spec i (List.length l - idx)) as [L|L].
  - rewrite app_nth1 by (rewrite length_skipn; lia).
    apply nth_skipn.
  - rewrite app_nth2 by (rewrite length_skipn; lia).
    rewrite length_skipn, nth_firstn.
    replace (i - (List.length l - idx) <? idx)%nat with true
      by (symmetry; apply Nat.ltb_lt; lia).
    f_equal. lia.
Qed.

Lemma tl_skipn {A : Type} (k : nat) :
  forall l : list A, tl (skipn k l) = skipn (S k) l.
Proof.
  induction k as [|k IH]; intros [|x l]; cbn [skipn tl]; try reflexivity.
  apply IH.
Qed.

Lemma aset_nat_app {A : Type} (a : list A) (x v : A) (b : list A) :
  aset_nat (a ++ x :: b) (List.length a) v = a ++ v :: b.
Proof.
  induction a as [|y a IH]; cbn [app List.length aset_nat]; [reflexivity|].
  rewrite IH. reflexivity.
Qed.

Lemma rotate_write {A : Type} (l : list A) (idx : nat) (v : A) :
  (idx < List.length l)%nat ->
  rotate (if (S idx <? List.length l)%nat then S idx else 0) (aset_nat l idx v)
  = tl (rotate idx l) ++ [v].
Proof.
  intros Hidx.
  assert (Split : exists a x b, l = a ++ x :: b /\ List.length a = idx).
  { exists (firstn idx l).
    destruct (skipn idx l) as [|x b] eqn:E.
    - assert (List.length (skipn idx l) = 0%nat) by (rewrite E; reflexivity).
      rewrite length_skipn in H. lia.
    - exists x, b. split.
      + rewrite <- E. symmetry. apply firstn_skipn.
      + rewrite length_firstn. lia. }
  destruct Split as (a & x & b & -> & <-).
  rewrite aset_nat_app. unfold rotate.
  rewrite length_app. cbn [List.length].
  replace (skipn (List.length a) (a ++ x :: b)) with (x :: b)
    by (rewrite skipn_app, skipn_all, Nat.sub_diag; reflexivity).
  replace (firstn (List.length a) (a ++ x :: b)) with a
    by (rewrite firstn_app, firstn_all, Nat.sub_diag, app_nil_r; reflexivity).
  cbn [app tl].
  destruct (Nat.ltb_spec (S (List.length a)) (List.length a + S (List.length b)))
    as [L|L].
  - replace (a ++ v :: b) with ((a ++ [v]) ++ b)
      by (rewrite <- app_assoc; reflexivity).
    replace (S (List.length a)) with (List.length (a ++ [v]))
      by (rewrite length_app; cbn [List.length]; lia).
    rewrite skipn_app, skipn_all, Nat.sub_diag.
    rewrite firstn_app, firstn_all, Nat.sub_diag.
    cbn [skipn firstn app]. rewrite app_nil_r, app_assoc. reflexivity.
  - assert (b = []) by (destruct b; [reflexivity | cbn [List.length] in L; lia]).
    subst b. cbn [skipn firstn app]. rewrite app_nil_r. reflexivity.
Qed.

Lemma lastn_snoc {A : Type} (n : nat) (l : list A) (x : A) :
  (1 <= n <= List.length l)%nat ->
  lastn n (l ++ [x]) = tl (lastn n l) ++ [x].
Proof.
  intros H. unfold lastn. rewrite tl_skipn, length_app. cbn [List.length].
  rewrite skipn_app.
  replace (List.length l + 1 - n)%nat with (S (List.length l - n)) by lia.
  replace (S (List.length l - n) - List.length l)%nat with 0%nat by lia.
  reflexivity.
Qed.

Lemma skipn_repeat {A : Type} (x : A) (n : nat) :
  forall k : nat, skipn k (repeat x n) = repeat x (n - k).
Proof.
  induction n as [|n IH]; intros [|k]; cbn [repeat skipn Nat.sub]; try reflexivity.
  apply IH.
Qed.

Lemma lastn_padded {A : Type} (x : A) (n : nat) (l : list A) :
  lastn n (repeat x n ++ l) = repeat x (n - List.length l) ++ lastn n l.
Proof.
  unfold lastn. rewrite length_app, repeat_length.
  replace (n + List.length l - n)%nat with (List.length l) by lia.
  rewrite skipn_app, skipn_repeat, repeat_length. reflexivity.
Qed.

(** The ring after the lines [lines] were logged: read from [logIndex] on,
    it holds the last fifty of them behind the entries never written. *)
Lemma logAll_invariant (writes : list (Z * string)) :
  forall (r : LogRing) (lines : list string),
    List.length (logBuffer r) = 50%nat ->
    0 <= logIndex r < 50 ->
    rotate (Z.to_nat (logIndex r)) (logBuffer r)
    = lastn 50 (repeat ""%string 50 ++ lines) ->
    let r' := logAll writes r in
    List.length (logBuffer r') = 50%nat
    /\ 0 <= logIndex r' < 50
    /\ rotate (Z.to_nat (logIndex r')) (logBuffer r')
       = lastn 50 (repeat ""%string 50
                     ++ lines ++ map (fun w => logLine (fst w) (snd w)) writes).
Proof.
  induction writes as [|[t m] writes IH]; intros r lines Hlen Hidx Hrot.
  - cbn [logAll fold_left map]. rewrite app_nil_r. repeat split; try assumption; lia.
  - cbn [logAll fold_left map fst snd].
    change (fold_left (fun r0 w => logMessage_ring (fst w) (snd w) r0) writes ?x)
      with (logAll writes x).
    replace (lines ++ logLine t m :: map (fun w => logLine (fst w) (snd w)) writes)
      with ((lines ++ [logLine t m])
              ++ map (fun w => logLine (fst w) (snd w)) writes)
      by (rewrite <- app_assoc; reflexivity).
    apply IH.
    + cbn [logMessage_ring logBuffer]. rewrite length_aset. exact Hlen.
    + cbn [logMessage_ring logIndex]. unfold MAX_LOG_LINES.
      rewrite Z.rem_mod_nonneg by lia.
      apply Z.mod_pos_bound. lia.
    + cbn [logMessage_ring logIndex logBuffer]. unfold MAX_LOG_LINES, aset.
      replace (logIndex r <? 0) with false by (symmetry; apply Z.ltb_ge; lia).
      rewrite app_assoc, lastn_snoc
        by (rewrite length_app, repeat_length; lia).
      rewrite <- Hrot.
      rewrite <- rotate_write by lia.
      f_equal. rewrite Hlen.
      rewrite Z.rem_mod_nonneg by lia.
      destruct (Nat.ltb_spec (S (Z.to_nat (logIndex r))) 50) as [L|L].
      * rewrite Z.mod_small by lia. lia.
      * assert (logIndex r = 49) by lia.
        replace (logIndex r + 1) with 50 by lia. reflexivity.
Qed.

Lemma fold_left_map_inner {A B C : Type} (f : A -> B -> A) (h : C -> B)
      (l : list C) :
  forall a : A, fold_left (fun acc i => f acc (h i)) l a = fold_left f (map h l) a.
Proof.
  induction l as [|x l IH]; intros a; cbn [fold_left map]; [reflexivity|].
  apply IH.
Qed.

(** Reading the ring is reading its rotation. *)
Lemma logContent_rotate (r : LogRing) :
  List.length (logBuffer r) = 50%nat ->
  0 <= logIndex r < 50 ->
  logContent r
  = fold_left appendLine (rotate (Z.to_nat (logIndex r)) (logBuffer r)) ""%string.
Proof.
  intros Hlen Hidx. unfold logContent. cbv zeta.
  rewrite (fold_left_map_inner appendLine
             (fun i => aget ""%string (logBuffer r)
                            (Z.rem (logIndex r + Z.of_nat i) MAX_LOG_LINES))).
  f_equal.
  apply (nth_ext _ _ ""%string ""%string).
  - rewrite length_map, length_seq, length_rotate, Hlen. reflexivity.
  - intros i Hi. rewrite length_map, length_seq in Hi.
    change (Z.to_nat MAX_LOG_LINES) with 50%nat in *.
    rewrite (nth_indep _ _ (aget ""%string (logBuffer r)
                                 (Z.rem (logIndex r + Z.of_nat 0) MAX_LOG_LINES)))
      by (rewrite length_map, length_seq; exact Hi).
    rewrite (map_nth (fun i => aget ""%string (logBuffer r)
                                    (Z.rem (logIndex r + Z.of_nat i) MAX_LOG_LINES))).
    rewrite seq_nth by exact Hi. cbn [Nat.add].
    rewrite nth_rotate by lia.
    unfold aget, MAX_LOG_LINES. rewrite Hlen.
    rewrite Z.rem_mod_nonneg by lia.
    destruct (Nat.ltb_spec i (50 - Z.to_nat (logIndex r))) as [L|L].
    + rewrite Z.mod_small by lia. f_equal. lia.
    + replace (logIndex r + Z.of_nat i)
        with ((logIndex r + Z.of_nat i - 50) + 1 * 50) by lia.
      rewrite Z.mod_add by lia. rewrite Z.mod_small by lia. f_equal. lia.
Qed.

Lemma fold_appendLine_empty (n : nat) :
  forall (l : list string) (acc : string),
    fold_left appendLine (repeat ""%string n ++ l) acc = fold_left appendLine l acc.
Proof.
  induction n as [|n IH]; intros l acc; cbn [repeat app fold_left]; [reflexivity|].
  apply IH.
Qed.

Lemma fold_appendLine_lines (l : list string) :
  (forall x, In x l -> 0 < strlen x) ->
  forall acc : string,
    fold_left appendLine l acc = (acc ++ joinLines l)%string.
Proof.
  induction l as [|x l IH]; intros H acc; cbn [fold_left joinLines].
  - rewrite string_app_nil_r. reflexivity.
  - rewrite IH by (intros y Hy; apply H; right; exact Hy).
    unfold appendLine.
    replace (0 <? strlen x) with true
      by (symmetry; apply Z.ltb_lt; apply H; left; reflexivity).
    rewrite !string_app_assoc. reflexivity.
Qed.

Lemma logLine_not_empty (t : Z) (m : string) : 0 < strlen (logLine t m).
Proof. unfold logLine, strlen. cbn [append String.length]. lia. Qed.

Lemma In_lastn {A : Type} (n : nat) (l : list A) (x : A) :
  In x (lastn n l) -> In x l.
Proof.
  unfold lastn. intros H.
  rewrite <- (firstn_skipn (List.length l - n) l). apply in_or_app. right. exact H.
Qed.

(** X26. The log ring is a faithful window: after any number of lines
    logged since boot, [handleLogDataRequest] answers 200 with the last
    fifty of them, oldest first, each with its seconds stamp and a line
    feed, and nothing else; the write index is the number of lines modulo
    fifty. *)
Theorem log_ring_serves_the_last_fifty_lines
  (writes : list (Z * string)) (p : Panel) :
  isAuthenticated (web (machine p)) = true ->
  let r := logAll writes emptyRing in
  let lines := map (fun w => logLine (fst w) (snd w)) writes in
  logContent r = joinLines (lastn 50 lines)
  /\ handleLogDataRequest r p = (200, joinLines (lastn 50 lines), touchWeb p)
  /\ logIndex r = Z.of_nat (List.length writes) mod 50.
Proof.
  intros Ha. cbv zeta.
  assert (C : logContent (logAll writes emptyRing)
              = joinLines (lastn 50 (map (fun w => logLine (fst w) (snd w)) writes))).
  { destruct (logAll_invariant writes emptyRing []) as (L & I & R).
    - reflexivity.
    - cbn [emptyRing logIndex]. lia.
    - reflexivity.
    - cbv zeta in L, I, R. rewrite logContent_rotate by assumption.
      rewrite R. cbn [app]. rewrite lastn_padded, fold_appendLine_empty.
      rewrite fold_appendLine_lines; [reflexivity|].
      intros x Hx. apply In_lastn in Hx. apply in_map_iff in Hx.
      destruct Hx as (w & <- & _). apply logLine_not_empty. }
  split; [exact C|]. split.
  - unfold handleLogDataRequest. pfields. rewrite Ha. cbn [negb]. rewrite C.
    reflexivity.
  - clear C. 
    assert (G : forall ws r, 0 <= logIndex r < 50 ->
                logIndex (logAll ws r)
                = (logIndex r + Z.of_nat (List.length ws)) mod 50).
    { induction ws as [|w ws IH]; intros r Hr.
      - cbn [logAll fold_left List.length]. rewrite Z.add_0_r, Z.mod_small by lia.
        reflexivity.
      - cbn [logAll fold_left].
        change (fold_left (fun r0 w0 => logMessage_ring (fst w0) (snd w0) r0) ws ?x)
          with (logAll ws x).
        rewrite IH.
        + cbn [logMessage_ring logIndex]. unfold MAX_LOG_LINES.
          rewrite Z.rem_mod_nonneg by lia.
          rewrite Zplus_mod_idemp_l. f_equal. cbn [List.length]. lia.
        + cbn [logMessage_ring logIndex]. unfold MAX_LOG_LINES.
          rewrite Z.rem_mod_nonneg by lia. apply Z.mod_pos_bound. lia. }
    rewrite G by (cbn [emptyRing logIndex]; lia).
    reflexivity.
Qed.

Lemma log_ring_serves_the_last_fifty_lines_witness :
  let writes := [(10000, "System starting"); (65000, "Web: Login successful.");
                 (65100, "Web: Credit reset to 0.")]%string in
  isAuthenticated (web (machine adminPanel)) = true
  /\ logContent (logAll writes emptyRing)
     = ("[10s] System starting" ++ newline
        ++ "[65s] Web: Login successful." ++ newline
        ++ "[65s] Web: Credit reset to 0." ++ newline)%string
  /\ fst (fst (handleLogDataRequest (logAll writes emptyRing) adminPanel)) = 200.
Proof.
  cbv zeta.
  destruct (log_ring_serves_the_last_fifty_lines
              [(10000, "System starting"); (65000, "Web: Login successful.");
               (65100, "Web: Credit reset to 0.")]%string adminPanel eq_refl)
    as (A & B & _).
  split; [reflexivity|]. split; [rewrite A; reflexivity|].
  rewrite B. reflexivity.
Defined.
